(** * The student simulation environment ([environment.py])

    A shallow embedding of [StudentEnv] and [StudentEnvBypass], the gym
    environments of [environment.py], with the properties of their
    [step], [_test], [_train], [_get_test_mean], [_get_mean_type_gain]
    and [_get_mean_skills_gains] operations.

    Numbers.  numpy's float64 values are modelled by exact rationals [Q],
    compared with [==]; integers of the action by [Z]; sizes and validated
    indices by [nat].  One definition, [average_1_half_float64], is in
    binary64, for the one property whose wording depends on rounding.

    Randomness.  Every call of [np.random.normal(loc, scale)] is modelled as
    [loc + scale * z] for a standard-normal deviate [z] that the caller of
    the model passes in; [np.random.random()] and [np.random.choice] take a
    uniform deviate [u] of [0, 1) in the same way.

    Effects.  Methods that mutate [self] are computations of the monad [M]:
    they take the environment and give back the environment together with a
    value or the exception raised.  As in Python, an exception keeps the
    mutations made before it. *)

From Stdlib Require Import PrimFloat.
From Stdlib Require Import QArith Qpower Qround Lqa ZArith Lia.
From stdpp Require Import base option list.

Local Open Scope Q_scope.

(** ** Exceptions, results and the environment monad *)

Inductive exn : Set :=
  | AssertionError
  | IndexError
  | ValueError
  | TypeError
  | ZeroDivisionError.

Inductive result (A : Type) : Type :=
  | Ok (a : A)
  | Raise (e : exn).
Arguments Ok {A} a.
Arguments Raise {A} e.

Definition M (St A : Type) : Type := St -> St * result A.

Definition ret {St A} (a : A) : M St A := fun st => (st, Ok a).

Definition raise {St A} (e : exn) : M St A := fun st => (st, Raise e).

Definition bind {St A B} (m : M St A) (k : A -> M St B) : M St B :=
  fun st =>
    match m st with
    | (st', Ok a) => k a st'
    | (st', Raise e) => (st', Raise e)
    end.

Definition get {St} : M St St := fun st => (st, Ok st).

Definition gets {St A} (f : St -> A) : M St A := fun st => (st, Ok (f st)).

Definition modify {St} (f : St -> St) : M St unit := fun st => (f st, Ok tt).

(** A partial operation of the array layer: [None] becomes the exception. *)
Definition orRaise {St A} (e : exn) (o : option A) : M St A :=
  match o with
  | Some a => ret a
  | None => raise e
  end.

(** A read-only method: it may raise, it never writes. *)
Definition reading {St A} (f : St -> result A) : M St A :=
  fun st => (st, f st).

Declare Scope env_scope.
Delimit Scope env_scope with env.
Notation "x <- m ;; k" := (bind m (fun x => k))
  (at level 100, m at next level, right associativity) : env_scope.
Notation "m ;; k" := (bind m (fun _ => k))
  (at level 100, right associativity) : env_scope.

(** [for x in xs: body x] *)
Fixpoint for_each {St A} (xs : list A) (body : A -> M St unit) : M St unit :=
  match xs with
  | [] => ret tt
  | x :: rest => bind (body x) (fun _ => for_each rest body)
  end.

(** [range(n)] *)
Definition range (n : nat) : list nat := seq 0 n.

(** ** Python and numpy arithmetic on [Q] *)

Definition Qlt_bool (a b : Q) : bool := negb (Qle_bool b a).

(** [max(a, b)]: the first argument unless the second is greater. *)
Definition py_max (a b : Q) : Q := if Qlt_bool a b then b else a.

(** [min(a, b)]: the first argument unless the second is smaller. *)
Definition py_min (a b : Q) : Q := if Qlt_bool b a then b else a.

(** [a ** n] for a natural exponent. *)
Definition py_pow (a : Q) (n : nat) : Q := a ^ Z.of_nat n.

Definition Qnat (n : nat) : Q := inject_Z (Z.of_nat n).

(** [np.sum] of a vector. *)
Definition np_sum (v : list Q) : Q := foldr Qplus 0 v.

(** [np.random.normal(loc, scale)] at the standard-normal deviate [z]. *)
Definition random_normal (loc scale z : Q) : Q := loc + scale * z.

(** [np.linspace(0, 100, num=n, endpoint=False)]. *)
Definition linspace (n : nat) : list Q :=
  map (fun i => Qnat i * (100 / Qnat n)) (range n).

(** [np.average([a, b], weights=[wa, wb])] of two scalars; numpy raises
    [ZeroDivisionError] when the weights sum to zero. *)
Definition np_average (a b wa wb : Q) : result Q :=
  if Qeq_bool (wa + wb) 0 then Raise ZeroDivisionError
  else Ok ((a * wa + b * wb) / (wa + wb)).

(** [np.average([a, b], weights=[1, 0.5], axis=0)] of two vectors, which
    must have one length to form an array; [average_1_half] is one entry. *)
Definition average_1_half (x y : Q) : Q := (x * 1 + y * (1 # 2)) / (1 + (1 # 2)).

(** The same average in binary64, the arithmetic of the arrays: numpy
    multiplies the values by the weights, adds the products and divides by
    the sum of the weights, and rounds after each operation. *)
Definition average_1_half_float64 (x y : float) : float :=
  ((x * 1 + y * 0.5) / (1 + 0.5))%float.

Definition np_average_rows (a b : list Q) : result (list Q) :=
  if (length a =? length b)%nat then Ok (zip_with average_1_half a b)
  else Raise ValueError.

(** [np.argmax]: the first index of a maximal entry; [ValueError] on an
    empty vector. *)
Fixpoint argmax_from (best : Q) (besti i : nat) (v : list Q) : nat :=
  match v with
  | [] => besti
  | x :: rest =>
      if Qlt_bool best x then argmax_from x i (S i) rest
      else argmax_from best besti (S i) rest
  end.

Definition np_argmax (v : list Q) : result nat :=
  match v with
  | [] => Raise ValueError
  | x :: rest => Ok (argmax_from x 0%nat 1%nat rest)
  end.

(** Pointwise sum of the rows of a matrix whose rows have [n] entries
    ([np.sum(m, axis=0)]). *)
Definition sum_rows (n : nat) (m : list (list Q)) : list Q :=
  foldr (zip_with Qplus) (replicate n 0) m.

(** Python indexing [l[i]] with an integer that may be negative. *)
Definition py_index {A} (l : list A) (i : Z) : option A :=
  if (0 <=? i)%Z then l !! Z.to_nat i
  else if (- Z.of_nat (length l) <=? i)%Z then l !! Z.to_nat (Z.of_nat (length l) + i)
  else None.

(** ** Three-dimensional arrays

    [last_scores] and [train_counter] are numpy arrays indexed by
    (subject, difficulty, field).  They are nested lists here; numpy arrays
    are rectangular, which [shape3] states. *)

Definition shape3 (a : list (list (list Q))) (n1 n2 n3 : nat) : Prop :=
  length a = n1 /\
  Forall (fun r => length r = n2 /\ Forall (fun c => length c = n3) r) a.

(** [a[s, d]], a row of fields. *)
Definition cell (a : list (list (list Q))) (s d : nat) : option (list Q) :=
  match a !! s with
  | Some r => r !! d
  | None => None
  end.

(** [a[s, d] = c]. *)
Definition set_cell (a : list (list (list Q))) (s d : nat) (c : list Q)
  : option (list (list (list Q))) :=
  match a !! s with
  | Some r =>
      match r !! d with
      | Some _ => Some (<[s := <[d := c]> r]> a)
      | None => None
      end
  | None => None
  end.

(** [c[f] = x] on a row of fields. *)
Definition set_item (c : list Q) (f : nat) (x : Q) : option (list Q) :=
  match c !! f with
  | Some _ => Some (<[f := x]> c)
  | None => None
  end.

(** Where the slice [c[-n:]] starts: [-0] is [0], so [n = 0] gives the whole
    row; a slice longer than the row starts at 0. *)
Definition tail_start (n : nat) (c : list Q) : nat :=
  if (n =? 0)%nat then 0%nat else (length c - n)%nat.

(** [c[-n:]] *)
Definition tail_slice (n : nat) (c : list Q) : list Q := drop (tail_start n c) c.

(** [c[-n:] = v]: the shapes must agree, or [v] has one entry, which is
    broadcast. *)
Definition set_tail_slice (n : nat) (v c : list Q) : option (list Q) :=
  let k := tail_start n c in
  if (length v =? length c - k)%nat then Some (take k c ++ v)
  else match v with
       | [x] => Some (take k c ++ replicate (length c - k) x)
       | _ => None
       end.

(** [c[2:2+n]] *)
Definition counts_slice (n : nat) (c : list Q) : list Q := take n (drop 2 c).

(** [c[2:2+n] = 0] *)
Definition zero_counts (n : nat) (c : list Q) : list Q :=
  take 2 c ++ replicate (length (counts_slice n c)) 0 ++ drop (2 + n) c.

(** [a[:, :, 0]]: the layer of last test scores.  The field axis has
    [2 + 2 * num_learning_types] entries, so field 0 exists. *)
Definition layer0 (a : list (list (list Q))) : list (list Q) :=
  map (map (fun c => hd 0 c)) a.

(** [a[:, -1, 0]]: every subject's score at the highest difficulty. *)
Definition top_scores (a : list (list (list Q))) : option (list Q) :=
  mapM (fun r => match last r with
                 | Some c => c !! 0%nat
                 | None => None
                 end) a.

(** A value that is a scalar or a vector, for a Python variable that is
    bound to both in turn. *)
Inductive ndvalue : Type :=
  | Scalar (x : Q)
  | Vector (v : list Q).

(** [row += r] with numpy broadcasting. *)
Definition add_broadcast (row : list Q) (r : ndvalue) : option (list Q) :=
  match r with
  | Scalar x => Some (map (fun y => y + x) row)
  | Vector [x] => Some (map (fun y => y + x) row)
  | Vector v =>
      if (length v =? length row)%nat then Some (zip_with Qplus row v) else None
  end.

(** ** Module constants *)

Definition MEAN_START_SKILL_LEVEL : Q := 20.
Definition STD_START_SKILL_LEVEL : Q := 10.
Definition POPULATION_MEAN_SKILL_GAIN : Q := 2.
Definition STUDENT_SKILL_GAIN_STD : Q := 2 # 10.
Definition TEST_SCORE_STD : Q := 1 # 2.
Definition TARGET_SCORE : Q := 95.
Definition REVIEW_RATIO : Q := 1 # 4.
Definition REWARD_FOR_ACHIEVING_TARGET_LEVEL : Q := 200.
Definition REWARD_FOR_ACHIEVING_ALL_LEVELS : Q := 2000.
Definition PENALTY_FOR_UNNECESSARY_TEST : Q := - (700).
Definition TIME_PENALTY_FOR_TEST : Q := - (2).
Definition GAIN_MULTIPLIER_FOR_TEST : Q := 0.
Definition NOT_ADAPTED_DIFFICULTY_PENALTY : Q := 1 # 4.
Definition GAIN_REWARD_RATIO : Q := 1 # 10.
Definition PROPER_LEARNING_TYPE_REWARD : Q := 0.

(** ** External collaborators

    [np.sqrt] has no rational model, and [estimate_skills] is imported from
    the module [utils], which is not part of the sources at hand: both are
    taken as an interface. *)

Class Externals : Type := {
  np_sqrt : Q -> Q;
  estimate_skills : list (list Q) -> Q -> list Q
}.

(** [estimate_skills] gives one estimate per subject (per row of scores). *)
Definition one_estimate_per_subject `{Externals} : Prop :=
  forall (scores : list (list Q)) (ratio : Q),
    length (estimate_skills scores ratio) = length scores.

(** ** The environment *)

(** The dictionary [self.last_action]; an absent key is [None].
    [la_action] is the index into [['train', 'test']]. *)
Record action_log : Type := {
  la_action : Z;
  la_subject : Z;
  la_difficulty : Z;
  la_test_score : option Q;
  la_improvement : option Q;
  la_learning_type : option Z;
  la_reward : option Q
}.

Record StudentEnv : Type := {
  action_space : list Z;            (* nvec of the MultiDiscrete space *)
  difficulties_levels : nat;
  learning_type_number : nat;
  num_subjects : nat;
  skills_levels : list Q;
  last_scores : list (list (list Q));
  mean_skill_gains : list (list Q);
  difficulties_thresholds : list Q;
  review_ratio : Q;
  cumulative_train_time : list Q;
  train_counter : list (list (list Q));
  episode : nat;
  step_num : nat;
  last_action : option action_log
}.

Definition with_skills_levels (v : list Q) (e : StudentEnv) : StudentEnv :=
  {| action_space := action_space e;
     difficulties_levels := difficulties_levels e;
     learning_type_number := learning_type_number e;
     num_subjects := num_subjects e;
     skills_levels := v;
     last_scores := last_scores e;
     mean_skill_gains := mean_skill_gains e;
     difficulties_thresholds := difficulties_thresholds e;
     review_ratio := review_ratio e;
     cumulative_train_time := cumulative_train_time e;
     train_counter := train_counter e;
     episode := episode e;
     step_num := step_num e;
     last_action := last_action e |}.

Definition with_last_scores (a : list (list (list Q))) (e : StudentEnv) : StudentEnv :=
  {| action_space := action_space e;
     difficulties_levels := difficulties_levels e;
     learning_type_number := learning_type_number e;
     num_subjects := num_subjects e;
     skills_levels := skills_levels e;
     last_scores := a;
     mean_skill_gains := mean_skill_gains e;
     difficulties_thresholds := difficulties_thresholds e;
     review_ratio := review_ratio e;
     cumulative_train_time := cumulative_train_time e;
     train_counter := train_counter e;
     episode := episode e;
     step_num := step_num e;
     last_action := last_action e |}.

Definition with_cumulative_train_time (v : list Q) (e : StudentEnv) : StudentEnv :=
  {| action_space := action_space e;
     difficulties_levels := difficulties_levels e;
     learning_type_number := learning_type_number e;
     num_subjects := num_subjects e;
     skills_levels := skills_levels e;
     last_scores := last_scores e;
     mean_skill_gains := mean_skill_gains e;
     difficulties_thresholds := difficulties_thresholds e;
     review_ratio := review_ratio e;
     cumulative_train_time := v;
     train_counter := train_counter e;
     episode := episode e;
     step_num := step_num e;
     last_action := last_action e |}.

Definition with_train_counter (a : list (list (list Q))) (e : StudentEnv) : StudentEnv :=
  {| action_space := action_space e;
     difficulties_levels := difficulties_levels e;
     learning_type_number := learning_type_number e;
     num_subjects := num_subjects e;
     skills_levels := skills_levels e;
     last_scores := last_scores e;
     mean_skill_gains := mean_skill_gains e;
     difficulties_thresholds := difficulties_thresholds e;
     review_ratio := review_ratio e;
     cumulative_train_time := cumulative_train_time e;
     train_counter := a;
     episode := episode e;
     step_num := step_num e;
     last_action := last_action e |}.

Definition with_step_num (n : nat) (e : StudentEnv) : StudentEnv :=
  {| action_space := action_space e;
     difficulties_levels := difficulties_levels e;
     learning_type_number := learning_type_number e;
     num_subjects := num_subjects e;
     skills_levels := skills_levels e;
     last_scores := last_scores e;
     mean_skill_gains := mean_skill_gains e;
     difficulties_thresholds := difficulties_thresholds e;
     review_ratio := review_ratio e;
     cumulative_train_time := cumulative_train_time e;
     train_counter := train_counter e;
     episode := episode e;
     step_num := n;
     last_action := last_action e |}.

Definition with_last_action (la : option action_log) (e : StudentEnv) : StudentEnv :=
  {| action_space := action_space e;
     difficulties_levels := difficulties_levels e;
     learning_type_number := learning_type_number e;
     num_subjects := num_subjects e;
     skills_levels := skills_levels e;
     last_scores := last_scores e;
     mean_skill_gains := mean_skill_gains e;
     difficulties_thresholds := difficulties_thresholds e;
     review_ratio := review_ratio e;
     cumulative_train_time := cumulative_train_time e;
     train_counter := train_counter e;
     episode := episode e;
     step_num := step_num e;
     last_action := la |}.

(** The environment [e] with the episode counter [n]. *)
Definition with_episode (n : nat) (e : StudentEnv) : StudentEnv :=
  {| action_space := action_space e;
     difficulties_levels := difficulties_levels e;
     learning_type_number := learning_type_number e;
     num_subjects := num_subjects e;
     skills_levels := skills_levels e;
     last_scores := last_scores e;
     mean_skill_gains := mean_skill_gains e;
     difficulties_thresholds := difficulties_thresholds e;
     review_ratio := review_ratio e;
     cumulative_train_time := cumulative_train_time e;
     train_counter := train_counter e;
     episode := n;
     step_num := step_num e;
     last_action := last_action e |}.

(** [self.last_action[key] = value]; [TypeError] on [None]. *)
Definition log_update (f : action_log -> action_log) : M StudentEnv unit :=
  fun e =>
    match last_action e with
    | Some la => (with_last_action (Some (f la)) e, Ok tt)
    | None => (e, Raise TypeError)
    end.

Definition log_test_score (x : Q) (la : action_log) : action_log :=
  {| la_action := la_action la; la_subject := la_subject la;
     la_difficulty := la_difficulty la; la_test_score := Some x;
     la_improvement := la_improvement la; la_learning_type := la_learning_type la;
     la_reward := la_reward la |}.

Definition log_improvement (x : Q) (la : action_log) : action_log :=
  {| la_action := la_action la; la_subject := la_subject la;
     la_difficulty := la_difficulty la; la_test_score := la_test_score la;
     la_improvement := Some x; la_learning_type := la_learning_type la;
     la_reward := la_reward la |}.

Definition log_learning_type (t : Z) (la : action_log) : action_log :=
  {| la_action := la_action la; la_subject := la_subject la;
     la_difficulty := la_difficulty la; la_test_score := la_test_score la;
     la_improvement := la_improvement la; la_learning_type := Some t;
     la_reward := la_reward la |}.

Definition log_reward (x : Q) (la : action_log) : action_log :=
  {| la_action := la_action la; la_subject := la_subject la;
     la_difficulty := la_difficulty la; la_test_score := la_test_score la;
     la_improvement := la_improvement la; la_learning_type := la_learning_type la;
     la_reward := Some x |}.

(** Reads and writes of [self.last_scores] and [self.train_counter]. *)

Definition scores_cell (s d : nat) : M StudentEnv (list Q) :=
  fun e => orRaise IndexError (cell (last_scores e) s d) e.

Definition scores_set_cell (s d : nat) (c : list Q) : M StudentEnv unit :=
  fun e =>
    match set_cell (last_scores e) s d c with
    | Some a => (with_last_scores a e, Ok tt)
    | None => (e, Raise IndexError)
    end.

(** [self.last_scores[s, d, f]] *)
Definition scores_item (s d f : nat) : M StudentEnv Q :=
  (c <- scores_cell s d ;; orRaise IndexError (c !! f))%env.

(** [self.last_scores[s, d, f] = x] *)
Definition scores_set_item (s d f : nat) (x : Q) : M StudentEnv unit :=
  (c <- scores_cell s d ;;
   c' <- orRaise IndexError (set_item c f x) ;;
   scores_set_cell s d c')%env.

(** [self.last_scores[s, d, -n:] = v] *)
Definition scores_set_tail (n s d : nat) (v : list Q) : M StudentEnv unit :=
  (c <- scores_cell s d ;;
   c' <- orRaise ValueError (set_tail_slice n v c) ;;
   scores_set_cell s d c')%env.

(** ** [StudentEnv]: difficulty classification and the test mean *)

(** [sum(thresholds <= skill) - 1] *)
Definition proper_difficulty (thresholds : list Q) (skill : Q) : Z :=
  (Z.of_nat (sum_list_with (fun t => if Qle_bool t skill then 1%nat else 0%nat)
               thresholds) - 1)%Z.

Definition _get_proper_difficulty (skill : Q) : M StudentEnv Z :=
  (e <- get ;; ret (proper_difficulty (difficulties_thresholds e) skill))%env.

Definition _get_scaled_mean_score (subject : nat) (difficulty : Z) : M StudentEnv Q :=
  (e <- get ;;
   skill <- orRaise IndexError (skills_levels e !! subject) ;;
   threshold <- orRaise IndexError (py_index (difficulties_thresholds e) difficulty) ;;
   ret ((skill - threshold) * Qnat (difficulties_levels e)))%env.

Definition _get_too_hard_test_mean (subject : nat) (difficulty proper_difficulty : Z)
  : M StudentEnv Q :=
  (review_mean <- _get_scaled_mean_score subject proper_difficulty ;;
   e <- get ;;
   ret (review_ratio e ^ (difficulty - proper_difficulty) * review_mean))%env.

Definition _get_proper_test_mean (subject : nat) (difficulty : Z) : M StudentEnv Q :=
  (proper_mean <- _get_scaled_mean_score subject difficulty ;;
   e <- get ;;
   let review_score := if (difficulty =? 0)%Z then 0 else review_ratio e in
   ret (review_score * 100 + proper_mean * (1 - review_score)))%env.

Definition _get_test_mean (subject difficulty : nat) : M StudentEnv Q :=
  (e <- get ;;
   skill <- orRaise IndexError (skills_levels e !! subject) ;;
   proper_difficulty <- _get_proper_difficulty skill ;;
   if (proper_difficulty <? Z.of_nat difficulty)%Z
   then _get_too_hard_test_mean subject (Z.of_nat difficulty) proper_difficulty
   else if (Z.of_nat difficulty <? proper_difficulty)%Z
   then ret 100
   else _get_proper_test_mean subject (Z.of_nat difficulty))%env.

(** [NOT_ADAPTED_DIFFICULTY_PENALTY ** abs(learning_difficulty - proper_difficulty)] *)
Definition _get_not_adapted_learning_penalty (skill : Q) (learning_difficulty : nat)
  : M StudentEnv Q :=
  (proper_difficulty <- _get_proper_difficulty skill ;;
   ret (NOT_ADAPTED_DIFFICULTY_PENALTY
          ^ Z.abs (Z.of_nat learning_difficulty - proper_difficulty)))%env.

(** ** [StudentEnv]: gain attribution *)

(** What [_get_mean_type_gain] returns: a new array, or (from its [else]
    branch) the slice [self.last_scores[s, d, -n:]], which numpy gives as a
    view that shares the memory of [last_scores]. *)
Inductive type_gain : Type :=
  | Fresh (v : list Q)
  | StoredRow (s d : nat).

(** The entries of a [type_gain] at the time it is read. *)
Definition type_gain_value (g : type_gain) : M StudentEnv (list Q) :=
  match g with
  | Fresh v => ret v
  | StoredRow s d =>
      (e <- get ;;
       c <- scores_cell s d ;;
       ret (tail_slice (learning_type_number e) c))%env
  end.

(** [self.train_counter[subject, d, :] += ratio] *)
Definition counter_add (subject d : nat) (ratio : ndvalue) : M StudentEnv unit :=
  fun e =>
    match cell (train_counter e) subject d with
    | Some row =>
        match add_broadcast row ratio with
        | Some row' =>
            match set_cell (train_counter e) subject d row' with
            | Some a => (with_train_counter a e, Ok tt)
            | None => (e, Raise IndexError)
            end
        | None => (e, Raise ValueError)
        end
    | None => (e, Raise IndexError)
    end.

(** The loop [for idx, elem in enumerate(zip(stored, ratio))] of
    [_get_mean_type_gain], from index [idx] on.  Its state is the array
    [result] and the variable [ratio], which the loop's first statement
    [last_avg, ratio = elem] rebinds to the scalar of the pair. *)
Fixpoint attribute_types (subject difficulty : nat) (new_gain : Q) (idx : nat)
  (elems : list (Q * Q)) (result : list Q) (ratio : ndvalue)
  : M StudentEnv (list Q * ndvalue) :=
  match elems with
  | [] => ret (result, ratio)
  | (last_avg, r) :: rest =>
      (e <- get ;;
       row <- orRaise IndexError (cell (train_counter e) subject difficulty) ;;
       counter <- orRaise IndexError (row !! idx) ;;
       x <- (if Qeq_bool counter 0 then ret new_gain
             else reading (fun _ => np_average last_avg new_gain counter r)) ;;
       result' <- orRaise IndexError (set_item result idx x) ;;
       attribute_types subject difficulty new_gain (S idx) rest result' (Scalar r))%env
  end.

Definition _get_mean_type_gain (subject difficulty : nat) (estimated_improvement : Q)
  : M StudentEnv type_gain :=
  (e <- get ;;
   let n := learning_type_number e in
   c <- scores_cell subject difficulty ;;
   let num_trainings_since_last_test := counts_slice n c in
   if Qlt_bool 0 (np_sum num_trainings_since_last_test) then
     let ratio := map (fun x => x / np_sum num_trainings_since_last_test)
                      num_trainings_since_last_test in
     let new_gain := estimated_improvement / np_sum num_trainings_since_last_test in
     looped <- attribute_types subject difficulty new_gain 0
                 (zip (tail_slice n c) ratio)
                 (replicate n (- (1))) (Vector ratio) ;;
     for_each (range n) (fun d => counter_add subject d (snd looped)) ;;
     ret (Fresh (fst looped))
   else ret (StoredRow subject difficulty))%env.

(** ** [StudentEnv]: [_test] *)

(** The body of [for s in range(self.num_subjects)] in [_test]. *)
Definition blend_subject (mean_type_gain : type_gain) (d s : nat) : M StudentEnv unit :=
  (e <- get ;;
   c <- scores_cell s d ;;
   v <- type_gain_value mean_type_gain ;;
   avg <- reading (fun _ => np_average_rows (tail_slice (learning_type_number e) c) v) ;;
   scores_set_tail (learning_type_number e) s d avg)%env.

(** The body of [for d in range(self.difficulties_levels)] in [_test]. *)
Definition propagate_difficulty (mean_type_gain : type_gain) (subject d : nat)
  : M StudentEnv unit :=
  (e <- get ;;
   v <- type_gain_value mean_type_gain ;;
   scores_set_tail (learning_type_number e) subject d v ;;
   for_each (range (num_subjects e)) (blend_subject mean_type_gain d))%env.

(** The estimate of a subject's skill: [estimate_skills(scores, REVIEW_RATIO)[subject]] *)
Definition estimated_skill `{Externals} (scores : list (list Q)) (subject : nat)
  : M StudentEnv Q :=
  orRaise IndexError (estimate_skills scores REVIEW_RATIO !! subject).

(** [self.cumulative_train_time[subject]] *)
Definition train_time (subject : nat) : M StudentEnv Q :=
  fun e => orRaise IndexError (cumulative_train_time e !! subject) e.

(** The statements of [_test] up to the estimate of the improvement: they
    sample the score and store it and its gain; the value is
    [(previous_score, estimated_improvement)]. *)
Definition record_test_score `{Externals} (subject difficulty : nat) (z : Q)
  : M StudentEnv (Q * Q) :=
  (test_mean <- _get_test_mean subject difficulty ;;
   previous_score <- scores_item subject difficulty 0 ;;
   previous_scores <- gets (fun e => layer0 (last_scores e)) ;;
   let sampled_test_score :=
     py_min (py_max (random_normal test_mean TEST_SCORE_STD z) 0) 100 in
   scores_set_item subject difficulty 1 (sampled_test_score - previous_score) ;;
   scores_set_item subject difficulty 0 sampled_test_score ;;
   scores_now <- gets (fun e => layer0 (last_scores e)) ;;
   after <- estimated_skill scores_now subject ;;
   before <- estimated_skill previous_scores subject ;;
   ret (previous_score, after - before))%env.

(** The loop [for d in range(self.difficulties_levels)] of [_test]. *)
Definition propagate_type_gain (mean_type_gain : type_gain) (subject : nat)
  : M StudentEnv unit :=
  (e <- get ;;
   for_each (range (difficulties_levels e))
            (propagate_difficulty mean_type_gain subject))%env.

(** The statements of [_test] after that loop: they reset the counts of the
    tested cell and compute the reward. *)
Definition test_reward `{Externals} (subject difficulty : nat) (previous_score : Q)
  : M StudentEnv Q :=
  (e <- get ;;
   c <- scores_cell subject difficulty ;;
   scores_set_cell subject difficulty (zero_counts (learning_type_number e) c) ;;
   score <- scores_item subject difficulty 0 ;;
   log_update (log_test_score score) ;;
   time <- train_time subject ;;
   if Qeq_bool time 0 then ret TIME_PENALTY_FOR_TEST
   else
     score <- scores_item subject difficulty 0 ;;
     if Qle_bool TARGET_SCORE score then
       if Qlt_bool previous_score TARGET_SCORE
       then ret (REWARD_FOR_ACHIEVING_TARGET_LEVEL * Qnat (difficulty + 1)
                 / Qnat (difficulties_levels e))
       else ret PENALTY_FOR_UNNECESSARY_TEST
     else
       e <- get ;;
       score <- scores_item subject difficulty 0 ;;
       time <- train_time subject ;;
       ret (GAIN_MULTIPLIER_FOR_TEST * (1 / np_sqrt (Qnat (step_num e + 1)))
            * ((score - previous_score) / time) + TIME_PENALTY_FOR_TEST))%env.

Definition _test `{Externals} (subject difficulty : nat) (z : Q) : M StudentEnv Q :=
  (recorded <- record_test_score subject difficulty z ;;
   mean_type_gain <- _get_mean_type_gain subject difficulty (snd recorded) ;;
   propagate_type_gain mean_type_gain subject ;;
   test_reward subject difficulty (fst recorded))%env.

(** ** [StudentEnv]: [_train] *)

(** [np.sum(m, axis=0)] of a matrix. *)
Definition np_sum_axis0 (m : list (list Q)) : list Q :=
  match m with
  | [] => []
  | r :: _ => sum_rows (length r) m
  end.

(** [np.sum(self.last_scores[:, :, -n:], axis=(0, 1))] *)
Definition summed_type_gains (e : StudentEnv) : list Q :=
  let n := learning_type_number e in
  sum_rows (length (tail_slice n (replicate (2 + 2 * n) 0)))
           (map (tail_slice n) (concat (last_scores e))).

Definition _train `{Externals} (subject learning_type learning_difficulty : nat) (z : Q)
  : M StudentEnv Q :=
  (e <- get ;;
   gains <- orRaise IndexError (mean_skill_gains e !! subject) ;;
   mean_gain <- orRaise IndexError (gains !! learning_type) ;;
   let sampled_gain := random_normal mean_gain STUDENT_SKILL_GAIN_STD z in
   skill <- orRaise IndexError (skills_levels e !! subject) ;;
   penalty <- _get_not_adapted_learning_penalty skill learning_difficulty ;;
   let adjusted_gain := py_max (sampled_gain * penalty) 0 in
   modify (with_skills_levels
             (<[subject := py_min (skill + adjusted_gain) 100]> (skills_levels e))) ;;
   log_update (log_improvement (py_max adjusted_gain 0)) ;;
   log_update (log_learning_type (Z.of_nat learning_type + 1)) ;;
   time <- train_time subject ;;
   modify (with_cumulative_train_time
             (<[subject := time + Qnat (learning_type + 1)]> (cumulative_train_time e))) ;;
   count <- scores_item subject learning_difficulty (2 + learning_type) ;;
   scores_set_item subject learning_difficulty (2 + learning_type) (count + 1) ;;
   scores_now <- gets (fun e => layer0 (last_scores e)) ;;
   estimate <- estimated_skill scores_now subject ;;
   estimated_penalty <- _get_not_adapted_learning_penalty estimate learning_difficulty ;;
   let estimated_gain := POPULATION_MEAN_SKILL_GAIN * Qnat learning_type in
   let adapted_learning_reward := estimated_penalty * estimated_gain * GAIN_REWARD_RATIO in
   e' <- get ;;
   predicted_excellence <- reading (fun _ => np_argmax (summed_type_gains e')) ;;
   excellence <- reading (fun _ => np_argmax (np_sum_axis0 (mean_skill_gains e'))) ;;
   if (learning_type =? excellence)%nat && (predicted_excellence =? learning_type)%nat
   then ret PROPER_LEARNING_TYPE_REWARD
   else ret 0)%env.

(** ** [StudentEnv]: [step] *)

(** [MultiDiscrete(nvec).contains(x)] *)
Definition contains (nvec x : list Z) : bool :=
  (length x =? length nvec)%nat
  && forallb (fun v => (0 <=? v)%Z) x
  && forallb (fun vn => (fst vn <? snd vn)%Z) (zip x nvec).

(** What [step] returns: [(self.last_scores, reward, is_done, {})]. *)
Record step_result : Type := {
  observation : list (list (list Q));
  reward : Q;
  is_done : Z
}.

(** [(self.last_scores[:, -1, 0] > TARGET_SCORE).all()] *)
Definition all_levels_achieved : M StudentEnv bool :=
  fun e =>
    match top_scores (last_scores e) with
    | Some tops => (e, Ok (forallb (fun x => Qlt_bool TARGET_SCORE x) tops))
    | None => (e, Raise IndexError)
    end.

(** [self.cumulative_train_time[subject] = 0] *)
Definition reset_train_time (subject : nat) : M StudentEnv unit :=
  fun e =>
    match cumulative_train_time e !! subject with
    | Some _ =>
        (with_cumulative_train_time (<[subject := 0]> (cumulative_train_time e)) e, Ok tt)
    | None => (e, Raise IndexError)
    end.

(** The [if is_test:] branch of [step]: the reward and [is_done]. *)
Definition test_branch `{Externals} (subject test_difficulty : nat) (z : Q)
  : M StudentEnv (Q * Z) :=
  (reward <- _test subject test_difficulty z ;;
   reset_train_time subject ;;
   achieved <- all_levels_achieved ;;
   if achieved : bool
   then ret (reward + REWARD_FOR_ACHIEVING_ALL_LEVELS, 1%Z)
   else ret (reward, 0%Z))%env.

(** The statements of [step] after the branch on [is_test]. *)
Definition finish_step `{Externals} (outcome : Q * Z) : M StudentEnv step_result :=
  (e <- get ;;
   let reward := fst outcome + - np_sqrt (Qnat (step_num e)) in
   log_update (log_reward reward) ;;
   modify (with_step_num (step_num e + 1)) ;;
   e' <- get ;;
   ret {| observation := last_scores e'; reward := reward; is_done := snd outcome |})%env.

Definition new_log (is_test subject difficulty_to_log : Z) : action_log :=
  {| la_action := is_test;
     la_subject := subject + 1;
     la_difficulty := difficulty_to_log + 1;
     la_test_score := None;
     la_improvement := None;
     la_learning_type := None;
     la_reward := None |}.

Definition step `{Externals} (action : list Z) (z : Q) : M StudentEnv step_result :=
  (e <- get ;;
   if negb (contains (action_space e) action) then raise AssertionError
   else
     match action with
     | [is_test; subject; test_difficulty; learning_types; learning_difficulty] =>
         let difficulty_to_log :=
           if (is_test =? 0)%Z then learning_difficulty else test_difficulty in
         modify (with_last_action (Some (new_log is_test subject difficulty_to_log))) ;;
         outcome <-
           (if (is_test =? 0)%Z
            then
              reward <- _train (Z.to_nat subject) (Z.to_nat learning_types)
                               (Z.to_nat learning_difficulty) z ;;
              ret (reward, 0%Z)
            else test_branch (Z.to_nat subject) (Z.to_nat test_difficulty) z) ;;
         finish_step outcome
     | _ => raise ValueError
     end)%env.

(** ** The skill-gain profile, the constructor and [reset] *)

(** The random draws of one call of [_get_mean_skills_gains]. *)
Record profile_draws : Type := {
  coin : Q;                    (* np.random.random() *)
  excellence_z : Q;            (* the deviate of np.random.normal(3, 0.2) *)
  other_z : nat -> Q;          (* the two deviates of np.random.normal(_, 0.1, 2) *)
  noise_z : nat -> nat -> Q    (* the deviates of np.random.normal(0, 0.05, size=(3, 3)) *)
}.

Definition perturb_and_clamp (dr : profile_draws) (row : list Q) : list (list Q) :=
  map (fun i =>
         imap (fun j x => py_max (x + random_normal 0 (5 # 100) (noise_z dr i j)) (5 # 100)) row)
      (range 3).

Definition _get_mean_skills_gains (subjects_number learning_types_number : nat)
  (dr : profile_draws) : list (list Q) :=
  if Qlt_bool (1 # 2) (coin dr)
  then perturb_and_clamp dr
         ([random_normal 3 (2 # 10) (excellence_z dr)]
          ++ map (fun k => random_normal (3 # 10) (1 # 10) (other_z dr k)) (range 2))
  else perturb_and_clamp dr
         (map (fun k => random_normal (2 # 10) (1 # 10) (other_z dr k)) (range 2)
          ++ [random_normal 3 (2 # 10) (excellence_z dr)]).

(** [np.maximum(np.random.normal(MEAN_START_SKILL_LEVEL, STD_START_SKILL_LEVEL,
    size=n), 0)] *)
Definition start_skills (n : nat) (skill_z : nat -> Q) : list Q :=
  map (fun i => py_max (random_normal MEAN_START_SKILL_LEVEL STD_START_SKILL_LEVEL (skill_z i)) 0)
      (range n).

Definition zeros3 (n1 n2 n3 : nat) : list (list (list Q)) :=
  replicate n1 (replicate n2 (replicate n3 0)).

(** [StudentEnv.__init__] *)
Definition StudentEnv_init (num_subjects num_difficulty_levels num_learning_types : nat)
  (skill_z : nat -> Q) (dr : profile_draws) : StudentEnv :=
  {| action_space := [2%Z; Z.of_nat num_subjects; Z.of_nat num_difficulty_levels;
                      Z.of_nat num_learning_types; Z.of_nat num_difficulty_levels];
     difficulties_levels := num_difficulty_levels;
     learning_type_number := num_learning_types;
     num_subjects := num_subjects;
     skills_levels := start_skills num_subjects skill_z;
     last_scores := zeros3 num_subjects num_difficulty_levels (2 * num_learning_types + 2);
     mean_skill_gains := _get_mean_skills_gains num_subjects num_learning_types dr;
     difficulties_thresholds := linspace num_difficulty_levels;
     review_ratio := 1 / Qnat (num_difficulty_levels + 1);
     cumulative_train_time := replicate num_subjects 0;
     train_counter := zeros3 num_subjects num_difficulty_levels num_learning_types;
     episode := 0;
     step_num := 0;
     last_action := None |}.

(** [np.zeros_like] *)
Definition zeros_like3 (a : list (list (list Q))) : list (list (list Q)) :=
  map (map (map (fun _ => 0))) a.

(** [m.shape] of a matrix, which [reset] unpacks into the arguments of
    [_get_mean_skills_gains]. *)
Definition shape2 (m : list (list Q)) : nat * nat :=
  (length m, match m with [] => 0%nat | r :: _ => length r end).

(** [StudentEnv.reset]; it returns [self.last_scores]. *)
Definition reset (skill_z : nat -> Q) (dr : profile_draws)
  : M StudentEnv (list (list (list Q))) :=
  fun e =>
    let e' :=
      {| action_space := action_space e;
         difficulties_levels := difficulties_levels e;
         learning_type_number := learning_type_number e;
         num_subjects := num_subjects e;
         skills_levels := start_skills (length (skills_levels e)) skill_z;
         last_scores := zeros_like3 (last_scores e);
         mean_skill_gains :=
           _get_mean_skills_gains (fst (shape2 (mean_skill_gains e)))
                                  (snd (shape2 (mean_skill_gains e))) dr;
         difficulties_thresholds := linspace (difficulties_levels e);
         review_ratio := review_ratio e;
         cumulative_train_time := map (fun _ => 0) (cumulative_train_time e);
         train_counter := zeros_like3 (train_counter e);
         episode := episode e + 1;
         step_num := 0;
         last_action := last_action e |} in
    (e', Ok (last_scores e')).

(** ** [StudentEnvBypass] *)

(** The subclass adds the field [prob_ratio] to the fields of [StudentEnv]. *)
Record StudentEnvBypass : Type := {
  base : StudentEnv;
  prob_ratio : list Q
}.

(** A method inherited from [StudentEnv], run on the subclass. *)
Definition inherited {A} (m : M StudentEnv A) : M StudentEnvBypass A :=
  fun b =>
    let out := m (base b) in
    ({| base := fst out; prob_ratio := prob_ratio b |}, snd out).

(** [StudentEnvBypass.__init__]: [super().__init__] gives the spaces, the
    thresholds, the review ratio and [last_action = None]; every array it
    draws is then overwritten by a copy of the other instance's. *)
Definition StudentEnvBypass_init (studentenvcopy : StudentEnv) (prob : option (list Q))
  : StudentEnvBypass :=
  let n_subjects := num_subjects studentenvcopy in
  let n_levels := difficulties_levels studentenvcopy in
  let n_types := learning_type_number studentenvcopy in
  {| base :=
       {| action_space := [2%Z; Z.of_nat n_subjects; Z.of_nat n_levels;
                           Z.of_nat n_types; Z.of_nat n_levels];
          difficulties_levels := n_levels;
          learning_type_number := n_types;
          num_subjects := n_subjects;
          skills_levels := skills_levels studentenvcopy;
          last_scores := last_scores studentenvcopy;
          mean_skill_gains := mean_skill_gains studentenvcopy;
          difficulties_thresholds := linspace n_levels;
          review_ratio := 1 / Qnat (n_levels + 1);
          cumulative_train_time := cumulative_train_time studentenvcopy;
          train_counter := train_counter studentenvcopy;
          episode := episode studentenvcopy;
          step_num := step_num studentenvcopy;
          last_action := None |};
     prob_ratio :=
       match prob with
       | Some (x :: p) => x :: p
       | _ => [8 # 10; 1 # 10; 1 # 10]
       end |}.

(** [np.cumsum] *)
Fixpoint cumsum_from (acc : Q) (p : list Q) : list Q :=
  match p with
  | [] => []
  | x :: rest => (acc + x) :: cumsum_from (acc + x) rest
  end.

(** [np.random.choice(n, p=p)] at the uniform deviate [u]: numpy checks the
    arguments, then takes the number of entries of the cumulative
    distribution that are [<= u]. *)
Definition random_choice (n : nat) (p : list Q) (u : Q) : result nat :=
  if (n =? 0)%nat then Raise ValueError
  else if negb (length p =? n)%nat then Raise ValueError
  else if existsb (fun x => Qlt_bool x 0) p then Raise ValueError
  else if negb (Qeq_bool (np_sum p) 1) then Raise ValueError
  else Ok (sum_list_with (fun c => if Qle_bool c u then 1%nat else 0%nat)
             (cumsum_from 0 p)).

Definition bypass_step `{Externals} (action : list Z) (u z : Q)
  : M StudentEnvBypass step_result :=
  (b <- get ;;
   if negb (contains (action_space (base b)) action) then raise AssertionError
   else
     match action with
     | [is_test; subject; test_difficulty; learning_types; learning_difficulty] =>
         let difficulty_to_log :=
           if (is_test =? 0)%Z then learning_difficulty else test_difficulty in
         inherited
           (modify (with_last_action (Some (new_log is_test subject difficulty_to_log)))) ;;
         outcome <-
           (if (is_test =? 0)%Z
            then
              learning_types' <-
                reading (fun b => random_choice (difficulties_levels (base b))
                                                (prob_ratio b) u) ;;
              reward <- inherited (_train (Z.to_nat subject) learning_types'
                                          (Z.to_nat learning_difficulty) z) ;;
              ret (reward, 0%Z)
            else inherited (test_branch (Z.to_nat subject) (Z.to_nat test_difficulty) z)) ;;
         inherited (finish_step outcome)
     | _ => raise ValueError
     end)%env.

(** ** Well-formed environments

    The shapes that [__init__] gives the arrays and that no method changes. *)

Record well_formed (e : StudentEnv) : Prop := {
  wf_action_space :
    action_space e = [2%Z; Z.of_nat (num_subjects e); Z.of_nat (difficulties_levels e);
                      Z.of_nat (learning_type_number e); Z.of_nat (difficulties_levels e)];
  wf_skills : length (skills_levels e) = num_subjects e;
  wf_scores : shape3 (last_scores e) (num_subjects e) (difficulties_levels e)
                     (2 * learning_type_number e + 2);
  wf_thresholds : length (difficulties_thresholds e) = difficulties_levels e;
  wf_review_ratio : review_ratio e = 1 / Qnat (difficulties_levels e + 1);
  wf_train_time : length (cumulative_train_time e) = num_subjects e;
  wf_counter : shape3 (train_counter e) (num_subjects e) (difficulties_levels e)
                      (learning_type_number e)
}.

(** ** Predicates of the proofs *)

(** Only [last_scores] differs between [e0] and [e]. *)
Definition scores_only (e0 e : StudentEnv) : Prop :=
  e = with_last_scores (last_scores e) e0.

(** Only [train_counter] differs between [e0] and [e]. *)
Definition counter_only (e0 e : StudentEnv) : Prop :=
  e = with_train_counter (train_counter e) e0.

(** Counts of trainings and accumulated attribution weights are never
    negative: [_train] adds 1 to a count, [_test] zeroes counts, and gain
    attribution adds a share of a positive total. *)
Definition nonneg_counters (e : StudentEnv) : Prop :=
  Forall (Forall (Forall (Qle 0))) (train_counter e) /\
  Forall (Forall (fun c => Forall (Qle 0) (counts_slice (learning_type_number e) c)))
         (last_scores e).

(** The vector [v0] is what [g] holds whenever it is read in [e]. *)
Definition gain_reads (g : type_gain) (v0 : list Q) (e : StudentEnv) : Prop :=
  match g with
  | Fresh v => v = v0
  | StoredRow s d =>
      exists c, cell (last_scores e) s d = Some c /\
                Forall2 Qeq (tail_slice (learning_type_number e) c) v0
  end.

(** The gain estimates that the loop leaves in the row of subject [s] whose
    estimates were [old]: the new vector for the tested subject, the
    average with weights 1 and 0.5 for another one. *)
Definition propagated (subject : nat) (v0 : list Q) (s : nat) (old : list Q) : list Q :=
  if decide (s = subject) then v0 else zip_with average_1_half old v0.

(** The state, during the propagation loop of [_test], of a cell whose
    original content is [c]: [done] when its estimates have been
    propagated, [assigned] when the new vector has only been stored in it,
    untouched otherwise. *)
Definition cell_state (types subject : nat) (v0 : list Q) (done assigned : Prop)
  (s : nat) (c c' : list Q) : Prop :=
  take (types + 2) c' = take (types + 2) c /\
  (done -> Forall2 Qeq (tail_slice types c') (propagated subject v0 s (tail_slice types c))) /\
  (~ done -> assigned -> Forall2 Qeq (tail_slice types c') v0) /\
  (~ done -> ~ assigned -> c' = c).

(** The invariant of the propagation loop started in [e0]: subjects below
    [j] are done at difficulty [d], every subject is done below [d], and the
    tested subject has the new vector at [d] when [tested_assigned]. *)
Definition propagating (e0 : StudentEnv) (subject : nat) (g : type_gain) (v0 : list Q)
  (d j : nat) (tested_assigned : Prop) (e : StudentEnv) : Prop :=
  scores_only e0 e /\
  shape3 (last_scores e) (num_subjects e0) (difficulties_levels e0)
         (2 * learning_type_number e0 + 2) /\
  gain_reads g v0 e /\
  forall s' d' c, cell (last_scores e0) s' d' = Some c ->
    exists c', cell (last_scores e) s' d' = Some c' /\
      cell_state (learning_type_number e0) subject v0
                 ((d' < d)%nat \/ (d' = d /\ (s' < j)%nat))
                 (d' = d /\ s' = subject /\ tested_assigned) s' c c'.

(** What a test leaves in the cell that held [c0]: for the tested cell the
    sampled score, its gain and zeroed counts; for every other cell the
    fields before the gain estimates as they were; for every cell the
    propagated gain estimates. *)
Definition tested_cell (types subject difficulty : nat) (sampled previous : Q)
  (v0 : list Q) (s d : nat) (c0 c' : list Q) : Prop :=
  Forall2 Qeq (tail_slice types c') (propagated subject v0 s (tail_slice types c0)) /\
  (s <> subject \/ d <> difficulty -> take (types + 2) c' = take (types + 2) c0) /\
  (s = subject /\ d = difficulty ->
   c' !! 0%nat = Some sampled /\ c' !! 1%nat = Some (sampled - previous) /\
   c0 !! 0%nat = Some previous /\
   counts_slice types c' = replicate types 0).

(** The bounds of a row of fields: field 0, the last score, lies in
    [0, 100] and field 1, its gain, in [-100, 100]. *)
Definition cell_in_bounds (types : nat) (c : list Q) : Prop :=
  length c = (2 * types + 2)%nat /\
  (forall score, c !! 0%nat = Some score -> 0 <= score <= 100) /\
  (forall gain, c !! 1%nat = Some gain -> - (100) <= gain <= 100).

(** The bounds of an environment: every row of fields is in bounds, no
    skill is negative and, when [capped], no skill exceeds 100. *)
Definition in_bounds (capped : Prop) (e : StudentEnv) : Prop :=
  action_space e = [2%Z; Z.of_nat (num_subjects e); Z.of_nat (difficulties_levels e);
                    Z.of_nat (learning_type_number e); Z.of_nat (difficulties_levels e)] /\
  Forall (Forall (cell_in_bounds (learning_type_number e))) (last_scores e) /\
  Forall (fun x => 0 <= x) (skills_levels e) /\
  (capped -> Forall (fun x => x <= 100) (skills_levels e)).

(** [in_bounds] inside a step, which runs only with a learning type. *)
Definition running (types : nat) (capped : Prop) (e : StudentEnv) : Prop :=
  learning_type_number e = types /\ (0 < types)%nat /\ in_bounds capped e.

(** The computation [m] keeps [I], whether it returns or raises, and a
    value it returns satisfies [post]. *)
Definition yields {A} (I : StudentEnv -> Prop) (m : M StudentEnv A) (post : A -> Prop)
  : Prop :=
  forall e, I e ->
    match m e with
    | (e', Ok a) => I e' /\ post a
    | (e', Raise _) => I e'
    end.

(** The computation [m] never writes. *)
Definition read_only {A} (m : M StudentEnv A) : Prop :=
  forall e, fst (m e) = e.

(** The environments that a sequence of [reset] and [step] calls reaches
    from a constructed one, when every start deviate satisfies [start_ok]. *)
Inductive reachable `{Externals} (start_ok : Q -> Prop) : StudentEnv -> Prop :=
  | reachable_init (subjects levels types : nat) (skill_z : nat -> Q) (dr : profile_draws) :
      (forall i, start_ok (skill_z i)) ->
      reachable start_ok (StudentEnv_init subjects levels types skill_z dr)
  | reachable_reset (e : StudentEnv) (skill_z : nat -> Q) (dr : profile_draws) :
      (forall i, start_ok (skill_z i)) ->
      reachable start_ok e ->
      reachable start_ok (fst (reset skill_z dr e))
  | reachable_step (e : StudentEnv) (action : list Z) (z : Q) :
      reachable start_ok e ->
      reachable start_ok (fst (step action z e)).

(** The cell counts no training since its last test: the sum that
    [_get_mean_type_gain] compares with 0 is not positive, so that the call
    takes its [else] branch. *)
Definition untrained_cell (e : StudentEnv) (subject difficulty : nat) : Prop :=
  forall c, cell (last_scores e) subject difficulty = Some c ->
            np_sum (counts_slice (learning_type_number e) c) <= 0.

(** A row of fields of the width the constructor gives it, whose counts of
    trainings are not negative. *)
Definition fields_row (types : nat) (c : list Q) : Prop :=
  length c = (2 * types + 2)%nat /\ Forall (Qle 0) (counts_slice types c).

(** A scalar or a vector without a negative entry. *)
Definition nd_nonneg (r : ndvalue) : Prop :=
  match r with
  | Scalar x => 0 <= x
  | Vector v => Forall (Qle 0) v
  end.

(** A skill-gain profile as [_get_mean_skills_gains] builds it: 3 x 3, with
    every mean gain at least 0.05. *)
Definition profile_ok (m : list (list Q)) : Prop :=
  length m = 3%nat /\
  Forall (fun row => length row = 3%nat /\ Forall (Qle (5 # 100)) row) m.

(** What the constructor establishes and [reset] and [step] keep: the
    shapes, counters that are not negative, evenly spaced thresholds and a
    skill-gain profile. *)
Record constructed (e : StudentEnv) : Prop := {
  built_shapes : well_formed e;
  built_counters : nonneg_counters e;
  built_thresholds : difficulties_thresholds e = linspace (difficulties_levels e);
  built_profile : profile_ok (mean_skill_gains e)
}.

(** [constructed] inside a step of an environment of the sizes given,
    which runs only with a learning type. *)
Definition stepping (subjects levels types : nat) (e : StudentEnv) : Prop :=
  num_subjects e = subjects /\ difficulties_levels e = levels /\
  learning_type_number e = types /\ (0 < types)%nat /\ constructed e.

(** [e'] has the sizes, spaces, thresholds, review ratio, skill-gain
    profile and episode of [e], which no step writes. *)
Definition same_configuration (e e' : StudentEnv) : Prop :=
  action_space e' = action_space e /\
  difficulties_levels e' = difficulties_levels e /\
  learning_type_number e' = learning_type_number e /\
  num_subjects e' = num_subjects e /\
  mean_skill_gains e' = mean_skill_gains e /\
  difficulties_thresholds e' = difficulties_thresholds e /\
  review_ratio e' = review_ratio e /\
  episode e' = episode e.

(** ** Instances for running the model

    An instance of the external collaborators, and small environments, on
    which the model is evaluated. *)

(** The square root truncated to six decimals. *)
Definition sample_sqrt (x : Q) : Q :=
  Z.sqrt (Qnum x * 10 ^ 12 / Zpos (Qden x)) # 10 ^ 6.

(** An estimator that weighs each lower tier down by [ratio]. *)
Definition sample_estimate_skills (scores : list (list Q)) (ratio : Q) : list Q :=
  map (fun row => foldl (fun acc x => acc * ratio + x) 0 row) scores.

Definition sample_externals : Externals :=
  {| np_sqrt := sample_sqrt; estimate_skills := sample_estimate_skills |}.

(** Draws that are all zero, with the coin on the side given. *)
Definition still_draws (c : Q) : profile_draws :=
  {| coin := c; excellence_z := 0; other_z := fun _ => 0; noise_z := fun _ _ => 0 |}.

(** Two subjects, three difficulty levels, three learning types, as the
    constructor builds them when every deviate is zero: both start at skill 20,
    and learning type 0 is the excellence type. *)
Definition small_env : StudentEnv :=
  StudentEnv_init 2 3 3 (fun _ => 0) (still_draws 1).

(** [small_env] after one training of subject 0 with learning type 0 at
    difficulty 0. *)
Definition trained_env : StudentEnv :=
  fst (@step sample_externals [0; 0; 0; 0; 0]%Z 0 small_env).

(** [small_env] after four trainings of subject 0 at difficulty 0: one of
    type 0, one of type 1 and two of type 2. *)
Definition counted_env : StudentEnv :=
  foldl (fun e learning_type =>
           fst (@step sample_externals [0; 0; 0; learning_type; 0]%Z 0 e))
        small_env [0; 1; 2; 2]%Z.

(** One subject, one difficulty level, one learning type. *)
Definition single_env : StudentEnv :=
  StudentEnv_init 1 1 1 (fun _ => 0) (still_draws 1).

(** [single_env] after 27 trainings, which bring the skill to 100, and
    then after a test, which the subject passes with score 100. *)
Definition drilled_env : StudentEnv :=
  Nat.iter 27 (fun e => fst (@step sample_externals [0; 0; 0; 0; 0]%Z 0 e)) single_env.

Definition passed_env : StudentEnv :=
  fst (@step sample_externals [1; 0; 0; 0; 0]%Z 0 drilled_env).

(** One subject, one difficulty level and two learning types, after one
    training: more learning types than difficulty levels. *)
Definition narrow_env : StudentEnv :=
  fst (@step sample_externals [0; 0; 0; 0; 0]%Z 0
         (StudentEnv_init 1 1 2 (fun _ => 0) (still_draws 1))).

(** Four subjects. *)
Definition crowded_env : StudentEnv :=
  StudentEnv_init 4 3 3 (fun _ => 0) (still_draws 1).

(** Two difficulty levels, for which the default [prob_ratio] is too long. *)
Definition two_level_env : StudentEnv :=
  StudentEnv_init 2 2 2 (fun _ => 0) (still_draws 1).

(** Two learning types and three difficulty levels, for which the default
    [prob_ratio] has one entry per level and draws a third learning type. *)
Definition two_type_env : StudentEnv :=
  StudentEnv_init 2 3 2 (fun _ => 0) (still_draws 1).

(** One subject, two difficulty levels and three learning types: more
    learning types than difficulty levels. *)
Definition lopsided_env : StudentEnv :=
  StudentEnv_init 1 2 3 (fun _ => 0) (still_draws 1).

(** [lopsided_env] after a training with learning type 0 at difficulty 1. *)
Definition lopsided_trained_env : StudentEnv :=
  fst (@step sample_externals [0; 0; 0; 0; 1]%Z 0 lopsided_env).

(** [lopsided_trained_env] after a test at difficulty 0: the train time of
    the subject is 0 again, and the cell of difficulty 1 still counts the
    training. *)
Definition retested_env : StudentEnv :=
  fst (@step sample_externals [1; 0; 0; 0; 0]%Z 0 lopsided_trained_env).

(** [small_env] after a training of type 2, a test and a training of type 1
    of subject 0 at difficulty 0: the cell counts a training, and its
    attribution counters are not zero. *)
Definition weighed_env : StudentEnv :=
  foldl (fun e action => fst (@step sample_externals action 0 e))
        small_env [[0; 0; 0; 2; 0]; [1; 0; 0; 0; 0]; [0; 0; 0; 1; 0]]%Z.

(** The value a computation returned, if it returned one. *)
Definition returned {St A} (out : St * result A) : option A :=
  match snd out with
  | Ok a => Some a
  | Raise _ => None
  end.

(** An action that [step] must reject: it has the wrong number of
    components, or a component outside its bound [0 <= v < bound]. *)
Definition invalid_action (nvec action : list Z) : Prop :=
  length action <> length nvec \/
  exists (i : nat) (v bound : Z),
    action !! i = Some v /\ nvec !! i = Some bound /\ ~ (0 <= v < bound)%Z.

(** What the specification says of the test mean, in its words:
    [review_ratio = 1 / (num_difficulty_levels + 1)] and
    [scaled_mean(d) = (skill - threshold[d]) * num_difficulty_levels]. *)
Definition spec_review_ratio (num_difficulty_levels : nat) : Q :=
  1 / (Qnat num_difficulty_levels + 1).

Definition spec_too_hard_mean (num_difficulty_levels : nat) (skill threshold_proper : Q)
  (difficulty proper : Z) : Q :=
  spec_review_ratio num_difficulty_levels ^ (difficulty - proper)
  * (skill - threshold_proper) * Qnat num_difficulty_levels.

Definition spec_scaled_mean (num_difficulty_levels : nat) (skill threshold : Q) : Q :=
  (skill - threshold) * Qnat num_difficulty_levels.

Definition spec_proper_mean (num_difficulty_levels : nat) (skill threshold : Q)
  (difficulty : Z) : Q :=
  if (0 <? difficulty)%Z
  then spec_review_ratio num_difficulty_levels * 100
       + spec_scaled_mean num_difficulty_levels skill threshold
         * (1 - spec_review_ratio num_difficulty_levels)
  else spec_scaled_mean num_difficulty_levels skill threshold.

(** * Properties *)

(** ** The monad *)

Lemma bind_ok {St A B} (m : M St A) (k : A -> M St B) (st st' : St) (a : A) :
  m st = (st', Ok a) -> bind m k st = k a st'.
Proof. intros Hm. unfold bind. now rewrite Hm. Qed.

Lemma bind_raise {St A B} (m : M St A) (k : A -> M St B) (st st' : St) (x : exn) :
  m st = (st', Raise x) -> bind m k st = (st', Raise x).
Proof. intros Hm. unfold bind. now rewrite Hm. Qed.

Lemma bind_inv {St A B} (m : M St A) (k : A -> M St B) (st st' : St) (b : B) :
  bind m k st = (st', Ok b) ->
  exists st1 a, m st = (st1, Ok a) /\ k a st1 = (st', Ok b).
Proof.
  unfold bind. destruct (m st) as [st1 [a | x]]; intros Hk.
  - now exists st1, a.
  - discriminate.
Qed.

Lemma orRaise_run {St A} (x : exn) (o : option A) (a : A) (st : St) :
  o = Some a -> orRaise x o st = (st, Ok a).
Proof. now intros ->. Qed.

Lemma inherited_bind {A B} (m : M StudentEnv A) (k : A -> M StudentEnv B) b :
  inherited (bind m k) b = bind (inherited m) (fun a => inherited (k a)) b.
Proof.
  unfold inherited, bind. simpl.
  destruct (m (base b)) as [e [a | x]]; reflexivity.
Qed.

(** ** Tactics *)

(** Unfolds the monad's operations where they are applied. *)
Ltac run_env :=
  cbv [bind get gets ret raise orRaise reading modify]; cbv beta iota.

(** Runs the first computation of a sequence by the equation [H]. *)
Ltac step_with H := erewrite bind_ok by (exact H); cbv beta.

(** For environments given by their value. *)
Ltac concrete_shape := split; [reflexivity | repeat constructor].

Ltac concrete_well_formed :=
  constructor; vm_compute; try reflexivity; concrete_shape.

Ltac concrete_nonneg :=
  split; vm_compute; repeat (constructor; try discriminate).

(** ** Rejected actions *)

Lemma contains_false_of_invalid (nvec action : list Z) :
  invalid_action nvec action -> contains nvec action = false.
Proof.
  intros [Hlen | (i & v & bound & Hv & Hb & Hout)]; unfold contains.
  - apply Nat.eqb_neq in Hlen. now rewrite Hlen.
  - destruct (length action =? length nvec)%nat; [simpl | reflexivity].
    destruct (forallb (fun v0 => (0 <=? v0)%Z) action) eqn:Hpos; [simpl | reflexivity].
    apply not_true_is_false. intros Hall.
    rewrite forallb_forall in Hpos, Hall.
    assert (Hin : In (v, bound) (zip action nvec)).
    { apply list_elem_of_In, list_elem_of_lookup. exists i.
      rewrite lookup_zip_with, Hv. simpl. now rewrite Hb. }
    apply Hall in Hin. simpl in Hin.
    assert (Hv0 : In v action).
    { apply list_elem_of_In, list_elem_of_lookup. now exists i. }
    apply Hpos in Hv0. lia.
Qed.

(** C9.  An action with a component outside its declared bound, or with
    the wrong number of components, makes [step] fail with an error (the
    [AssertionError] of its first statement), and the environment after the
    failed call is the environment before it; so it is for the [step] of
    [StudentEnvBypass]. *)
Theorem step_rejects_invalid_action `{Externals} (e : StudentEnv) (prob : list Q)
  (action : list Z) (u z : Q) :
  invalid_action (action_space e) action ->
  step action z e = (e, Raise AssertionError) /\
  bypass_step action u z {| base := e; prob_ratio := prob |}
  = ({| base := e; prob_ratio := prob |}, Raise AssertionError).
Proof.
  intros Hbad. apply contains_false_of_invalid in Hbad. split.
  - unfold step, bind, get. now rewrite Hbad.
  - unfold bypass_step, bind, get. simpl. now rewrite Hbad.
Qed.

Lemma step_rejects_invalid_action_witness :
  invalid_action (action_space small_env) [1; 0; 5; 0; 0]%Z /\
  (@step sample_externals [1; 0; 5; 0; 0]%Z 0 small_env
   = (small_env, Raise AssertionError) /\
   @bypass_step sample_externals [1; 0; 5; 0; 0]%Z 0 0
     {| base := small_env; prob_ratio := [8 # 10; 1 # 10; 1 # 10] |}
   = ({| base := small_env; prob_ratio := [8 # 10; 1 # 10; 1 # 10] |},
      Raise AssertionError)).
Proof.
  assert (Hbad : invalid_action (action_space small_env) [1; 0; 5; 0; 0]%Z).
  { right. exists 2%nat, 5%Z, 3%Z. repeat split; try reflexivity. lia. }
  split; [exact Hbad |].
  exact (@step_rejects_invalid_action sample_externals small_env
           [8 # 10; 1 # 10; 1 # 10] [1; 0; 5; 0; 0]%Z 0 0 Hbad).
Defined.

(** ** The biased training variant *)

Lemma random_choice_default (u : Q) :
  0 <= u -> u < 1 ->
  random_choice 3 [8 # 10; 1 # 10; 1 # 10] u
  = Ok (if Qlt_bool u (8 # 10) then 0%nat
        else if Qlt_bool u (9 # 10) then 1%nat else 2%nat).
Proof.
  intros H0 H1. unfold random_choice. simpl.
  replace (Qeq_bool (np_sum [8 # 10; 1 # 10; 1 # 10]) 1) with true by reflexivity.
  simpl. unfold Qlt_bool.
  assert (Hone : Qle_bool (0 + (8 # 10) + (1 # 10) + (1 # 10)) u = false).
  { apply not_true_is_false. rewrite Qle_bool_iff. lra. }
  rewrite Hone.
  destruct (Qle_bool (0 + (8 # 10)) u) eqn:H8;
    destruct (Qle_bool (8 # 10) u) eqn:H8';
    destruct (Qle_bool (0 + (8 # 10) + (1 # 10)) u) eqn:H9;
    destruct (Qle_bool (9 # 10) u) eqn:H9'; simpl; try reflexivity; exfalso;
    repeat match goal with
      | Ht : Qle_bool _ _ = true |- _ => apply Qle_bool_iff in Ht
      | Hf : Qle_bool _ _ = false |- _ =>
          apply not_true_iff_false in Hf; rewrite Qle_bool_iff in Hf
      end; lra.
Qed.

(** C8.  The biased training variant differs from the base environment
    only in how it reads a training action.  Its default probability vector
    is [0.8, 0.1, 0.1], from which the uniform deviate [u] selects type 0
    below 0.8, type 1 below 0.9 and type 2 above.  On a test action its
    [step] is the base environment's [step]: the same environment after the
    call and the same observation, reward, done flag or exception, for the
    same state and draws.  On a training action the learning type the caller
    gave is ignored: the step is the base environment's training step at the
    drawn type. *)
Theorem bypass_differs_only_in_training `{Externals} (b : StudentEnvBypass)
  (is_test subject test_difficulty learning_types learning_difficulty : Z) (u z : Q) :
  (forall e, prob_ratio (StudentEnvBypass_init e None) = [8 # 10; 1 # 10; 1 # 10]) /\
  (0 <= u -> u < 1 ->
   random_choice 3 [8 # 10; 1 # 10; 1 # 10] u
   = Ok (if Qlt_bool u (8 # 10) then 0%nat
         else if Qlt_bool u (9 # 10) then 1%nat else 2%nat)) /\
  (is_test <> 0%Z ->
   bypass_step [is_test; subject; test_difficulty; learning_types; learning_difficulty] u z b
   = inherited
       (step [is_test; subject; test_difficulty; learning_types; learning_difficulty] z) b) /\
  (contains (action_space (base b))
     [0%Z; subject; test_difficulty; learning_types; learning_difficulty] = true ->
   forall drawn : nat,
     random_choice (difficulties_levels (base b)) (prob_ratio b) u = Ok drawn ->
     contains (action_space (base b))
       [0%Z; subject; test_difficulty; Z.of_nat drawn; learning_difficulty] = true ->
     bypass_step [0%Z; subject; test_difficulty; learning_types; learning_difficulty] u z b
     = inherited
         (step [0%Z; subject; test_difficulty; Z.of_nat drawn; learning_difficulty] z) b).
Proof.
  split; [reflexivity |].
  split; [apply random_choice_default |].
  destruct b as [e p]. simpl. split.
  - intros Htest. apply Z.eqb_neq in Htest.
    unfold bypass_step, step, inherited, bind, get, raise, modify. simpl.
    destruct (contains (action_space e) _); simpl; [| reflexivity].
    rewrite Htest. simpl.
    destruct (test_branch _ _ _ _) as [e1 [out | x]]; simpl; [| reflexivity].
    destruct (finish_step out e1) as [e2 [r | x]]; reflexivity.
  - intros Hvalid drawn Hdrawn Hvalid'.
    unfold bypass_step, step, inherited, bind, get, raise, modify, reading, ret.
    simpl. rewrite Hvalid, Hvalid'. simpl. rewrite Hdrawn. simpl.
    rewrite Nat2Z.id.
    destruct (_train _ _ _ _ _) as [e1 [r | x]]; simpl; [| reflexivity].
    destruct (finish_step (r, 0%Z) e1) as [e2 [r' | x]]; reflexivity.
Qed.

(** ** The test mean *)

Lemma Qnat_succ (n : nat) : Qnat (n + 1) == Qnat n + 1.
Proof.
  unfold Qnat. rewrite Nat2Z.inj_add, inject_Z_plus. reflexivity.
Qed.

Lemma Qnat_pos (n : nat) : (0 < n)%nat -> 0 < Qnat n.
Proof.
  intros Hn. unfold Qnat. replace 0 with (inject_Z 0) by reflexivity.
  rewrite <- Zlt_Qlt. lia.
Qed.

Lemma proper_difficulty_bounds (thresholds : list Q) (skill : Q) :
  (-1 <= proper_difficulty thresholds skill < Z.of_nat (length thresholds))%Z.
Proof.
  unfold proper_difficulty.
  assert (Hle : (sum_list_with (fun t => if Qle_bool t skill then 1 else 0) thresholds
                 <= length thresholds)%nat).
  { induction thresholds as [| t l IH]; simpl; [lia |].
    destruct (Qle_bool t skill); lia. }
  lia.
Qed.

Lemma py_index_in_range {A} (l : list A) (i : Z) :
  (- Z.of_nat (length l) <= i < Z.of_nat (length l))%Z ->
  exists x, py_index l i = Some x.
Proof.
  intros Hi. unfold py_index.
  destruct (0 <=? i)%Z eqn:Hpos.
  - apply Z.leb_le in Hpos. apply lookup_lt_is_Some_2. lia.
  - apply Z.leb_gt in Hpos.
    assert (Hneg : (- Z.of_nat (length l) <=? i)%Z = true) by (apply Z.leb_le; lia).
    rewrite Hneg. apply lookup_lt_is_Some_2. lia.
Qed.

Lemma py_index_nat {A} (l : list A) (i : nat) : py_index l (Z.of_nat i) = l !! i.
Proof.
  unfold py_index.
  assert (Hpos : (0 <=? Z.of_nat i)%Z = true) by (apply Z.leb_le; lia).
  now rewrite Hpos, Nat2Z.id.
Qed.

Lemma review_ratio_spec (e : StudentEnv) :
  well_formed e -> review_ratio e == spec_review_ratio (difficulties_levels e).
Proof.
  intros Hwf. rewrite (wf_review_ratio e Hwf). unfold spec_review_ratio.
  now rewrite Qnat_succ.
Qed.

(** What [_get_test_mean] computes, in the three cases of the code. *)
Lemma get_test_mean_run (e : StudentEnv) (subject difficulty : nat) (skill : Q) :
  well_formed e ->
  (difficulty < difficulties_levels e)%nat ->
  skills_levels e !! subject = Some skill ->
  exists mean : Q,
    _get_test_mean subject difficulty e = (e, Ok mean) /\
    ((proper_difficulty (difficulties_thresholds e) skill < Z.of_nat difficulty)%Z ->
     exists threshold,
       py_index (difficulties_thresholds e)
                (proper_difficulty (difficulties_thresholds e) skill) = Some threshold /\
       mean = review_ratio e
              ^ (Z.of_nat difficulty - proper_difficulty (difficulties_thresholds e) skill)
              * ((skill - threshold) * Qnat (difficulties_levels e))) /\
    ((Z.of_nat difficulty < proper_difficulty (difficulties_thresholds e) skill)%Z ->
     mean = 100) /\
    (proper_difficulty (difficulties_thresholds e) skill = Z.of_nat difficulty ->
     exists threshold,
       difficulties_thresholds e !! difficulty = Some threshold /\
       mean = (if (Z.of_nat difficulty =? 0)%Z then 0 else review_ratio e) * 100
              + (skill - threshold) * Qnat (difficulties_levels e)
                * (1 - (if (Z.of_nat difficulty =? 0)%Z then 0 else review_ratio e))).
Proof.
  intros Hwf Hd Hskill.
  pose proof (proper_difficulty_bounds (difficulties_thresholds e) skill) as Hp.
  rewrite (wf_thresholds e Hwf) in Hp.
  set (proper := proper_difficulty (difficulties_thresholds e) skill) in *.
  assert (Hrun : _get_test_mean subject difficulty e
                 = if (proper <? Z.of_nat difficulty)%Z
                   then _get_too_hard_test_mean subject (Z.of_nat difficulty) proper e
                   else if (Z.of_nat difficulty <? proper)%Z then (e, Ok 100)
                        else _get_proper_test_mean subject (Z.of_nat difficulty) e).
  { unfold _get_test_mean, _get_proper_difficulty. run_env.
    rewrite Hskill. run_env. fold proper.
    destruct (proper <? Z.of_nat difficulty)%Z; [reflexivity |].
    destruct (Z.of_nat difficulty <? proper)%Z; reflexivity. }
  rewrite Hrun. clear Hrun.
  destruct (proper <? Z.of_nat difficulty)%Z eqn:Hhard.
  - apply Z.ltb_lt in Hhard.
    destruct (py_index_in_range (difficulties_thresholds e) proper) as [thr Hthr].
    { rewrite (wf_thresholds e Hwf). lia. }
    assert (Hrun : _get_too_hard_test_mean subject (Z.of_nat difficulty) proper e
                   = (e, Ok (review_ratio e ^ (Z.of_nat difficulty - proper)
                             * ((skill - thr) * Qnat (difficulties_levels e))))).
    { unfold _get_too_hard_test_mean, _get_scaled_mean_score. run_env.
      rewrite Hskill. run_env. rewrite Hthr. reflexivity. }
    rewrite Hrun. eexists. split; [reflexivity |]. repeat split.
    + intros _. exists thr. split; [exact Hthr | reflexivity].
    + intros Hlt. lia.
    + intros Heq. lia.
  - apply Z.ltb_ge in Hhard.
    destruct (Z.of_nat difficulty <? proper)%Z eqn:Heasy.
    + apply Z.ltb_lt in Heasy.
      eexists. split; [reflexivity |]. repeat split.
      * intros Hlt. lia.
      * intros Heq. lia.
    + apply Z.ltb_ge in Heasy.
      destruct (lookup_lt_is_Some_2 (difficulties_thresholds e) difficulty) as [thr Hthr].
      { rewrite (wf_thresholds e Hwf). lia. }
      assert (Hrun : _get_proper_test_mean subject (Z.of_nat difficulty) e
                     = (e, Ok ((if (Z.of_nat difficulty =? 0)%Z then 0 else review_ratio e)
                               * 100
                               + (skill - thr) * Qnat (difficulties_levels e)
                                 * (1 - (if (Z.of_nat difficulty =? 0)%Z
                                         then 0 else review_ratio e))))).
      { unfold _get_proper_test_mean, _get_scaled_mean_score. run_env.
        rewrite Hskill. run_env. rewrite py_index_nat, Hthr. reflexivity. }
      rewrite Hrun. eexists. split; [reflexivity |]. repeat split.
      * intros Hlt. lia.
      * intros Hlt. lia.
      * intros _. exists thr. split; [exact Hthr | reflexivity].
Qed.

(** C2.  The mean of the sampled test score is piecewise in the subject's
    proper difficulty: above it (too hard) the mean is
    [review_ratio^(difficulty - proper) * (skill - threshold[proper]) *
    num_difficulty_levels] with [review_ratio = 1/(num_difficulty_levels+1)];
    below it (too easy) the mean is 100; at it the mean is
    [review_ratio*100 + scaled_mean(difficulty)*(1 - review_ratio)] for a
    positive difficulty and [scaled_mean(0)] at the lowest tier. *)
Theorem test_mean_piecewise (e : StudentEnv) (subject difficulty : nat) (skill : Q) :
  well_formed e ->
  (difficulty < difficulties_levels e)%nat ->
  skills_levels e !! subject = Some skill ->
  exists mean : Q,
    _get_test_mean subject difficulty e = (e, Ok mean) /\
    ((proper_difficulty (difficulties_thresholds e) skill < Z.of_nat difficulty)%Z ->
     exists threshold,
       py_index (difficulties_thresholds e)
                (proper_difficulty (difficulties_thresholds e) skill) = Some threshold /\
       mean == spec_too_hard_mean (difficulties_levels e) skill threshold
                 (Z.of_nat difficulty)
                 (proper_difficulty (difficulties_thresholds e) skill)) /\
    ((Z.of_nat difficulty < proper_difficulty (difficulties_thresholds e) skill)%Z ->
     mean == 100) /\
    (proper_difficulty (difficulties_thresholds e) skill = Z.of_nat difficulty ->
     exists threshold,
       difficulties_thresholds e !! difficulty = Some threshold /\
       mean == spec_proper_mean (difficulties_levels e) skill threshold
                 (Z.of_nat difficulty)).
Proof.
  intros Hwf Hd Hskill.
  pose proof (review_ratio_spec e Hwf) as Hrr.
  destruct (get_test_mean_run e subject difficulty skill Hwf Hd Hskill)
    as (mean & Hrun & Hhard & Heasy & Hproper).
  exists mean. split; [exact Hrun |]. split; [| split].
  - intros Hlt. destruct (Hhard Hlt) as (threshold & Hthreshold & ->).
    exists threshold. split; [exact Hthreshold |].
    unfold spec_too_hard_mean. rewrite Hrr. ring.
  - intros Hlt. rewrite (Heasy Hlt). reflexivity.
  - intros Heq. destruct (Hproper Heq) as (threshold & Hthreshold & ->).
    exists threshold. split; [exact Hthreshold |].
    unfold spec_proper_mean, spec_scaled_mean.
    destruct difficulty as [| d]; simpl.
    + ring.
    + rewrite Hrr. ring.
Qed.

(** ** Arrays *)

Section Arrays.
Implicit Types (a : list (list (list Q))) (c : list Q).

Lemma cell_in_shape a n1 n2 n3 s d :
  shape3 a n1 n2 n3 -> (s < n1)%nat -> (d < n2)%nat ->
  exists c, cell a s d = Some c /\ length c = n3.
Proof.
  intros [Hlen Hrows] Hs Hd. unfold cell.
  destruct (lookup_lt_is_Some_2 a s) as [r Hr]; [lia |].
  rewrite Hr. destruct (Forall_lookup_1 _ _ _ _ Hrows Hr) as [Hr_len Hcells].
  destruct (lookup_lt_is_Some_2 r d) as [c Hc]; [lia |].
  exists c. split; [exact Hc |]. exact (Forall_lookup_1 _ _ _ _ Hcells Hc).
Qed.

Lemma cell_shape a n1 n2 n3 s d c :
  shape3 a n1 n2 n3 -> cell a s d = Some c ->
  (s < n1)%nat /\ (d < n2)%nat /\ length c = n3.
Proof.
  intros [Hlen Hrows]. unfold cell.
  destruct (a !! s) as [r |] eqn:Hr; [| discriminate]. intros Hc.
  destruct (Forall_lookup_1 _ _ _ _ Hrows Hr) as [Hr_len Hcells].
  apply lookup_lt_Some in Hr. pose proof (lookup_lt_Some _ _ _ Hc).
  repeat split; try lia. exact (Forall_lookup_1 _ _ _ _ Hcells Hc).
Qed.

Lemma set_cell_is_Some a s d c0 c :
  cell a s d = Some c0 -> exists a', set_cell a s d c = Some a'.
Proof.
  unfold cell, set_cell. destruct (a !! s) as [r |]; [| discriminate].
  intros Hc. rewrite Hc. eauto.
Qed.

Lemma cell_set_cell_eq a a' s d c : set_cell a s d c = Some a' -> cell a' s d = Some c.
Proof.
  unfold set_cell, cell. destruct (a !! s) as [r |] eqn:Hr; [| discriminate].
  destruct (r !! d) as [c0 |] eqn:Hc; [| discriminate].
  intros [= <-]. rewrite list_lookup_insert_eq by (eapply lookup_lt_Some; eauto).
  apply list_lookup_insert_eq. eapply lookup_lt_Some; eauto.
Qed.

Lemma cell_set_cell_ne a a' s d c s' d' :
  set_cell a s d c = Some a' -> s' <> s \/ d' <> d -> cell a' s' d' = cell a s' d'.
Proof.
  unfold set_cell, cell. destruct (a !! s) as [r |] eqn:Hr; [| discriminate].
  destruct (r !! d) as [c0 |] eqn:Hc; [| discriminate].
  intros [= <-] Hne. destruct (decide (s' = s)) as [-> | Hs].
  - rewrite list_lookup_insert_eq by (eapply lookup_lt_Some; eauto). rewrite Hr.
    apply list_lookup_insert_ne. intros ->. destruct Hne; congruence.
  - now rewrite list_lookup_insert_ne by congruence.
Qed.

Lemma set_cell_shape a a' n1 n2 n3 s d c :
  shape3 a n1 n2 n3 -> set_cell a s d c = Some a' -> length c = n3 ->
  shape3 a' n1 n2 n3.
Proof.
  intros [Hlen Hrows]. unfold set_cell.
  destruct (a !! s) as [r |] eqn:Hr; [| discriminate].
  destruct (r !! d) as [c0 |] eqn:Hc; [| discriminate].
  intros [= <-] Hc_len. destruct (Forall_lookup_1 _ _ _ _ Hrows Hr) as [Hr_len Hcells].
  split; [now rewrite length_insert |].
  apply Forall_insert; [exact Hrows |].
  split; [now rewrite length_insert |]. now apply Forall_insert.
Qed.

Lemma zeros3_shape n1 n2 n3 : shape3 (zeros3 n1 n2 n3) n1 n2 n3.
Proof.
  unfold zeros3. split; [apply length_replicate |].
  apply Forall_replicate. split; [apply length_replicate |].
  apply Forall_replicate, length_replicate.
Qed.
End Arrays.

(** The rows of fields when there is at least one learning type: fields
    [0, 1], [n] counts and [n] gain estimates. *)
Section Rows.
Variable n : nat.
Hypothesis n_pos : (0 < n)%nat.
Implicit Types (c v : list Q).

Lemma tail_start_row c : length c = (2 * n + 2)%nat -> tail_start n c = (n + 2)%nat.
Proof.
  intros Hc. unfold tail_start. destruct (Nat.eqb_spec n 0); lia.
Qed.

Lemma tail_slice_row c : length c = (2 * n + 2)%nat -> tail_slice n c = drop (n + 2) c.
Proof. intros Hc. unfold tail_slice. now rewrite tail_start_row. Qed.

Lemma tail_slice_length c : length c = (2 * n + 2)%nat -> length (tail_slice n c) = n.
Proof. intros Hc. rewrite tail_slice_row, length_drop by exact Hc. lia. Qed.

Lemma set_tail_slice_row v c :
  length c = (2 * n + 2)%nat -> length v = n ->
  set_tail_slice n v c = Some (take (n + 2) c ++ v).
Proof.
  intros Hc Hv. unfold set_tail_slice. rewrite tail_start_row by exact Hc.
  replace (length v =? length c - (n + 2))%nat with true; [reflexivity |].
  symmetry. apply Nat.eqb_eq. lia.
Qed.

Lemma row_with_tail_length v c :
  length c = (2 * n + 2)%nat -> length v = n ->
  length (take (n + 2) c ++ v) = (2 * n + 2)%nat.
Proof. intros Hc Hv. rewrite length_app, length_take. lia. Qed.

Lemma row_with_tail_tail v c :
  length c = (2 * n + 2)%nat -> length v = n ->
  tail_slice n (take (n + 2) c ++ v) = v.
Proof.
  intros Hc Hv. rewrite tail_slice_row by now apply row_with_tail_length.
  apply drop_app_length'. rewrite length_take. lia.
Qed.

Lemma row_with_tail_head v c :
  length c = (2 * n + 2)%nat -> take (n + 2) (take (n + 2) c ++ v) = take (n + 2) c.
Proof.
  intros Hc. apply take_app_length'. rewrite length_take. lia.
Qed.
End Rows.

(** ** Loops *)

Lemma for_each_seq_invariant {St} (body : nat -> M St unit) (I : nat -> St -> Prop)
  (len start : nat) (st : St) :
  I start st ->
  (forall i st1, (start <= i < start + len)%nat -> I i st1 ->
     exists st2, body i st1 = (st2, Ok tt) /\ I (S i) st2) ->
  exists st', for_each (seq start len) body st = (st', Ok tt) /\ I (start + len)%nat st'.
Proof.
  revert start st. induction len as [| len IH]; intros start st Hinit Hbody.
  - exists st. split; [reflexivity |]. now rewrite Nat.add_0_r.
  - destruct (Hbody start st) as (st1 & Hrun & Hnext); [lia | exact Hinit |].
    destruct (IH (S start) st1 Hnext) as (st' & Hrest & Hend).
    { intros i st2 Hi. apply Hbody. lia. }
    exists st'. split.
    + simpl. erewrite bind_ok by exact Hrun. exact Hrest.
    + now replace (start + S len)%nat with (S start + len)%nat by lia.
Qed.

Lemma for_each_range_invariant {St} (body : nat -> M St unit) (I : nat -> St -> Prop)
  (n : nat) (st : St) :
  I 0%nat st ->
  (forall i st1, (i < n)%nat -> I i st1 ->
     exists st2, body i st1 = (st2, Ok tt) /\ I (S i) st2) ->
  exists st', for_each (range n) body st = (st', Ok tt) /\ I n st'.
Proof.
  intros Hinit Hbody.
  destruct (for_each_seq_invariant body I n 0 st Hinit) as (st' & Hrun & Hend).
  - intros i st1 Hi. apply Hbody. lia.
  - now exists st'.
Qed.

(** ** Reads and writes of the score matrix *)

Lemma scores_only_refl e : scores_only e e.
Proof. unfold scores_only. now destruct e. Qed.

Lemma scores_only_write e0 e a : scores_only e0 e -> scores_only e0 (with_last_scores a e).
Proof. unfold scores_only. intros ->. reflexivity. Qed.

Lemma scores_cell_run e s d c :
  cell (last_scores e) s d = Some c -> scores_cell s d e = (e, Ok c).
Proof. intros Hc. unfold scores_cell. now rewrite Hc. Qed.

Lemma scores_set_cell_run e s d c a :
  set_cell (last_scores e) s d c = Some a ->
  scores_set_cell s d c e = (with_last_scores a e, Ok tt).
Proof. intros Ha. unfold scores_set_cell. now rewrite Ha. Qed.

Lemma scores_item_run e s d f c x :
  cell (last_scores e) s d = Some c -> c !! f = Some x ->
  scores_item s d f e = (e, Ok x).
Proof.
  intros Hc Hx. unfold scores_item.
  erewrite bind_ok by (apply scores_cell_run; exact Hc). now rewrite Hx.
Qed.

Lemma scores_set_item_run e s d f x c :
  cell (last_scores e) s d = Some c -> (f < length c)%nat ->
  exists a, set_cell (last_scores e) s d (<[f := x]> c) = Some a /\
            scores_set_item s d f x e = (with_last_scores a e, Ok tt).
Proof.
  intros Hc Hf. destruct (set_cell_is_Some _ _ _ _ (<[f := x]> c) Hc) as [a Ha].
  exists a. split; [exact Ha |]. unfold scores_set_item.
  erewrite bind_ok by (apply scores_cell_run; exact Hc).
  unfold set_item. destruct (lookup_lt_is_Some_2 c f Hf) as [y Hy]. rewrite Hy.
  erewrite bind_ok by reflexivity. now apply scores_set_cell_run.
Qed.

Lemma scores_set_tail_run e s d v c :
  (0 < learning_type_number e)%nat ->
  cell (last_scores e) s d = Some c ->
  length c = (2 * learning_type_number e + 2)%nat ->
  length v = learning_type_number e ->
  exists a,
    set_cell (last_scores e) s d (take (learning_type_number e + 2) c ++ v) = Some a /\
    scores_set_tail (learning_type_number e) s d v e = (with_last_scores a e, Ok tt).
Proof.
  intros Hpos Hc Hlen Hv.
  destruct (set_cell_is_Some _ _ _ _ (take (learning_type_number e + 2) c ++ v) Hc)
    as [a Ha].
  exists a. split; [exact Ha |]. unfold scores_set_tail.
  erewrite bind_ok by (apply scores_cell_run; exact Hc).
  rewrite (set_tail_slice_row _ Hpos) by assumption.
  erewrite bind_ok by reflexivity. now apply scores_set_cell_run.
Qed.

(** ** Vectors up to [==] *)

Lemma Qvec_refl (v : list Q) : Forall2 Qeq v v.
Proof. induction v; constructor; [reflexivity | assumption]. Qed.

Lemma Qvec_sym (v w : list Q) : Forall2 Qeq v w -> Forall2 Qeq w v.
Proof. induction 1; constructor; [now symmetry | assumption]. Qed.

Lemma Qvec_trans (u v w : list Q) : Forall2 Qeq u v -> Forall2 Qeq v w -> Forall2 Qeq u w.
Proof.
  intros Huv. revert w. induction Huv as [| x y u v Hxy Huv IH]; intros w Hvw.
  - inversion Hvw. constructor.
  - inversion Hvw as [| y' z v' w' Hyz Hvw']; subst. constructor.
    + now rewrite Hxy.
    + now apply IH.
Qed.

Lemma average_1_half_proper (x x' y y' : Q) :
  x == x' -> y == y' -> average_1_half x y == average_1_half x' y'.
Proof. intros Hx Hy. unfold average_1_half. now rewrite Hx, Hy. Qed.

Lemma average_1_half_same (x y : Q) : x == y -> average_1_half x y == y.
Proof. intros Hx. unfold average_1_half. rewrite Hx. field. Qed.

Lemma zip_average_proper (a a' b b' : list Q) :
  Forall2 Qeq a a' -> Forall2 Qeq b b' ->
  Forall2 Qeq (zip_with average_1_half a b) (zip_with average_1_half a' b').
Proof.
  intros Ha. revert b b'. induction Ha as [| x x' a a' Hx Ha IH]; intros b b' Hb.
  - constructor.
  - destruct Hb as [| y y' b b' Hy Hb]; simpl; constructor.
    + now apply average_1_half_proper.
    + now apply IH.
Qed.

Lemma zip_average_same (a b : list Q) :
  Forall2 Qeq a b -> Forall2 Qeq (zip_with average_1_half a b) b.
Proof.
  induction 1 as [| x y a b Hxy Hab IH]; simpl; constructor.
  - now apply average_1_half_same.
  - exact IH.
Qed.

(** ** The propagation loop of [_test] *)

Lemma gain_reads_run g v0 e :
  gain_reads g v0 e ->
  exists v, type_gain_value g e = (e, Ok v) /\ Forall2 Qeq v v0.
Proof.
  destruct g as [v | s d]; simpl.
  - intros ->. exists v0. split; [reflexivity | apply Qvec_refl].
  - intros (c & Hc & Hv). exists (tail_slice (learning_type_number e) c).
    split; [| exact Hv]. run_env. now rewrite (scores_cell_run _ _ _ _ Hc).
Qed.

Section Propagation.
Context (e0 : StudentEnv) (subject : nat) (g : type_gain) (v0 : list Q).

Local Abbreviation types := (learning_type_number e0).
Local Abbreviation width := (2 * learning_type_number e0 + 2)%nat.
Local Abbreviation cell_state := (cell_state (learning_type_number e0) subject v0).
Local Abbreviation propagating := (propagating e0 subject g v0).

Hypothesis types_pos : (0 < types)%nat.
Hypothesis scores_shape :
  shape3 (last_scores e0) (num_subjects e0) (difficulties_levels e0) width.
Hypothesis v0_length : length v0 = types.
Hypothesis subject_lt : (subject < num_subjects e0)%nat.

Lemma cell_state_iff (P P' A A' : Prop) s c c' :
  (P <-> P') -> (~ P -> (A <-> A')) -> cell_state P A s c c' -> cell_state P' A' s c c'.
Proof. unfold cell_state. tauto. Qed.

Lemma propagating_types d j P e : propagating d j P e -> learning_type_number e = types.
Proof. intros (-> & _). reflexivity. Qed.

Lemma blend_subject_run d j e :
  (d < difficulties_levels e0)%nat -> (j < num_subjects e0)%nat ->
  propagating d j True e ->
  exists e', blend_subject g d j e = (e', Ok tt) /\ propagating d (S j) True e'.
Proof.
  intros Hd Hj Hinv. pose proof (propagating_types _ _ _ _ Hinv) as Htypes.
  destruct Hinv as (Hframe & Hshape & Hgain & Hcells).
  destruct (cell_in_shape _ _ _ _ j d Hshape Hj Hd) as (cj & Hcj & Hcj_len).
  destruct (gain_reads_run _ _ _ Hgain) as (v & Hv_run & Hv).
  assert (Hv_len : length v = types) by (rewrite <- v0_length; eapply Forall2_length; eauto).
  set (avg := zip_with average_1_half (tail_slice types cj) v).
  assert (Havg_len : length avg = types).
  { unfold avg. rewrite length_zip_with, tail_slice_length, Hv_len by assumption. lia. }
  destruct (scores_set_tail_run e j d avg cj) as (a & Ha & Hset);
    [try rewrite Htypes; assumption .. |].
  rewrite Htypes in Ha, Hset.
  exists (with_last_scores a e). split.
  { unfold blend_subject. run_env.
    rewrite (scores_cell_run _ _ _ _ Hcj), Hv_run. run_env. rewrite Htypes.
    unfold np_average_rows.
    rewrite tail_slice_length, Hv_len, Nat.eqb_refl by assumption. exact Hset. }
  assert (Hnew_len : length (take (types + 2) cj ++ avg) = width)
    by now apply row_with_tail_length.
  assert (Hblend : Forall2 Qeq (tail_slice types cj) v0 -> Forall2 Qeq avg v0).
  { intros Hold. eapply Qvec_trans; [| apply (zip_average_same v0 v0), Qvec_refl].
    now apply zip_average_proper. }
  split; [now apply scores_only_write |].
  split; [eapply set_cell_shape; eauto |].
  split.
  - destruct g as [vg | s0 d0]; simpl in *; [exact Hgain |].
    destruct Hgain as (c0 & Hc0 & Hc0_v). rewrite Htypes in *.
    destruct (decide (s0 = j /\ d0 = d)) as [[-> ->] | Hne].
    + rewrite (cell_set_cell_eq _ _ _ _ _ Ha). eexists. split; [reflexivity |].
      rewrite row_with_tail_tail by assumption.
      apply Hblend. congruence.
    + rewrite (cell_set_cell_ne _ _ _ _ _ s0 d0 Ha)
        by (destruct (decide (s0 = j)); [right; intros ->; tauto | left; assumption]).
      exists c0. now split.
  - intros s' d' c Hc. destruct (Hcells s' d' c Hc) as (c' & Hc' & Hstate).
    destruct (decide (s' = j /\ d' = d)) as [[-> ->] | Hne].
    + exists (take (types + 2) cj ++ avg).
      split; [now apply (cell_set_cell_eq _ _ _ _ _ Ha) |].
      assert (c' = cj) as -> by congruence.
      destruct Hstate as (Hhead & Hdone & Hassigned & Hsame).
      assert (Hnow : (d < d)%nat \/ d = d /\ (j < S j)%nat) by (right; split; [reflexivity | lia]).
      split; [now rewrite row_with_tail_head |].
      split; [| split; intros Hnot; contradiction].
      intros _. rewrite row_with_tail_tail by assumption.
      unfold propagated. destruct (decide (j = subject)) as [Hsub | Hsub].
      * apply Hblend, Hassigned; [lia | tauto].
      * rewrite <- (Hsame ltac:(lia) ltac:(tauto)).
        apply zip_average_proper; [apply Qvec_refl | exact Hv].
    + exists c'. split.
      { rewrite <- Hc'. apply (cell_set_cell_ne _ _ _ _ _ s' d' Ha).
        destruct (decide (s' = j)); [right; intros ->; tauto | left; assumption]. }
      eapply cell_state_iff; [| reflexivity | exact Hstate]. lia.
Qed.

Lemma propagate_difficulty_run d e :
  (d < difficulties_levels e0)%nat ->
  propagating d 0 False e ->
  exists e', propagate_difficulty g subject d e = (e', Ok tt) /\
             propagating (S d) 0 False e'.
Proof.
  intros Hd Hinv. pose proof (propagating_types _ _ _ _ Hinv) as Htypes.
  destruct Hinv as (Hframe & Hshape & Hgain & Hcells).
  assert (Hsubjects : num_subjects e = num_subjects e0) by (rewrite Hframe; reflexivity).
  destruct (cell_in_shape _ _ _ _ subject d Hshape subject_lt Hd) as (cs & Hcs & Hcs_len).
  destruct (gain_reads_run _ _ _ Hgain) as (v & Hv_run & Hv).
  assert (Hv_len : length v = types) by (rewrite <- v0_length; eapply Forall2_length; eauto).
  destruct (scores_set_tail_run e subject d v cs) as (a & Ha & Hset);
    [try rewrite Htypes; assumption .. |].
  rewrite Htypes in Ha, Hset.
  assert (Hassigned : propagating d 0 True (with_last_scores a e)).
  { split; [now apply scores_only_write |].
    split; [eapply set_cell_shape; eauto; now apply row_with_tail_length |].
    split.
    - destruct g as [vg | s0 d0]; simpl in *; [exact Hgain |].
      destruct Hgain as (c0 & Hc0 & Hc0_v). rewrite Htypes in *.
      destruct (decide (s0 = subject /\ d0 = d)) as [[-> ->] | Hne].
      + rewrite (cell_set_cell_eq _ _ _ _ _ Ha). eexists. split; [reflexivity |].
        now rewrite row_with_tail_tail.
      + rewrite (cell_set_cell_ne _ _ _ _ _ s0 d0 Ha)
          by (destruct (decide (s0 = subject)); [right; intros ->; tauto | left; assumption]).
        exists c0. now split.
    - intros s' d' c Hc. destruct (Hcells s' d' c Hc) as (c' & Hc' & Hstate).
      destruct (decide (s' = subject /\ d' = d)) as [[-> ->] | Hne].
      + exists (take (types + 2) cs ++ v).
        split; [now apply (cell_set_cell_eq _ _ _ _ _ Ha) |].
        assert (c' = cs) as -> by congruence.
        destruct Hstate as (Hhead & _ & _ & Hsame).
        assert (cs = c) as -> by (apply Hsame; [lia | tauto]).
        split; [now rewrite row_with_tail_head |].
        split; [intros [? | [_ ?]]; lia |].
        split; [intros _ _; now rewrite row_with_tail_tail | tauto].
      + exists c'. split.
        { rewrite <- Hc'. apply (cell_set_cell_ne _ _ _ _ _ s' d' Ha).
          destruct (decide (s' = subject)); [right; intros ->; tauto | left; assumption]. }
        eapply cell_state_iff; [reflexivity | | exact Hstate]. tauto. }
  destruct (for_each_range_invariant (blend_subject g d)
              (fun j => propagating d j True) (num_subjects e0) _ Hassigned)
    as (e' & Hloop & Hdone).
  { intros j e1 Hj. now apply blend_subject_run. }
  exists e'. split.
  { unfold propagate_difficulty. run_env. rewrite Hv_run. run_env.
    rewrite Htypes, Hset, Hsubjects. exact Hloop. }
  destruct Hdone as (Hframe' & Hshape' & Hgain' & Hcells').
  split; [exact Hframe' |]. split; [exact Hshape' |]. split; [exact Hgain' |].
  intros s' d' c Hc. destruct (Hcells' s' d' c Hc) as (c' & Hc' & Hstate).
  exists c'. split; [exact Hc' |].
  destruct (cell_shape _ _ _ _ _ _ _ scores_shape Hc) as (Hs' & _).
  eapply cell_state_iff; [| | exact Hstate]; [lia | intros Hnot; split; intros ?; lia].
Qed.

Lemma propagate_type_gain_run :
  gain_reads g v0 e0 ->
  exists e', propagate_type_gain g subject e0 = (e', Ok tt) /\
    scores_only e0 e' /\
    shape3 (last_scores e') (num_subjects e0) (difficulties_levels e0) width /\
    forall s d c, cell (last_scores e0) s d = Some c ->
      exists c', cell (last_scores e') s d = Some c' /\
        take (types + 2) c' = take (types + 2) c /\
        Forall2 Qeq (tail_slice types c') (propagated subject v0 s (tail_slice types c)).
Proof.
  intros Hgain.
  destruct (for_each_range_invariant (propagate_difficulty g subject)
              (fun d => propagating d 0 False) (difficulties_levels e0) e0)
    as (e' & Hloop & Hframe & Hshape & _ & Hcells).
  - split; [apply scores_only_refl |]. split; [exact scores_shape |].
    split; [exact Hgain |]. intros s d c Hc. exists c. split; [exact Hc |].
    unfold cell_state. repeat split; try reflexivity; intros; lia.
  - intros d e1 Hd. now apply propagate_difficulty_run.
  - exists e'. split; [exact Hloop |]. split; [exact Hframe |]. split; [exact Hshape |].
    intros s d c Hc. destruct (Hcells s d c Hc) as (c' & Hc' & Hhead & Hdone & _).
    exists c'. split; [exact Hc' |]. split; [exact Hhead |]. apply Hdone. left.
    now destruct (cell_shape _ _ _ _ _ _ _ scores_shape Hc) as (_ & Hd & _).
Qed.
End Propagation.

(** ** Recording the score of a test *)

Lemma Qlt_bool_iff (a b : Q) : Qlt_bool a b = true <-> a < b.
Proof.
  unfold Qlt_bool. rewrite negb_true_iff, <- not_true_iff_false, Qle_bool_iff.
  split; [apply Qnot_le_lt | apply Qlt_not_le].
Qed.

Lemma clamped_score_bounds (x : Q) : 0 <= py_min (py_max x 0) 100 <= 100.
Proof.
  unfold py_min, py_max.
  destruct (Qlt_bool x 0) eqn:Hneg.
  - now replace (Qlt_bool 100 0) with false by reflexivity.
  - apply not_true_iff_false in Hneg. rewrite Qlt_bool_iff in Hneg.
    destruct (Qlt_bool 100 x) eqn:Hbig.
    + split; discriminate.
    + apply not_true_iff_false in Hbig. rewrite Qlt_bool_iff in Hbig. lra.
Qed.

Lemma layer0_length (a : list (list (list Q))) : length (layer0 a) = length a.
Proof. unfold layer0. apply length_map. Qed.

Lemma estimated_skill_run `{Externals} (scores : list (list Q)) (subject : nat) e :
  one_estimate_per_subject -> (subject < length scores)%nat ->
  exists x, estimated_skill scores subject e = (e, Ok x).
Proof.
  intros Hone Hs. unfold estimated_skill.
  destruct (lookup_lt_is_Some_2 (estimate_skills scores REVIEW_RATIO) subject) as [x Hx].
  { now rewrite Hone. }
  exists x. now rewrite Hx.
Qed.

Lemma record_test_score_run `{Externals} (e : StudentEnv) (subject difficulty : nat) (z : Q) :
  one_estimate_per_subject -> well_formed e ->
  (subject < num_subjects e)%nat -> (difficulty < difficulties_levels e)%nat ->
  exists (c : list Q) (a : list (list (list Q))) (sampled previous improvement : Q),
    cell (last_scores e) subject difficulty = Some c /\
    c !! 0%nat = Some previous /\
    0 <= sampled <= 100 /\
    shape3 a (num_subjects e) (difficulties_levels e) (2 * learning_type_number e + 2) /\
    cell a subject difficulty = Some (<[0%nat := sampled]> (<[1%nat := sampled - previous]> c)) /\
    (forall s' d', s' <> subject \/ d' <> difficulty ->
                   cell a s' d' = cell (last_scores e) s' d') /\
    record_test_score subject difficulty z e
    = (with_last_scores a e, Ok (previous, improvement)).
Proof.
  intros Hone Hwf Hs Hd.
  destruct (lookup_lt_is_Some_2 (skills_levels e) subject) as [skill Hskill].
  { now rewrite (wf_skills e Hwf). }
  destruct (get_test_mean_run e subject difficulty skill Hwf Hd Hskill) as (mean & Hmean & _).
  destruct (cell_in_shape _ _ _ _ subject difficulty (wf_scores e Hwf) Hs Hd)
    as (c & Hc & Hc_len).
  destruct (lookup_lt_is_Some_2 c 0) as [previous Hprevious]; [lia |].
  set (sampled := py_min (py_max (random_normal mean TEST_SCORE_STD z) 0) 100).
  destruct (scores_set_item_run e subject difficulty 1 (sampled - previous) c Hc)
    as (a1 & Ha1 & Hset1); [lia |].
  pose proof (cell_set_cell_eq _ _ _ _ _ Ha1) as Hc1.
  destruct (scores_set_item_run (with_last_scores a1 e) subject difficulty 0 sampled _ Hc1)
    as (a2 & Ha2 & Hset2); [rewrite length_insert; lia |].
  simpl in Ha2.
  assert (Hshape1 : shape3 a1 (num_subjects e) (difficulties_levels e)
                           (2 * learning_type_number e + 2)).
  { eapply set_cell_shape; [apply (wf_scores e Hwf) | exact Ha1 |].
    now rewrite length_insert. }
  assert (Hshape2 : shape3 a2 (num_subjects e) (difficulties_levels e)
                           (2 * learning_type_number e + 2)).
  { eapply set_cell_shape; [exact Hshape1 | exact Ha2 |]. now rewrite !length_insert. }
  destruct (estimated_skill_run (layer0 a2) subject (with_last_scores a2 e) Hone)
    as [after Hafter].
  { rewrite layer0_length. destruct Hshape2 as [-> _]. exact Hs. }
  destruct (estimated_skill_run (layer0 (last_scores e)) subject (with_last_scores a2 e) Hone)
    as [before Hbefore].
  { rewrite layer0_length. destruct (wf_scores e Hwf) as [-> _]. exact Hs. }
  exists c, a2, sampled, previous, (after - before).
  split; [exact Hc |]. split; [exact Hprevious |].
  split; [apply clamped_score_bounds |]. split; [exact Hshape2 |].
  split; [exact (cell_set_cell_eq _ _ _ _ _ Ha2) |].
  split.
  { intros s' d' Hne. rewrite (cell_set_cell_ne _ _ _ _ _ s' d' Ha2 Hne).
    exact (cell_set_cell_ne _ _ _ _ _ s' d' Ha1 Hne). }
  unfold record_test_score.
  step_with Hmean.
  step_with (scores_item_run e subject difficulty 0 c previous Hc Hprevious).
  unfold gets at 1. step_with (eq_refl (e, Ok (layer0 (last_scores e)))).
  fold sampled. step_with Hset1. step_with Hset2.
  unfold gets. step_with (eq_refl (with_last_scores a2 e, Ok (layer0 a2))).
  step_with Hafter. step_with Hbefore. reflexivity.
Qed.

(** ** Gain attribution *)

Lemma cell_Forall (P : list Q -> Prop) (a : list (list (list Q))) s d c :
  Forall (Forall P) a -> cell a s d = Some c -> P c.
Proof.
  intros Hall. unfold cell. destruct (a !! s) as [r |] eqn:Hr; [| discriminate].
  intros Hc. exact (Forall_lookup_1 _ _ _ _ (Forall_lookup_1 _ _ _ _ Hall Hr) Hc).
Qed.

Lemma attribute_types_run (e : StudentEnv) (subject difficulty : nat) (new_gain : Q)
  (row : list Q) :
  cell (train_counter e) subject difficulty = Some row ->
  Forall (Qle 0) row ->
  forall (elems : list (Q * Q)) (idx : nat) (result : list Q) (ratio : ndvalue),
    (idx + length elems <= length row)%nat ->
    (idx + length elems <= length result)%nat ->
    Forall (fun p => 0 <= snd p) elems ->
    exists result' ratio',
      attribute_types subject difficulty new_gain idx elems result ratio e
      = (e, Ok (result', ratio')) /\
      length result' = length result /\
      ((elems = [] /\ ratio' = ratio) \/ exists r, ratio' = Scalar r).
Proof.
  intros Hrow Hnonneg elems.
  induction elems as [| [last_avg r] rest IH]; intros idx result ratio Hidx Hres Hr.
  - exists result, ratio. split; [reflexivity |]. split; [reflexivity |]. now left.
  - simpl in Hidx, Hres. inversion Hr as [| p ps Hr0 Hrest]; subst. simpl in Hr0.
    destruct (lookup_lt_is_Some_2 row idx) as [counter Hcounter]; [lia |].
    pose proof (Forall_lookup_1 _ _ _ _ Hnonneg Hcounter) as Hcounter_pos.
    assert (Hx : exists x,
               (if Qeq_bool counter 0 then ret new_gain
                else reading (fun _ => np_average last_avg new_gain counter r)) e
               = (e, Ok x)).
    { destruct (Qeq_bool counter 0) eqn:Hzero; [now exists new_gain |].
      apply Qeq_bool_neq in Hzero. unfold reading, np_average.
      replace (Qeq_bool (counter + r) 0) with false; [eauto |].
      symmetry. apply not_true_iff_false. rewrite Qeq_bool_iff. lra. }
    destruct Hx as [x Hx].
    destruct (IH (S idx) (<[idx := x]> result) (Scalar r)) as (result' & ratio' & Hrun & Hlen & _);
      [lia | rewrite length_insert; lia | exact Hrest |].
    exists result', ratio'. split; [| split].
    + assert (Hset : set_item result idx x = Some (<[idx := x]> result)).
      { unfold set_item. destruct (lookup_lt_is_Some_2 result idx) as [y Hy]; [lia |].
        now rewrite Hy. }
      cbn [attribute_types].
      step_with (eq_refl (e, Ok e)).
      step_with (orRaise_run IndexError _ row e Hrow).
      step_with (orRaise_run IndexError _ counter e Hcounter).
      step_with Hx.
      step_with (orRaise_run IndexError _ _ e Hset).
      exact Hrun.
    + now rewrite Hlen, length_insert.
    + right. destruct rest as [| p rest'].
      * simpl in Hrun. injection Hrun as _ <-. eauto.
      * destruct (IH (S idx) (<[idx := x]> result) (Scalar r))
          as (result'' & ratio'' & Hrun' & _ & [[Habs _] | Hscalar]);
          [lia | rewrite length_insert; lia | exact Hrest | discriminate |].
        rewrite Hrun in Hrun'. injection Hrun' as _ <-. exact Hscalar.
Qed.

Lemma counter_add_loop_run (e : StudentEnv) (subject n : nat) (x : Q) :
  shape3 (train_counter e) (num_subjects e) (difficulties_levels e) (learning_type_number e) ->
  (subject < num_subjects e)%nat -> (n <= difficulties_levels e)%nat ->
  exists e',
    for_each (range n) (fun d => counter_add subject d (Scalar x)) e = (e', Ok tt) /\
    counter_only e e' /\
    shape3 (train_counter e') (num_subjects e) (difficulties_levels e)
           (learning_type_number e).
Proof.
  intros Hshape Hs Hn.
  destruct (for_each_range_invariant (fun d => counter_add subject d (Scalar x))
              (fun _ e' => counter_only e e' /\
                           shape3 (train_counter e') (num_subjects e) (difficulties_levels e)
                                  (learning_type_number e)) n e)
    as (e' & Hrun & Hend).
  - split; [| exact Hshape]. unfold counter_only. now destruct e.
  - intros d e1 Hd [Hframe Hshape1].
    destruct (cell_in_shape _ _ _ _ subject d Hshape1 Hs ltac:(lia)) as (row & Hrow & Hrow_len).
    destruct (set_cell_is_Some _ _ _ _ (map (fun y => y + x) row) Hrow) as [t Ht].
    exists (with_train_counter t e1). split; [| split].
    + unfold counter_add. rewrite Hrow. simpl. now rewrite Ht.
    + unfold counter_only in *. rewrite Hframe. reflexivity.
    + simpl. eapply set_cell_shape; eauto. now rewrite length_map.
  - now exists e'.
Qed.

Lemma get_mean_type_gain_run (e : StudentEnv) (subject difficulty : nat) (improvement : Q) :
  well_formed e -> nonneg_counters e ->
  (0 < learning_type_number e)%nat ->
  (learning_type_number e <= difficulties_levels e)%nat \/ untrained_cell e subject difficulty ->
  (subject < num_subjects e)%nat -> (difficulty < difficulties_levels e)%nat ->
  exists (t : list (list (list Q))) (g : type_gain) (v0 : list Q),
    _get_mean_type_gain subject difficulty improvement e = (with_train_counter t e, Ok g) /\
    shape3 t (num_subjects e) (difficulties_levels e) (learning_type_number e) /\
    gain_reads g v0 (with_train_counter t e) /\
    type_gain_value g (with_train_counter t e) = (with_train_counter t e, Ok v0) /\
    length v0 = learning_type_number e.
Proof.
  intros Hwf [Hcounter_pos Hcounts_pos] Hpos Hreach Hs Hd.
  destruct (cell_in_shape _ _ _ _ subject difficulty (wf_scores e Hwf) Hs Hd)
    as (c & Hc & Hc_len).
  assert (Hle : 0 < np_sum (counts_slice (learning_type_number e) c) ->
                (learning_type_number e <= difficulties_levels e)%nat).
  { intros Htotal. destruct Hreach as [Hle | Huntrained]; [exact Hle |].
    specialize (Huntrained c Hc). lra. }
  clear Hreach.
  set (n := learning_type_number e) in *.
  set (counts := counts_slice n c) in *.
  assert (Hstart : _get_mean_type_gain subject difficulty improvement e
                   = (if Qlt_bool 0 (np_sum counts)
                      then
                        (looped <- attribute_types subject difficulty
                                     (improvement / np_sum counts) 0
                                     (zip (tail_slice n c)
                                          (map (fun x => x / np_sum counts) counts))
                                     (replicate n (- (1)))
                                     (Vector (map (fun x => x / np_sum counts) counts)) ;;
                         for_each (range n) (fun d => counter_add subject d (snd looped)) ;;
                         ret (Fresh (fst looped)))%env
                      else ret (StoredRow subject difficulty)) e).
  { unfold _get_mean_type_gain. run_env. rewrite (scores_cell_run _ _ _ _ Hc). reflexivity. }
  rewrite Hstart. clear Hstart.
  destruct (Qlt_bool 0 (np_sum counts)) eqn:Htotal.
  - apply Qlt_bool_iff in Htotal.
    destruct (cell_in_shape _ _ _ _ subject difficulty (wf_counter e Hwf) Hs Hd)
      as (row & Hrow & Hrow_len).
    assert (Hcounts_len : length counts = n).
    { unfold counts, counts_slice. rewrite length_take, length_drop. lia. }
    assert (Hcounts : Forall (Qle 0) counts).
    { exact (cell_Forall _ _ _ _ _ Hcounts_pos Hc). }
    destruct (attribute_types_run e subject difficulty (improvement / np_sum counts) row Hrow
                (cell_Forall _ _ _ _ _ Hcounter_pos Hrow)
                (zip (tail_slice n c) (map (fun x => x / np_sum counts) counts)) 0
                (replicate n (- (1)))
                (Vector (map (fun x => x / np_sum counts) counts)))
      as (result & ratio' & Hloop & Hresult_len & Hratio).
    + rewrite length_zip_with, length_map, (tail_slice_length n Hpos), Hcounts_len by exact Hc_len.
      fold n in Hrow_len. lia.
    + rewrite length_zip_with, length_map, (tail_slice_length n Hpos), Hcounts_len,
        length_replicate by exact Hc_len. lia.
    + apply Forall_lookup. intros i [x r] Hi. simpl.
      apply lookup_zip_with_Some in Hi as (x' & r' & [= <- <-] & _ & Hr').
      rewrite list_lookup_fmap in Hr'. destruct (counts !! i) as [y |] eqn:Hy; [| discriminate].
      injection Hr' as <-. pose proof (Forall_lookup_1 _ _ _ _ Hcounts Hy) as Hy_pos.
      apply Qle_shift_div_l; [exact Htotal | lra].
    + destruct Hratio as [[Hempty _] | [r ->]].
      { exfalso. apply (f_equal length) in Hempty.
        rewrite length_zip_with, length_map, (tail_slice_length n Hpos), Hcounts_len in Hempty
          by exact Hc_len. simpl in Hempty. lia. }
      destruct (counter_add_loop_run e subject n r (wf_counter e Hwf) Hs (Hle Htotal))
        as (e' & Hadd & Hframe & Hshape).
      exists (train_counter e'), (Fresh result), result. unfold counter_only in Hframe.
      rewrite <- Hframe.
      split; [| split; [exact Hshape | split; [reflexivity | split; [reflexivity |]]]].
      * step_with Hloop. simpl snd. step_with Hadd. reflexivity.
      * now rewrite Hresult_len, length_replicate.
  - exists (train_counter e), (StoredRow subject difficulty), (tail_slice n c).
    replace (with_train_counter (train_counter e) e) with e by now destruct e.
    split; [reflexivity |]. split; [exact (wf_counter e Hwf) |]. split; [| split].
    + simpl. exists c. split; [exact Hc | apply Qvec_refl].
    + simpl. run_env. now rewrite (scores_cell_run _ _ _ _ Hc).
    + now apply tail_slice_length.
Qed.

(** ** The reward of a test *)

Lemma zero_counts_head (n : nat) (c : list Q) (i : nat) :
  (i < 2 <= length c)%nat -> zero_counts n c !! i = c !! i.
Proof.
  intros Hi. unfold zero_counts.
  rewrite lookup_app_l by (rewrite length_take; lia).
  apply lookup_take_lt. lia.
Qed.

Lemma zero_counts_length (n : nat) (c : list Q) :
  length c = (2 * n + 2)%nat -> length (zero_counts n c) = (2 * n + 2)%nat.
Proof.
  intros Hc. unfold zero_counts, counts_slice.
  rewrite !length_app, length_replicate, !length_take, !length_drop. lia.
Qed.

Lemma zero_counts_tail (n : nat) (c : list Q) :
  (0 < n)%nat -> length c = (2 * n + 2)%nat ->
  tail_slice n (zero_counts n c) = tail_slice n c.
Proof.
  intros Hn Hc.
  rewrite !(tail_slice_row n Hn) by (try apply zero_counts_length; exact Hc).
  unfold zero_counts, counts_slice. rewrite app_assoc.
  rewrite drop_app_length'; [f_equal; lia |].
  rewrite length_app, length_replicate, !length_take, length_drop. lia.
Qed.

Lemma zero_counts_counts (n : nat) (c : list Q) :
  length c = (2 * n + 2)%nat -> counts_slice n (zero_counts n c) = replicate n 0.
Proof.
  intros Hc. unfold zero_counts, counts_slice.
  assert (Hn : length (take n (drop 2 c)) = n) by (rewrite length_take, length_drop; lia).
  rewrite Hn, drop_app_length' by (rewrite length_take; lia).
  apply take_app_length'. now rewrite length_replicate.
Qed.

Lemma train_time_run (e : StudentEnv) (subject : nat) (t : Q) :
  cumulative_train_time e !! subject = Some t -> train_time subject e = (e, Ok t).
Proof. intros Ht. unfold train_time. now rewrite Ht. Qed.

Lemma test_reward_run `{Externals} (e : StudentEnv) (subject difficulty : nat)
  (previous : Q) (c : list Q) (la : action_log) (time : Q) :
  cell (last_scores e) subject difficulty = Some c ->
  (2 <= length c)%nat ->
  last_action e = Some la ->
  cumulative_train_time e !! subject = Some time ->
  exists (a : list (list (list Q))) (score r : Q),
    c !! 0%nat = Some score /\
    set_cell (last_scores e) subject difficulty (zero_counts (learning_type_number e) c)
    = Some a /\
    test_reward subject difficulty previous e
    = (with_last_action (Some (log_test_score score la)) (with_last_scores a e), Ok r) /\
    (time == 0 -> r = TIME_PENALTY_FOR_TEST).
Proof.
  intros Hc Hlen Hla Htime.
  destruct (lookup_lt_is_Some_2 c 0) as [score Hscore]; [lia |].
  destruct (set_cell_is_Some _ _ _ _ (zero_counts (learning_type_number e) c) Hc) as [a Ha].
  set (e1 := with_last_scores a e).
  set (e2 := with_last_action (Some (log_test_score score la)) e1).
  assert (Hitem : forall e', last_scores e' = a -> scores_item subject difficulty 0 e' = (e', Ok score)).
  { intros e' He'. eapply scores_item_run.
    - rewrite He'. exact (cell_set_cell_eq _ _ _ _ _ Ha).
    - rewrite zero_counts_head by lia. exact Hscore. }
  assert (Hlog : log_update (log_test_score score) e1 = (e2, Ok tt)).
  { unfold log_update. simpl. now rewrite Hla. }
  assert (Htail : exists r,
    (if Qeq_bool time 0 then ret TIME_PENALTY_FOR_TEST
     else
       score <- scores_item subject difficulty 0 ;;
       if Qle_bool TARGET_SCORE score then
         if Qlt_bool previous TARGET_SCORE
         then ret (REWARD_FOR_ACHIEVING_TARGET_LEVEL * Qnat (difficulty + 1)
                   / Qnat (difficulties_levels e))
         else ret PENALTY_FOR_UNNECESSARY_TEST
       else
         e <- get ;;
         score <- scores_item subject difficulty 0 ;;
         time <- train_time subject ;;
         ret (GAIN_MULTIPLIER_FOR_TEST * (1 / np_sqrt (Qnat (step_num e + 1)))
              * ((score - previous) / time) + TIME_PENALTY_FOR_TEST))%env e2 = (e2, Ok r)
    /\ (time == 0 -> r = TIME_PENALTY_FOR_TEST)).
  { destruct (Qeq_bool time 0) eqn:Hzero.
    - exists TIME_PENALTY_FOR_TEST. now split.
    - apply Qeq_bool_neq in Hzero.
      assert (Hno : forall r : Q, time == 0 -> r = TIME_PENALTY_FOR_TEST) by (intros; contradiction).
      step_with (Hitem e2 eq_refl).
      destruct (Qle_bool TARGET_SCORE score).
      + destruct (Qlt_bool previous TARGET_SCORE); eexists; split; try reflexivity; apply Hno.
      + step_with (eq_refl (e2, Ok e2)). step_with (Hitem e2 eq_refl).
        step_with (train_time_run e2 subject time Htime).
        eexists; split; [reflexivity | apply Hno]. }
  destruct Htail as (r & Hrun & Hr).
  exists a, score, r. split; [exact Hscore |]. split; [exact Ha |]. split; [| exact Hr].
  unfold test_reward.
  step_with (eq_refl (e, Ok e)).
  step_with (scores_cell_run e subject difficulty c Hc).
  step_with (scores_set_cell_run e subject difficulty _ a Ha). fold e1.
  step_with (Hitem e1 eq_refl).
  step_with Hlog.
  step_with (train_time_run e2 subject time Htime).
  exact Hrun.
Qed.

(** ** A whole test *)

Lemma Forall_cells (P : list Q -> Prop) (a : list (list (list Q))) :
  (forall s d c, cell a s d = Some c -> P c) -> Forall (Forall P) a.
Proof.
  intros Hcells. apply Forall_lookup. intros s r Hr.
  apply Forall_lookup. intros d c Hc. apply (Hcells s d). unfold cell. now rewrite Hr.
Qed.

Lemma take_lookup_eq (k i : nat) (a b : list Q) :
  take k a = take k b -> (i < k)%nat -> a !! i = b !! i.
Proof.
  intros Htake Hi. rewrite <- (lookup_take_lt a k i), <- (lookup_take_lt b k i) by exact Hi.
  now rewrite Htake.
Qed.

Lemma take_counts_eq (n : nat) (a b : list Q) :
  take (n + 2) a = take (n + 2) b -> counts_slice n a = counts_slice n b.
Proof.
  intros Htake. unfold counts_slice.
  rewrite !take_drop_commute.
  replace (2 + n)%nat with (n + 2)%nat by lia. now rewrite Htake.
Qed.

Lemma well_formed_with_last_scores (e : StudentEnv) (a : list (list (list Q))) :
  well_formed e ->
  shape3 a (num_subjects e) (difficulties_levels e) (2 * learning_type_number e + 2) ->
  well_formed (with_last_scores a e).
Proof. intros [] Ha. now constructor. Qed.

Lemma well_formed_with_train_counter (e : StudentEnv) (t : list (list (list Q))) :
  well_formed e ->
  shape3 t (num_subjects e) (difficulties_levels e) (learning_type_number e) ->
  well_formed (with_train_counter t e).
Proof. intros [] Ht. now constructor. Qed.

Lemma well_formed_with_last_action (e : StudentEnv) (la : option action_log) :
  well_formed e -> well_formed (with_last_action la e).
Proof. intros []. now constructor. Qed.

Lemma test_run `{Externals} (e : StudentEnv) (subject difficulty : nat) (z : Q)
  (la : action_log) (time : Q) :
  one_estimate_per_subject -> well_formed e -> nonneg_counters e ->
  (0 < learning_type_number e)%nat ->
  (learning_type_number e <= difficulties_levels e)%nat \/ untrained_cell e subject difficulty ->
  (subject < num_subjects e)%nat -> (difficulty < difficulties_levels e)%nat ->
  last_action e = Some la ->
  cumulative_train_time e !! subject = Some time ->
  exists (a1 t a3 : list (list (list Q))) (sampled previous improvement r : Q)
         (g : type_gain) (v0 : list Q),
    record_test_score subject difficulty z e
    = (with_last_scores a1 e, Ok (previous, improvement)) /\
    _get_mean_type_gain subject difficulty improvement (with_last_scores a1 e)
    = (with_train_counter t (with_last_scores a1 e), Ok g) /\
    type_gain_value g (with_train_counter t (with_last_scores a1 e))
    = (with_train_counter t (with_last_scores a1 e), Ok v0) /\
    _test subject difficulty z e
    = (with_last_action (Some (log_test_score sampled la))
         (with_last_scores a3 (with_train_counter t e)), Ok r) /\
    0 <= sampled <= 100 /\
    length v0 = learning_type_number e /\
    shape3 a3 (num_subjects e) (difficulties_levels e) (2 * learning_type_number e + 2) /\
    shape3 t (num_subjects e) (difficulties_levels e) (learning_type_number e) /\
    (time == 0 -> r = TIME_PENALTY_FOR_TEST) /\
    forall s d c0, cell (last_scores e) s d = Some c0 ->
      exists c', cell a3 s d = Some c' /\
        tested_cell (learning_type_number e) subject difficulty sampled previous v0 s d c0 c'.
Proof.
  intros Hone Hwf [Hcounter_pos Hcounts_pos] Hpos Hreach Hs Hd Hla Htime.
  set (n := learning_type_number e) in *.
  destruct (record_test_score_run e subject difficulty z Hone Hwf Hs Hd)
    as (ct & a1 & sampled & previous & improvement
        & Hct & Hprevious & Hsampled & Hshape1 & Hct1 & Hother1 & Hrecord).
  pose proof (cell_shape _ _ _ _ _ _ _ (wf_scores e Hwf) Hct) as (_ & _ & Hct_len).
  fold n in Hct_len.
  set (e_mid := with_last_scores a1 e) in *.
  assert (Hwf_mid : well_formed e_mid) by now apply well_formed_with_last_scores.
  assert (Hnonneg_mid : nonneg_counters e_mid).
  { split; [exact Hcounter_pos |]. apply Forall_cells. intros s d c Hc. simpl in Hc.
    destruct (decide (s = subject /\ d = difficulty)) as [[-> ->] | Hne].
    - rewrite Hct1 in Hc. injection Hc as <-. simpl. fold n.
      unfold counts_slice. rewrite !drop_insert_lt by lia.
      exact (cell_Forall _ _ _ _ _ Hcounts_pos Hct).
    - rewrite Hother1 in Hc by (destruct (decide (s = subject)); [right; intros ->; tauto | now left]).
      exact (cell_Forall _ _ _ _ _ Hcounts_pos Hc). }
  assert (Hreach_mid : (learning_type_number e_mid <= difficulties_levels e_mid)%nat
                       \/ untrained_cell e_mid subject difficulty).
  { destruct Hreach as [Hle | Huntrained]; [now left | right].
    intros c Hc. simpl in Hc. rewrite Hct1 in Hc. injection Hc as <-. simpl. fold n.
    unfold counts_slice. rewrite !drop_insert_lt by lia. exact (Huntrained ct Hct). }
  destruct (get_mean_type_gain_run e_mid subject difficulty improvement
              Hwf_mid Hnonneg_mid Hpos Hreach_mid Hs Hd)
    as (t & g & v0 & Hgain & Hshape_t & Hreads & Hvalue & Hv0).
  simpl in Hshape_t, Hv0. fold n in Hshape_t, Hv0.
  set (e1 := with_train_counter t e_mid) in *.
  destruct (propagate_type_gain_run e1 subject g v0) as (e2 & Hprop & Hframe2 & Hshape2 & Hcells2);
    [exact Hpos | exact Hshape1 | exact Hv0 | exact Hs | exact Hreads |].
  simpl in Hshape2, Hcells2. fold n in Hshape2, Hcells2.
  unfold scores_only in Hframe2. set (a2 := last_scores e2) in *.
  change (with_last_scores a2 e1) with (with_last_scores a2 (with_train_counter t e)) in Hframe2.
  destruct (Hcells2 subject difficulty _ Hct1) as (ct2 & Hct2 & Hhead2 & Htail2).
  pose proof (cell_shape _ _ _ _ _ _ _ Hshape2 Hct2) as (_ & _ & Hct2_len).
  destruct (test_reward_run e2 subject difficulty previous ct2 la time)
    as (a3 & score & r & Hscore & Ha3 & Hreward & Hr);
    [exact Hct2 | lia | rewrite Hframe2; exact Hla | rewrite Hframe2; exact Htime |].
  assert (Hn2 : learning_type_number e2 = n) by (rewrite Hframe2; reflexivity).
  rewrite Hn2 in Ha3. fold a2 in Ha3.
  assert (Hscore_eq : score = sampled).
  { rewrite (take_lookup_eq (n + 2) 0 _ _ Hhead2) in Hscore by lia.
    rewrite list_lookup_insert_eq in Hscore by (rewrite length_insert; lia). congruence. }
  subst score.
  exists a1, t, a3, sampled, previous, improvement, r, g, v0.
  split; [exact Hrecord |]. split; [exact Hgain |]. split; [exact Hvalue |].
  split.
  { unfold _test. step_with Hrecord. simpl snd. simpl fst. step_with Hgain.
    step_with Hprop. rewrite Hreward. rewrite Hframe2. reflexivity. }
  split; [exact Hsampled |]. split; [exact Hv0 |].
  split.
  { eapply set_cell_shape; [exact Hshape2 | exact Ha3 |]. now apply zero_counts_length. }
  split; [exact Hshape_t |]. split; [exact Hr |].
  intros s d c0 Hc0.
  destruct (decide (s = subject /\ d = difficulty)) as [[-> ->] | Hne].
  - exists (zero_counts n ct2). split; [exact (cell_set_cell_eq _ _ _ _ _ Ha3) |].
    assert (c0 = ct) as -> by congruence.
    split; [| split; [intros [? | ?]; congruence |]].
    + rewrite zero_counts_tail by (try exact Hct2_len; exact Hpos).
      unfold propagated in *. now destruct (decide (subject = subject)).
    + intros _. rewrite !zero_counts_head by lia.
      rewrite !(take_lookup_eq (n + 2) _ _ _ Hhead2) by lia.
      split; [now rewrite list_lookup_insert_eq by (rewrite length_insert; lia) |].
      split; [| split; [exact Hprevious | now apply zero_counts_counts]].
      rewrite list_lookup_insert_ne by lia.
      now rewrite list_lookup_insert_eq by lia.
  - assert (Hne' : s <> subject \/ d <> difficulty)
      by (destruct (decide (s = subject)); [right; intros ->; tauto | now left]).
    assert (Hc1 : cell a1 s d = Some c0) by now rewrite Hother1.
    destruct (Hcells2 s d c0 Hc1) as (c2 & Hc2 & Hhead & Htail).
    exists c2. split; [rewrite <- Hc2; exact (cell_set_cell_ne _ _ _ _ _ s d Ha3 Hne') |].
    split; [exact Htail |]. split; [intros _; exact Hhead | tauto].
Qed.

(** ** A whole step *)

Lemma contains_components (e : StudentEnv) (is_test subject test_difficulty
  learning_types learning_difficulty : Z) :
  well_formed e ->
  contains (action_space e)
           [is_test; subject; test_difficulty; learning_types; learning_difficulty] = true ->
  (0 <= is_test < 2)%Z /\
  (0 <= subject < Z.of_nat (num_subjects e))%Z /\
  (0 <= test_difficulty < Z.of_nat (difficulties_levels e))%Z /\
  (0 <= learning_types < Z.of_nat (learning_type_number e))%Z /\
  (0 <= learning_difficulty < Z.of_nat (difficulties_levels e))%Z.
Proof.
  intros Hwf. rewrite (wf_action_space e Hwf). unfold contains. simpl.
  rewrite !andb_true_iff, !Z.leb_le, !Z.ltb_lt. lia.
Qed.

Lemma top_scores_in_shape (a : list (list (list Q))) (n1 n2 n3 : nat) :
  shape3 a n1 n2 n3 -> (0 < n2)%nat -> (0 < n3)%nat ->
  exists tops, top_scores a = Some tops.
Proof.
  intros [_ Hrows] Hn2 Hn3. apply mapM_is_Some_2.
  eapply Forall_impl; [exact Hrows |]. intros r [Hr Hcells]. simpl.
  destruct (last r) as [c |] eqn:Hlast.
  - apply lookup_lt_is_Some_2. rewrite last_lookup in Hlast.
    rewrite (Forall_lookup_1 _ _ _ _ Hcells Hlast). exact Hn3.
  - apply last_None in Hlast. subst r. simpl in Hr. lia.
Qed.

Lemma step_test_run `{Externals} (e : StudentEnv)
  (subject test_difficulty learning_types learning_difficulty : Z) (z : Q) :
  one_estimate_per_subject -> well_formed e -> nonneg_counters e ->
  (learning_type_number e <= difficulties_levels e)%nat
  \/ untrained_cell e (Z.to_nat subject) (Z.to_nat test_difficulty) ->
  contains (action_space e)
           [1%Z; subject; test_difficulty; learning_types; learning_difficulty] = true ->
  exists (e_t e' : StudentEnv) (r_test : Q) (tops : list Q),
    _test (Z.to_nat subject) (Z.to_nat test_difficulty) z
          (with_last_action (Some (new_log 1 subject test_difficulty)) e)
    = (e_t, Ok r_test) /\
    last_scores e' = last_scores e_t /\
    top_scores (last_scores e') = Some tops /\
    (forall time, cumulative_train_time e !! Z.to_nat subject = Some time ->
                  time == 0 -> r_test = TIME_PENALTY_FOR_TEST) /\
    step [1%Z; subject; test_difficulty; learning_types; learning_difficulty] z e
    = (e', Ok {| observation := last_scores e';
                 reward := (if forallb (fun x => Qlt_bool TARGET_SCORE x) tops
                            then r_test + REWARD_FOR_ACHIEVING_ALL_LEVELS else r_test)
                           + - np_sqrt (Qnat (step_num e));
                 is_done := if forallb (fun x => Qlt_bool TARGET_SCORE x) tops
                            then 1%Z else 0%Z |}).
Proof.
  intros Hone Hwf Hnonneg Hreach Hvalid.
  destruct (contains_components _ _ _ _ _ _ Hwf Hvalid) as (_ & Hs & Hd & Ht & _).
  set (la := new_log 1 subject test_difficulty).
  set (e_log := with_last_action (Some la) e).
  destruct (lookup_lt_is_Some_2 (cumulative_train_time e) (Z.to_nat subject)) as [time Htime].
  { rewrite (wf_train_time e Hwf). lia. }
  destruct (test_run e_log (Z.to_nat subject) (Z.to_nat test_difficulty) z la time Hone)
    as (a1 & t & a3 & sampled & previous & improvement & r_test & g & v0
        & _ & _ & _ & Htest & _ & _ & Hshape3 & _ & Hr & _);
    [now apply well_formed_with_last_action | exact Hnonneg | simpl; lia | exact Hreach
     | simpl; lia | simpl; lia | reflexivity | exact Htime |].
  simpl in Hshape3.
  destruct (top_scores_in_shape _ _ _ _ Hshape3) as [tops Htops]; [lia | lia |].
  set (e_t := with_last_action (Some (log_test_score sampled la))
                (with_last_scores a3 (with_train_counter t e_log))) in *.
  set (e_r := with_cumulative_train_time (<[Z.to_nat subject := 0]> (cumulative_train_time e)) e_t).
  set (done := forallb (fun x => Qlt_bool TARGET_SCORE x) tops).
  set (total := (if done then r_test + REWARD_FOR_ACHIEVING_ALL_LEVELS else r_test)
                + - np_sqrt (Qnat (step_num e))).
  set (e' := with_step_num (step_num e + 1)
               (with_last_action (Some (log_reward total (log_test_score sampled la))) e_r)).
  exists e_t, e', r_test, tops.
  split; [exact Htest |]. split; [reflexivity |]. split; [exact Htops |].
  split. { intros time' Htime' Hzero. apply Hr. congruence. }
  assert (Hbranch : test_branch (Z.to_nat subject) (Z.to_nat test_difficulty) z e_log
                    = (e_r, Ok (if done then r_test + REWARD_FOR_ACHIEVING_ALL_LEVELS
                                else r_test,
                                if done then 1%Z else 0%Z))).
  { unfold test_branch. step_with Htest.
    assert (Hreset : reset_train_time (Z.to_nat subject) e_t = (e_r, Ok tt)).
    { unfold reset_train_time. simpl. now rewrite Htime. }
    step_with Hreset.
    assert (Hall : all_levels_achieved e_r = (e_r, Ok done)).
    { unfold all_levels_achieved. simpl. now rewrite Htops. }
    step_with Hall. now destruct done. }
  unfold step. step_with (eq_refl (e, Ok e)). rewrite Hvalid.
  replace (1 =? 0)%Z with false by reflexivity. cbv beta iota zeta delta [negb].
  step_with (eq_refl (e_log, Ok tt)). step_with Hbranch.
  unfold finish_step. step_with (eq_refl (e_r, Ok e_r)). simpl fst. simpl snd.
  reflexivity.
Qed.

(** ** The instances are well formed *)

Lemma sample_one_estimate : @one_estimate_per_subject sample_externals.
Proof. intros scores ratio. apply length_map. Qed.

Lemma small_env_well_formed : well_formed small_env.
Proof. concrete_well_formed. Qed.

Lemma trained_env_well_formed : well_formed trained_env.
Proof. concrete_well_formed. Qed.

Lemma trained_env_nonneg : nonneg_counters trained_env.
Proof. concrete_nonneg. Qed.

Lemma drilled_env_well_formed : well_formed drilled_env.
Proof. concrete_well_formed. Qed.

Lemma drilled_env_nonneg : nonneg_counters drilled_env.
Proof. concrete_nonneg. Qed.

(** ** Where the code departs from the specification *)

(** C6 on [counted_env].  The tested cell of subject 0 counts one
    training of type 0, one of type 1 and two of type 2, so the shares are
    1/4, 1/4 and 1/2, and its cumulative counters are 0.  Gain attribution
    adds 1/2, the share of the last type, to the counter of every type, and
    does so in the rows of difficulty 0, 1 and 2 alike: inside the loop the
    name [ratio] is rebound to the share of the type at hand, and the update
    after the loop adds that scalar.  The counters of subject 1 stay 0. *)
Theorem attribution_adds_last_share_to_every_counter :
  (counts_slice 3 <$> cell (last_scores counted_env) 0 0) = Some [1; 1; 2] /\
  train_counter counted_env = zeros3 2 3 3 /\
  map (map (map Qred))
      (train_counter (fst (_get_mean_type_gain 0 0 8 counted_env)))
  = [[[1 # 2; 1 # 2; 1 # 2]; [1 # 2; 1 # 2; 1 # 2]; [1 # 2; 1 # 2; 1 # 2]];
     [[0; 0; 0]; [0; 0; 0]; [0; 0; 0]]].
Proof. repeat split; vm_compute; reflexivity. Qed.

Lemma profile_rows (dr : profile_draws) (row : list Q) :
  length (perturb_and_clamp dr row) = 3%nat /\
  Forall (fun r => length r = length row) (perturb_and_clamp dr row).
Proof.
  unfold perturb_and_clamp. split; [reflexivity |].
  apply Forall_map, Forall_forall. intros i _. simpl. apply length_imap.
Qed.

(** C5 at [(2, 3)].  The generator ignores its arguments: it returns three
    rows of three entries for two subjects, as for any other number.  With
    every deviate 0 the coin above 1/2 gives the row [3, 0.3, 0.3], and the
    coin at or below 1/2 gives [0.2, 0.2, 3]: the other types are drawn around
    0.2 there, not around the 0.3 of the first branch. *)
Theorem profile_is_three_by_three_and_not_mirrored :
  (forall (subjects_number learning_types_number : nat) (dr : profile_draws),
     length (_get_mean_skills_gains subjects_number learning_types_number dr) = 3%nat /\
     Forall (fun r => length r = 3%nat)
            (_get_mean_skills_gains subjects_number learning_types_number dr)) /\
  map (map Qred) (_get_mean_skills_gains 2 3 (still_draws 1))
  = [[3; 3 # 10; 3 # 10]; [3; 3 # 10; 3 # 10]; [3; 3 # 10; 3 # 10]] /\
  map (map Qred) (_get_mean_skills_gains 2 3 (still_draws 0))
  = [[1 # 5; 1 # 5; 3]; [1 # 5; 1 # 5; 3]; [1 # 5; 1 # 5; 3]].
Proof.
  split; [| split; vm_compute; reflexivity].
  intros n m dr. unfold _get_mean_skills_gains.
  destruct (Qlt_bool (1 # 2) (coin dr)); apply profile_rows.
Qed.

(** C4 at a start deviate of 9.  [reset] and the constructor clamp the
    start skill below, at 0, and not above: the deviate 9 gives the skill
    [20 + 10 * 9 = 110], outside [0, 100]. *)
Theorem start_skill_is_not_clamped_above :
  map Qred (skills_levels (fst (reset (fun _ => 9) (still_draws 1) small_env)))
  = [110; 110] /\
  map Qred (skills_levels (StudentEnv_init 2 3 3 (fun _ => 9) (still_draws 1)))
  = [110; 110] /\
  ~ 110 <= 100.
Proof. repeat split; try (vm_compute; reflexivity). lra. Qed.

(** ** Instances of the claims *)

Lemma test_mean_piecewise_witness :
  skills_levels small_env !! 0%nat = Some (py_max (random_normal 20 10 0) 0) /\
  exists mean : Q,
    _get_test_mean 0 1 small_env = (small_env, Ok mean) /\ mean == 15.
Proof.
  split; [reflexivity |].
  destruct (test_mean_piecewise small_env 0 1 (py_max (random_normal 20 10 0) 0)
              small_env_well_formed ltac:(vm_compute; lia) eq_refl)
    as (mean & Hrun & Hhard & _).
  exists mean. split; [exact Hrun |].
  destruct (Hhard ltac:(vm_compute; reflexivity)) as (threshold & Hthreshold & Hmean).
  vm_compute in Hthreshold. injection Hthreshold as <-.
  rewrite Hmean. vm_compute. reflexivity.
Defined.

Lemma bypass_differs_only_in_training_witness :
  @bypass_step sample_externals [1; 0; 0; 2; 0]%Z (1 # 2) 0
    (StudentEnvBypass_init trained_env None)
  = inherited (@step sample_externals [1; 0; 0; 2; 0]%Z 0)
      (StudentEnvBypass_init trained_env None) /\
  @bypass_step sample_externals [0; 0; 0; 2; 0]%Z (1 # 2) 0
    (StudentEnvBypass_init trained_env None)
  = inherited (@step sample_externals [0; 0; 0; 0; 0]%Z 0)
      (StudentEnvBypass_init trained_env None).
Proof.
  destruct (@bypass_differs_only_in_training sample_externals
              (StudentEnvBypass_init trained_env None) 1 0 0 2 0 (1 # 2) 0)
    as (_ & _ & Htest & _).
  destruct (@bypass_differs_only_in_training sample_externals
              (StudentEnvBypass_init trained_env None) 0 0 0 2 0 (1 # 2) 0)
    as (_ & _ & _ & Htrain).
  split.
  - apply Htest. discriminate.
  - apply (Htrain ltac:(vm_compute; reflexivity) 0%nat);
      vm_compute; reflexivity.
Defined.

(** ** Computations that keep an invariant *)

Lemma yields_bind {A B} (I : StudentEnv -> Prop) (m : M StudentEnv A)
  (k : A -> M StudentEnv B) (post : A -> Prop) (post' : B -> Prop) :
  yields I m post -> (forall a, post a -> yields I (k a) post') ->
  yields I (bind m k) post'.
Proof.
  intros Hm Hk e He. unfold bind. specialize (Hm e He).
  destruct (m e) as [e1 [a | x]]; [| exact Hm].
  destruct Hm as [He1 Ha]. exact (Hk a Ha e1 He1).
Qed.

Lemma yields_weaken {A} (I : StudentEnv -> Prop) (m : M StudentEnv A)
  (post post' : A -> Prop) :
  yields I m post -> (forall a, post a -> post' a) -> yields I m post'.
Proof.
  intros Hm Hpost e He. specialize (Hm e He).
  destruct (m e) as [e1 [a | x]]; [| exact Hm]. destruct Hm. auto.
Qed.

Lemma yields_ret {A} (I : StudentEnv -> Prop) (a : A) (post : A -> Prop) :
  post a -> yields I (ret a) post.
Proof. intros Ha e He. now split. Qed.

Lemma yields_raise {A} (I : StudentEnv -> Prop) (x : exn) (post : A -> Prop) :
  yields I (raise x) post.
Proof. intros e He. exact He. Qed.

Lemma yields_get (I : StudentEnv -> Prop) : yields I get I.
Proof. intros e He. now split. Qed.

Lemma yields_orRaise {A} (I : StudentEnv -> Prop) (x : exn) (o : option A)
  (post : A -> Prop) :
  (forall a, o = Some a -> post a) -> yields I (orRaise x o) post.
Proof. intros Ho e He. destruct o as [a |]; simpl; [split; auto | exact He]. Qed.

Lemma yields_modify (I : StudentEnv -> Prop) (f : StudentEnv -> StudentEnv) :
  (forall e, I e -> I (f e)) -> yields I (modify f) (fun _ => True).
Proof. intros Hf e He. split; [now apply Hf | exact Logic.I]. Qed.

Lemma yields_read_only {A} (I : StudentEnv -> Prop) (m : M StudentEnv A) :
  read_only m -> yields I m (fun _ => True).
Proof.
  intros Hm e He. specialize (Hm e). destruct (m e) as [e1 [a | x]]; simpl in Hm; subst e1.
  - now split.
  - exact He.
Qed.

Lemma yields_for_each {A} (I : StudentEnv -> Prop) (xs : list A)
  (body : A -> M StudentEnv unit) :
  (forall x, yields I (body x) (fun _ => True)) ->
  yields I (for_each xs body) (fun _ => True).
Proof.
  intros Hbody. induction xs as [| x xs IH]; simpl.
  - now apply yields_ret.
  - eapply yields_bind; [apply Hbody | intros _ _; exact IH].
Qed.

Lemma read_only_bind {A B} (m : M StudentEnv A) (k : A -> M StudentEnv B) :
  read_only m -> (forall a, read_only (k a)) -> read_only (bind m k).
Proof.
  intros Hm Hk e. unfold bind. specialize (Hm e).
  destruct (m e) as [e1 [a | x]]; simpl in Hm; subst e1; [apply Hk | reflexivity].
Qed.

Lemma read_only_ret {A} (a : A) : read_only (ret a).
Proof. intros e. reflexivity. Qed.

Lemma read_only_raise {A} (x : exn) : read_only (@raise StudentEnv A x).
Proof. intros e. reflexivity. Qed.

Lemma read_only_get : read_only get.
Proof. intros e. reflexivity. Qed.

Lemma read_only_gets {A} (f : StudentEnv -> A) : read_only (gets f).
Proof. intros e. reflexivity. Qed.

Lemma read_only_reading {A} (f : StudentEnv -> result A) : read_only (reading f).
Proof. intros e. reflexivity. Qed.

Lemma read_only_orRaise {A} (x : exn) (o : option A) : read_only (orRaise x o).
Proof. intros e. now destruct o. Qed.

(** Closes [read_only m] for a method made of reads. *)
Ltac solve_read_only :=
  repeat first
    [ apply read_only_ret | apply read_only_raise | apply read_only_get
    | apply read_only_gets | apply read_only_reading | apply read_only_orRaise
    | apply read_only_bind; [| intros ?]
    | match goal with
      | |- read_only (if ?b then _ else _) => destruct b
      | |- read_only (match ?o with Some _ => _ | None => _ end) => destruct o
      end ].

Lemma read_only_scores_cell (s d : nat) : read_only (scores_cell s d).
Proof. intros e. unfold scores_cell. apply read_only_orRaise. Qed.

Lemma read_only_scores_item (s d f : nat) : read_only (scores_item s d f).
Proof.
  unfold scores_item. apply read_only_bind; [apply read_only_scores_cell |].
  intros c. apply read_only_orRaise.
Qed.

Lemma read_only_train_time (subject : nat) : read_only (train_time subject).
Proof. intros e. unfold train_time. apply read_only_orRaise. Qed.

Lemma read_only_estimated_skill `{Externals} (scores : list (list Q)) (subject : nat) :
  read_only (estimated_skill scores subject).
Proof. unfold estimated_skill. apply read_only_orRaise. Qed.

Lemma read_only_get_proper_difficulty (skill : Q) : read_only (_get_proper_difficulty skill).
Proof. unfold _get_proper_difficulty. solve_read_only. Qed.

Lemma read_only_get_scaled_mean_score (subject : nat) (difficulty : Z) :
  read_only (_get_scaled_mean_score subject difficulty).
Proof. unfold _get_scaled_mean_score. solve_read_only. Qed.

Lemma read_only_get_test_mean (subject difficulty : nat) :
  read_only (_get_test_mean subject difficulty).
Proof.
  unfold _get_test_mean, _get_too_hard_test_mean, _get_proper_test_mean.
  repeat first [ apply read_only_get_proper_difficulty
               | apply read_only_get_scaled_mean_score
               | progress solve_read_only ].
Qed.

Lemma read_only_get_penalty (skill : Q) (learning_difficulty : nat) :
  read_only (_get_not_adapted_learning_penalty skill learning_difficulty).
Proof.
  unfold _get_not_adapted_learning_penalty.
  apply read_only_bind; [apply read_only_get_proper_difficulty | intros p; apply read_only_ret].
Qed.

Lemma read_only_type_gain_value (g : type_gain) : read_only (type_gain_value g).
Proof.
  destruct g as [v | s d]; simpl; [apply read_only_ret |].
  apply read_only_bind; [apply read_only_get | intros e].
  apply read_only_bind; [apply read_only_scores_cell | intros c; apply read_only_ret].
Qed.

Lemma read_only_attribute_types (subject difficulty : nat) (new_gain : Q)
  (elems : list (Q * Q)) :
  forall (idx : nat) (result : list Q) (ratio : ndvalue),
    read_only (attribute_types subject difficulty new_gain idx elems result ratio).
Proof.
  induction elems as [| [last_avg r] rest IH]; intros idx result ratio; simpl.
  - apply read_only_ret.
  - repeat first [ apply IH | progress solve_read_only ].
Qed.

Lemma read_only_all_levels_achieved : read_only all_levels_achieved.
Proof. intros e. unfold all_levels_achieved. now destruct (top_scores (last_scores e)). Qed.

(** Closes [read_only m] for a computation made of reading methods. *)
Ltac solve_reads :=
  repeat first
    [ apply read_only_scores_item | apply read_only_scores_cell
    | apply read_only_train_time | apply read_only_estimated_skill
    | apply read_only_get_penalty | apply read_only_get_test_mean
    | apply read_only_type_gain_value | apply read_only_all_levels_achieved
    | apply read_only_ret | apply read_only_raise | apply read_only_get
    | apply read_only_gets | apply read_only_reading | apply read_only_orRaise
    | apply read_only_bind; [| intros ?]
    | match goal with
      | |- read_only (if ?b then _ else _) => destruct b
      | |- read_only (match ?o with Some _ => _ | None => _ end) => destruct o
      end ].

(** ** Bounds of scores, gains and skills *)

Lemma cell_in_bounds_insert (n : nat) (c : list Q) (f : nat) (x : Q) :
  cell_in_bounds n c ->
  (f = 0%nat -> 0 <= x <= 100) -> (f = 1%nat -> - (100) <= x <= 100) ->
  cell_in_bounds n (<[f := x]> c).
Proof.
  intros (Hlen & Hscore & Hgain) H0 H1.
  split; [now rewrite length_insert |]. split.
  - intros score. destruct (decide (f = 0%nat)) as [-> | Hf].
    + rewrite list_lookup_insert_eq by lia. intros [= <-]. now apply H0.
    + rewrite list_lookup_insert_ne by exact Hf. apply Hscore.
  - intros gain. destruct (decide (f = 1%nat)) as [-> | Hf].
    + rewrite list_lookup_insert_eq by lia. intros [= <-]. now apply H1.
    + rewrite list_lookup_insert_ne by exact Hf. apply Hgain.
Qed.

Lemma cell_in_bounds_head (n : nat) (c c' : list Q) :
  cell_in_bounds n c -> length c' = length c -> take 2 c' = take 2 c ->
  cell_in_bounds n c'.
Proof.
  intros (Hlen & Hscore & Hgain) Hlen' Hhead.
  split; [congruence |]. split.
  - intros score. rewrite (take_lookup_eq 2 0 _ _ Hhead) by lia. apply Hscore.
  - intros gain. rewrite (take_lookup_eq 2 1 _ _ Hhead) by lia. apply Hgain.
Qed.

Lemma cell_in_bounds_tail (n : nat) (v c c' : list Q) :
  (0 < n)%nat -> cell_in_bounds n c -> set_tail_slice n v c = Some c' ->
  cell_in_bounds n c'.
Proof.
  intros Hn Hc. pose proof Hc as (Hlen & _). unfold set_tail_slice.
  rewrite (tail_start_row n Hn) by exact Hlen.
  assert (Hhead : forall w, length w = n ->
                    cell_in_bounds n (take (n + 2) c ++ w)).
  { intros w Hw. apply (cell_in_bounds_head n c); [exact Hc | |].
    - rewrite length_app, length_take. lia.
    - rewrite take_app_le by (rewrite length_take; lia).
      rewrite take_take. f_equal. lia. }
  destruct (length v =? length c - (n + 2))%nat eqn:Hv.
  - apply Nat.eqb_eq in Hv. intros [= <-]. apply Hhead. lia.
  - destruct v as [| x [| y v]]; try discriminate.
    intros [= <-]. apply Hhead. rewrite length_replicate. lia.
Qed.

Lemma cell_in_bounds_zero_counts (n m : nat) (c : list Q) :
  cell_in_bounds n c -> cell_in_bounds n (zero_counts m c).
Proof.
  intros Hc. pose proof Hc as (Hlen & _).
  apply (cell_in_bounds_head n c); [exact Hc | |].
  - unfold zero_counts, counts_slice.
    rewrite !length_app, length_replicate, !length_take, !length_drop. lia.
  - unfold zero_counts. rewrite take_app_le by (rewrite length_take; lia).
    now rewrite take_take.
Qed.

Lemma set_cell_Forall (P : list Q -> Prop) (a a' : list (list (list Q))) s d c :
  Forall (Forall P) a -> set_cell a s d c = Some a' -> P c -> Forall (Forall P) a'.
Proof.
  intros Hall. unfold set_cell. destruct (a !! s) as [r |] eqn:Hr; [| discriminate].
  destruct (r !! d) as [c0 |]; [| discriminate]. intros [= <-] Hc.
  apply Forall_insert; [exact Hall |].
  apply Forall_insert; [exact (Forall_lookup_1 _ _ _ _ Hall Hr) | exact Hc].
Qed.

Section Bounds.
Context (types : nat) (capped : Prop).

Local Abbreviation I := (running types capped).

Lemma running_with_last_scores (e : StudentEnv) (a : list (list (list Q))) :
  I e -> Forall (Forall (cell_in_bounds types)) a -> I (with_last_scores a e).
Proof.
  intros (Htypes & Hpos & Hspace & Hcells & Hskills) Ha.
  split; [exact Htypes |]. split; [exact Hpos |].
  split; [exact Hspace |]. split; [| exact Hskills]. simpl. now rewrite Htypes.
Qed.

Lemma running_cells (e : StudentEnv) :
  I e -> Forall (Forall (cell_in_bounds types)) (last_scores e).
Proof. intros (Htypes & _ & _ & Hcells & _). now rewrite <- Htypes. Qed.

Lemma running_with_train_counter (e : StudentEnv) (t : list (list (list Q))) :
  I e -> I (with_train_counter t e).
Proof. intros H. exact H. Qed.

Lemma running_with_last_action (e : StudentEnv) (la : option action_log) :
  I e -> I (with_last_action la e).
Proof. intros H. exact H. Qed.

Lemma running_with_cumulative_train_time (e : StudentEnv) (v : list Q) :
  I e -> I (with_cumulative_train_time v e).
Proof. intros H. exact H. Qed.

Lemma running_with_step_num (e : StudentEnv) (k : nat) : I e -> I (with_step_num k e).
Proof. intros H. exact H. Qed.

Lemma yields_scores_cell (s d : nat) : yields I (scores_cell s d) (cell_in_bounds types).
Proof.
  intros e He. unfold scores_cell.
  destruct (cell (last_scores e) s d) as [c |] eqn:Hc; simpl; [| exact He].
  split; [exact He |]. exact (cell_Forall _ _ _ _ _ (running_cells e He) Hc).
Qed.

Lemma yields_scores_set_cell (s d : nat) (c : list Q) :
  cell_in_bounds types c -> yields I (scores_set_cell s d c) (fun _ => True).
Proof.
  intros Hc e He. unfold scores_set_cell.
  destruct (set_cell (last_scores e) s d c) as [a |] eqn:Ha; [| exact He].
  split; [| exact Logic.I]. apply running_with_last_scores; [exact He |].
  exact (set_cell_Forall _ _ _ _ _ _ (running_cells e He) Ha Hc).
Qed.

Lemma yields_previous_score (s d : nat) :
  yields I (scores_item s d 0) (fun x => 0 <= x <= 100).
Proof.
  unfold scores_item. eapply yields_bind; [apply yields_scores_cell |].
  intros c (_ & Hscore & _). apply yields_orRaise. exact Hscore.
Qed.

Lemma yields_scores_set_item (s d f : nat) (x : Q) :
  (f = 0%nat -> 0 <= x <= 100) -> (f = 1%nat -> - (100) <= x <= 100) ->
  yields I (scores_set_item s d f x) (fun _ => True).
Proof.
  intros H0 H1. unfold scores_set_item.
  eapply yields_bind; [apply yields_scores_cell |]. intros c Hc.
  eapply yields_bind with (post := cell_in_bounds types).
  - apply yields_orRaise. intros c'. unfold set_item.
    destruct (c !! f); [| discriminate]. intros [= <-].
    now apply cell_in_bounds_insert.
  - intros c' Hc'. now apply yields_scores_set_cell.
Qed.

Lemma yields_scores_set_tail (s d : nat) (v : list Q) :
  yields I (scores_set_tail types s d v) (fun _ => True).
Proof.
  intros e He. pose proof He as (_ & Hpos & _). revert e He.
  unfold scores_set_tail.
  eapply yields_bind; [apply yields_scores_cell |]. intros c Hc.
  eapply yields_bind with (post := cell_in_bounds types).
  - apply yields_orRaise. intros c' Hc'. exact (cell_in_bounds_tail _ _ _ _ Hpos Hc Hc').
  - intros c' Hc'. now apply yields_scores_set_cell.
Qed.

Lemma yields_types : yields I get (fun e => learning_type_number e = types).
Proof. intros e He. split; [exact He |]. now destruct He. Qed.

Lemma yields_blend_subject (g : type_gain) (d s : nat) :
  yields I (blend_subject g d s) (fun _ => True).
Proof.
  unfold blend_subject. eapply yields_bind; [apply yields_types |]. intros e0 ->.
  eapply yields_bind; [apply yields_read_only, read_only_scores_cell |]. intros c _.
  eapply yields_bind; [apply yields_read_only, read_only_type_gain_value |]. intros v _.
  eapply yields_bind; [apply yields_read_only, read_only_reading |]. intros avg _.
  apply yields_scores_set_tail.
Qed.

Lemma yields_propagate_type_gain (g : type_gain) (subject : nat) :
  yields I (propagate_type_gain g subject) (fun _ => True).
Proof.
  unfold propagate_type_gain. eapply yields_bind; [apply yields_get |]. intros e0 _.
  apply yields_for_each. intros d. unfold propagate_difficulty.
  eapply yields_bind; [apply yields_types |]. intros e1 ->.
  eapply yields_bind; [apply yields_read_only, read_only_type_gain_value |]. intros v _.
  eapply yields_bind; [apply yields_scores_set_tail |]. intros _ _.
  apply yields_for_each. intros s. apply yields_blend_subject.
Qed.

Lemma yields_counter_add (subject d : nat) (ratio : ndvalue) :
  yields I (counter_add subject d ratio) (fun _ => True).
Proof.
  intros e He. unfold counter_add.
  destruct (cell (train_counter e) subject d) as [row |]; [| exact He].
  destruct (add_broadcast row ratio) as [row' |]; [| exact He].
  destruct (set_cell (train_counter e) subject d row') as [t |]; [| exact He].
  split; [exact He | exact Logic.I].
Qed.

Lemma yields_get_mean_type_gain (subject difficulty : nat) (improvement : Q) :
  yields I (_get_mean_type_gain subject difficulty improvement) (fun _ => True).
Proof.
  unfold _get_mean_type_gain. eapply yields_bind; [apply yields_get |]. intros e0 _.
  eapply yields_bind; [apply yields_read_only, read_only_scores_cell |]. intros c _.
  destruct (Qlt_bool 0 _); [| now apply yields_ret].
  eapply yields_bind; [apply yields_read_only, read_only_attribute_types |]. intros looped _.
  eapply yields_bind; [apply yields_for_each; intros d; apply yields_counter_add |].
  intros _ _. now apply yields_ret.
Qed.

Lemma yields_record_test_score `{Externals} (subject difficulty : nat) (z : Q) :
  yields I (record_test_score subject difficulty z) (fun _ => True).
Proof.
  unfold record_test_score.
  eapply yields_bind; [apply yields_read_only, read_only_get_test_mean |]. intros mean _.
  eapply yields_bind; [apply yields_previous_score |]. intros previous Hprevious.
  eapply yields_bind; [apply yields_read_only, read_only_gets |]. intros previous_scores _.
  pose proof (clamped_score_bounds (random_normal mean TEST_SCORE_STD z)) as Hsampled.
  set (sampled := py_min (py_max (random_normal mean TEST_SCORE_STD z) 0) 100) in *.
  eapply yields_bind.
  { apply yields_scores_set_item; [discriminate | intros _]. cbv beta in Hprevious. lra. }
  intros _ _. eapply yields_bind.
  { apply yields_scores_set_item; [intros _; exact Hsampled | discriminate]. }
  intros _ _.
  eapply yields_bind; [apply yields_read_only, read_only_gets |]. intros scores_now _.
  eapply yields_bind; [apply yields_read_only, read_only_estimated_skill |]. intros after _.
  eapply yields_bind; [apply yields_read_only, read_only_estimated_skill |]. intros before _.
  now apply yields_ret.
Qed.

Lemma yields_log_update (f : action_log -> action_log) :
  yields I (log_update f) (fun _ => True).
Proof.
  intros e He. unfold log_update. destruct (last_action e); [| exact He].
  split; [exact He | exact Logic.I].
Qed.

Lemma yields_test_reward `{Externals} (subject difficulty : nat) (previous : Q) :
  yields I (test_reward subject difficulty previous) (fun _ => True).
Proof.
  unfold test_reward. eapply yields_bind; [apply yields_get |]. intros e0 _.
  eapply yields_bind; [apply yields_scores_cell |]. intros c Hc.
  eapply yields_bind.
  { apply yields_scores_set_cell. now apply cell_in_bounds_zero_counts. }
  intros _ _.
  eapply yields_bind; [apply yields_read_only, read_only_scores_item |]. intros score _.
  eapply yields_bind; [apply yields_log_update |]. intros _ _.
  eapply yields_bind; [apply yields_read_only, read_only_train_time |]. intros time _.
  apply yields_read_only. solve_reads.
Qed.

Lemma yields_test `{Externals} (subject difficulty : nat) (z : Q) :
  yields I (_test subject difficulty z) (fun _ => True).
Proof.
  unfold _test.
  eapply yields_bind; [apply yields_record_test_score |]. intros recorded _.
  eapply yields_bind; [apply yields_get_mean_type_gain |]. intros g _.
  eapply yields_bind; [apply yields_propagate_type_gain |]. intros _ _.
  apply yields_test_reward.
Qed.
Lemma clamped_skill_bounds (a : Q) : 0 <= a -> 0 <= py_min a 100 <= 100.
Proof.
  intros Ha. unfold py_min. destruct (Qlt_bool 100 a) eqn:Hbig.
  - split; discriminate.
  - apply not_true_iff_false in Hbig. rewrite Qlt_bool_iff in Hbig. lra.
Qed.

Lemma py_max_0_nonneg (x : Q) : 0 <= py_max x 0.
Proof.
  unfold py_max. destruct (Qlt_bool x 0) eqn:Hneg; [discriminate |].
  apply not_true_iff_false in Hneg. rewrite Qlt_bool_iff in Hneg. lra.
Qed.

Lemma yields_train `{Externals} (subject learning_type learning_difficulty : nat) (z : Q) :
  yields I (_train subject learning_type learning_difficulty z) (fun _ => True).
Proof.
  unfold _train. eapply yields_bind; [apply yields_get |]. intros e0 He0.
  eapply yields_bind; [apply yields_read_only, read_only_orRaise |]. intros gains _.
  eapply yields_bind; [apply yields_read_only, read_only_orRaise |]. intros mean_gain _.
  eapply yields_bind with (post := fun skill => skills_levels e0 !! subject = Some skill).
  { apply yields_orRaise. auto. }
  intros skill Hskill.
  eapply yields_bind; [apply yields_read_only, read_only_get_penalty |]. intros penalty _.
  set (adjusted_gain := py_max (random_normal mean_gain STUDENT_SKILL_GAIN_STD z * penalty) 0).
  destruct He0 as (_ & _ & _ & _ & Hnonneg & Hcapped).
  assert (Hnew : 0 <= py_min (skill + adjusted_gain) 100 <= 100).
  { apply clamped_skill_bounds.
    pose proof (Forall_lookup_1 _ _ _ _ Hnonneg Hskill) as Hs.
    pose proof (py_max_0_nonneg (random_normal mean_gain STUDENT_SKILL_GAIN_STD z * penalty)).
    fold adjusted_gain in H0. cbv beta in Hs. lra. }
  eapply yields_bind.
  { apply yields_modify. intros e (Htypes & Hpos & Hspace & Hcells & _ & _).
    split; [exact Htypes |]. split; [exact Hpos |]. split; [exact Hspace |].
    split; [exact Hcells |]. simpl. split.
    - apply Forall_insert; [exact Hnonneg | apply Hnew].
    - intros Hc. apply Forall_insert; [exact (Hcapped Hc) | apply Hnew]. }
  intros _ _.
  eapply yields_bind; [apply yields_log_update |]. intros _ _.
  eapply yields_bind; [apply yields_log_update |]. intros _ _.
  eapply yields_bind; [apply yields_read_only, read_only_train_time |]. intros time _.
  eapply yields_bind; [apply yields_modify; intros e He; exact He |]. intros _ _.
  eapply yields_bind; [apply yields_read_only, read_only_scores_item |]. intros count _.
  eapply yields_bind; [apply yields_scores_set_item; intros Hf; lia |]. intros _ _.
  apply yields_read_only. solve_reads.
Qed.

Lemma yields_step_body `{Externals} (is_test subject test_difficulty learning_types
  learning_difficulty : Z) (z : Q) (la : action_log) :
  yields I
    (modify (with_last_action (Some la)) ;;
     outcome <-
       (if (is_test =? 0)%Z
        then
          reward <- _train (Z.to_nat subject) (Z.to_nat learning_types)
                           (Z.to_nat learning_difficulty) z ;;
          ret (reward, 0%Z)
        else test_branch (Z.to_nat subject) (Z.to_nat test_difficulty) z) ;;
     finish_step outcome)%env
    (fun _ => True).
Proof.
  eapply yields_bind; [apply yields_modify; intros e He; exact He |]. intros _ _.
  eapply yields_bind with (post := fun _ => True).
  - destruct (is_test =? 0)%Z.
    + eapply yields_bind; [apply yields_train |]. intros reward _. now apply yields_ret.
    + unfold test_branch. eapply yields_bind; [apply yields_test |]. intros reward _.
      eapply yields_bind with (post := fun _ => True).
      { intros e He. unfold reset_train_time.
        destruct (cumulative_train_time e !! Z.to_nat subject); [| exact He].
        split; [exact He | exact Logic.I]. }
      intros _ _.
      eapply yields_bind; [apply yields_read_only, read_only_all_levels_achieved |].
      intros achieved _. destruct achieved; now apply yields_ret.
  - intros outcome _. unfold finish_step.
    eapply yields_bind; [apply yields_get |]. intros e0 _.
    eapply yields_bind; [apply yields_log_update |]. intros _ _.
    eapply yields_bind; [apply yields_modify; intros e He; exact He |]. intros _ _.
    eapply yields_bind; [apply yields_get |]. intros e1 _. now apply yields_ret.
Qed.
End Bounds.

Lemma yields_state {A} (I : StudentEnv -> Prop) (m : M StudentEnv A) (post : A -> Prop)
  (e : StudentEnv) :
  yields I m post -> I e -> I (fst (m e)).
Proof.
  intros Hm He. specialize (Hm e He). destruct (m e) as [e1 [a | x]]; simpl.
  - now destruct Hm.
  - exact Hm.
Qed.

Lemma step_in_bounds `{Externals} (capped : Prop) (e : StudentEnv) (action : list Z) (z : Q) :
  in_bounds capped e -> in_bounds capped (fst (step action z e)).
Proof.
  intros He. unfold step. rewrite (bind_ok _ _ e e e eq_refl).
  destruct (contains (action_space e) action) eqn:Hvalid; [| exact He].
  cbv beta iota delta [negb].
  pose proof He as (Hspace & _). rewrite Hspace in Hvalid.
  unfold contains in Hvalid. apply andb_true_iff in Hvalid as [Hvalid Hbelow].
  apply andb_true_iff in Hvalid as [Hlen Hpos]. apply Nat.eqb_eq in Hlen.
  destruct action as [| is_test [| subject [| test_difficulty [| learning_types
    [| learning_difficulty [| extra action]]]]]]; try discriminate Hlen.
  simpl in Hpos, Hbelow.
  rewrite !andb_true_iff, !Z.leb_le in Hpos. rewrite !andb_true_iff, !Z.ltb_lt in Hbelow.
  assert (Hrunning : running (learning_type_number e) capped e).
  { split; [reflexivity |]. split; [lia | exact He]. }
  cbv zeta.
  exact (proj2 (proj2 (yields_state _ _ _ e (yields_step_body _ capped _ _ _ _ _ z _) Hrunning))).
Qed.

Lemma start_skills_bounds (capped : Prop) (n : nat) (skill_z : nat -> Q) :
  (capped -> forall i, skill_z i <= 8) ->
  Forall (fun x => 0 <= x) (start_skills n skill_z) /\
  (capped -> Forall (fun x => x <= 100) (start_skills n skill_z)).
Proof.
  intros Hz. unfold start_skills. split.
  - apply Forall_map, Forall_forall. intros i _. apply py_max_0_nonneg.
  - intros Hc. apply Forall_map, Forall_forall. intros i _. simpl.
    specialize (Hz Hc i). unfold py_max, random_normal,
      MEAN_START_SKILL_LEVEL, STD_START_SKILL_LEVEL.
    destruct (Qlt_bool _ 0); lra.
Qed.

Lemma zero_cell_in_bounds (n : nat) (c : list Q) :
  length c = (2 * n + 2)%nat -> cell_in_bounds n (map (fun _ => 0) c).
Proof.
  intros Hc. split; [now rewrite length_map |].
  split; intros x; rewrite list_lookup_fmap; destruct (c !! _); intros [= <-]; lra.
Qed.

Lemma init_in_bounds (capped : Prop) (subjects levels types : nat)
  (skill_z : nat -> Q) (dr : profile_draws) :
  (capped -> forall i, skill_z i <= 8) ->
  in_bounds capped (StudentEnv_init subjects levels types skill_z dr).
Proof.
  intros Hz. split; [reflexivity |]. split; [| exact (start_skills_bounds _ _ _ Hz)].
  unfold StudentEnv_init, zeros3. cbn [last_scores learning_type_number].
  apply Forall_replicate, Forall_replicate.
  split; [apply length_replicate |].
  split; intros x Hx; apply lookup_replicate in Hx as [-> _]; lra.
Qed.

Lemma reset_in_bounds (capped : Prop) (e : StudentEnv) (skill_z : nat -> Q)
  (dr : profile_draws) :
  (capped -> forall i, skill_z i <= 8) ->
  in_bounds capped e -> in_bounds capped (fst (reset skill_z dr e)).
Proof.
  intros Hz (Hspace & Hcells & _). split; [exact Hspace |].
  split; [| exact (start_skills_bounds _ _ _ Hz)].
  simpl. unfold zeros_like3. apply Forall_map.
  eapply Forall_impl; [exact Hcells |]. intros r Hr. simpl. apply Forall_map.
  eapply Forall_impl; [exact Hr |]. intros c (Hc & _). simpl.
  now apply zero_cell_in_bounds.
Qed.

(** The part of C4 that the code keeps.  After any sequence of [reset]
    and [step] calls, whatever they return or raise, every score-matrix
    field 0 lies in [0, 100], every field 1 lies in [-100, 100] and no skill
    is negative; and no skill exceeds 100 when every start deviate is at most
    8, that is when no start skill [20 + 10 z] exceeds 100. *)
Theorem reachable_in_bounds `{Externals} (start_ok : Q -> Prop) (e : StudentEnv) :
  reachable start_ok e ->
  (forall s d c, cell (last_scores e) s d = Some c ->
     exists score gain,
       c !! 0%nat = Some score /\ c !! 1%nat = Some gain /\
       0 <= score <= 100 /\ - (100) <= gain <= 100) /\
  (forall s skill, skills_levels e !! s = Some skill -> 0 <= skill) /\
  ((forall z, start_ok z -> z <= 8) ->
   forall s skill, skills_levels e !! s = Some skill -> skill <= 100).
Proof.
  intros Hreach.
  assert (Hbounds : in_bounds (forall z, start_ok z -> z <= 8) e).
  { induction Hreach as [subjects levels types skill_z dr Hok
                        | e skill_z dr Hok Hreach IH | e action z Hreach IH].
    - apply init_in_bounds. auto.
    - apply reset_in_bounds; auto.
    - now apply step_in_bounds. }
  destruct Hbounds as (_ & Hcells & Hnonneg & Hcapped). split; [| split].
  - intros s d c Hc. destruct (cell_Forall _ _ _ _ _ Hcells Hc) as (Hlen & Hscore & Hgain).
    destruct (lookup_lt_is_Some_2 c 0) as [score Hs]; [lia |].
    destruct (lookup_lt_is_Some_2 c 1) as [gain Hg]; [lia |].
    exists score, gain. auto.
  - intros s skill Hs. exact (Forall_lookup_1 _ _ _ _ Hnonneg Hs).
  - intros Hz s skill Hs. exact (Forall_lookup_1 _ _ _ _ (Hcapped Hz) Hs).
Qed.

Lemma reachable_in_bounds_witness :
  @reachable sample_externals (fun z => z <= 1) trained_env /\
  (forall s skill, skills_levels trained_env !! s = Some skill -> 0 <= skill <= 100).
Proof.
  assert (Hreach : @reachable sample_externals (fun z => z <= 1) trained_env).
  { unfold trained_env, small_env. apply reachable_step, reachable_init.
    intros i. simpl. lra. }
  split; [exact Hreach |].
  destruct (@reachable_in_bounds sample_externals _ _ Hreach) as (_ & Hnonneg & Hcapped).
  intros s skill Hs. split; [exact (Hnonneg s skill Hs) |].
  apply (Hcapped ltac:(intros z Hz; simpl in Hz; lra) s skill Hs).
Defined.

(** ** Further properties of the specification's list *)

(** [reset] returns the score matrix it has just zeroed, sets [step_num]
    to 0 and increments [episode]. *)
Theorem reset_returns_zero_scores (e : StudentEnv) (skill_z : nat -> Q) (dr : profile_draws) :
  returned (reset skill_z dr e) = Some (last_scores (fst (reset skill_z dr e))) /\
  Forall (Forall (Forall (fun x => x = 0))) (last_scores (fst (reset skill_z dr e))) /\
  step_num (fst (reset skill_z dr e)) = 0%nat /\
  episode (fst (reset skill_z dr e)) = (episode e + 1)%nat.
Proof.
  split; [reflexivity |]. split; [| split; reflexivity].
  simpl. unfold zeros_like3.
  apply Forall_map, Forall_forall. intros r _. simpl.
  apply Forall_map, Forall_forall. intros c _. simpl.
  apply Forall_map, Forall_forall. intros x _. reflexivity.
Qed.

(** Gain attribution at a cell without trainings since its last test
    returns the stored gain estimates of the cell and changes nothing. *)
Theorem attribution_without_trainings (e : StudentEnv) (subject difficulty : nat)
  (improvement : Q) (c : list Q) :
  cell (last_scores e) subject difficulty = Some c ->
  np_sum (counts_slice (learning_type_number e) c) <= 0 ->
  _get_mean_type_gain subject difficulty improvement e
  = (e, Ok (StoredRow subject difficulty)) /\
  type_gain_value (StoredRow subject difficulty) e
  = (e, Ok (tail_slice (learning_type_number e) c)).
Proof.
  intros Hc Hsum.
  assert (Hno : Qlt_bool 0 (np_sum (counts_slice (learning_type_number e) c)) = false).
  { apply not_true_iff_false. rewrite Qlt_bool_iff. lra. }
  split.
  - unfold _get_mean_type_gain. step_with (eq_refl (e, Ok e)).
    step_with (scores_cell_run e subject difficulty c Hc). now rewrite Hno.
  - simpl. step_with (eq_refl (e, Ok e)).
    step_with (scores_cell_run e subject difficulty c Hc). reflexivity.
Qed.

Lemma attribution_without_trainings_witness :
  cell (last_scores small_env) 1 2 = Some (replicate 8 0) /\
  _get_mean_type_gain 1 2 5 small_env = (small_env, Ok (StoredRow 1 2)) /\
  type_gain_value (StoredRow 1 2) small_env = (small_env, Ok [0; 0; 0]).
Proof.
  split; [reflexivity |].
  exact (attribution_without_trainings small_env 1 2 5 (replicate 8 0) eq_refl
           ltac:(vm_compute; discriminate)).
Defined.

Lemma linspace_le (n i j : nat) :
  (0 < n)%nat ->
  Qle_bool (Qnat j * (100 / Qnat n)) (Qnat i * (100 / Qnat n)) = (j <=? i)%nat.
Proof.
  intros Hn. pose proof (Qnat_pos n Hn) as Hpos.
  assert (Hstep : 0 < 100 / Qnat n) by (apply Qlt_shift_div_l; lra).
  destruct (Nat.leb_spec j i) as [Hle | Hlt].
  - apply Qle_bool_iff. apply Qmult_le_compat_r; [| lra].
    unfold Qnat. rewrite <- Zle_Qle. lia.
  - apply not_true_iff_false. rewrite Qle_bool_iff. intros Habs.
    apply Qmult_lt_0_le_reg_r in Habs; [| exact Hstep].
    unfold Qnat in Habs. rewrite <- Zle_Qle in Habs. lia.
Qed.

Lemma count_up_to (i len start : nat) :
  sum_list_with (fun j => if (j <=? i)%nat then 1%nat else 0%nat) (seq start len)
  = (Nat.min (start + len) (i + 1) - start)%nat.
Proof.
  revert start. induction len as [| len IH]; intros start; simpl; [lia |].
  rewrite IH. destruct (Nat.leb_spec start i); lia.
Qed.

(** A skill equal to a threshold maps to the tier of that threshold, not
    to the one below: for the thresholds [0, 100/3, 200/3] the skill 100/3
    has proper difficulty 1. *)
Theorem threshold_skill_maps_to_its_tier (levels tier : nat) (skill : Q) :
  linspace levels !! tier = Some skill ->
  proper_difficulty (linspace levels) skill = Z.of_nat tier.
Proof.
  intros Hskill. pose proof (lookup_lt_Some _ _ _ Hskill) as Htier.
  unfold linspace, range in *. rewrite length_map, length_seq in Htier.
  rewrite list_lookup_fmap in Hskill.
  rewrite lookup_seq_lt in Hskill by exact Htier. simpl in Hskill. injection Hskill as <-.
  unfold proper_difficulty.
  assert (Hcount : sum_list_with
                     (fun t => if Qle_bool t (Qnat tier * (100 / Qnat levels))
                               then 1%nat else 0%nat)
                     (map (fun i => Qnat i * (100 / Qnat levels)) (seq 0 levels))
                   = sum_list_with (fun j => if (j <=? tier)%nat then 1%nat else 0%nat)
                                   (seq 0 levels)).
  { induction (seq 0 levels) as [| j l IH]; simpl; [reflexivity |].
    rewrite IH, linspace_le by lia. reflexivity. }
  rewrite Hcount, count_up_to. lia.
Qed.

Lemma threshold_skill_maps_to_its_tier_witness :
  linspace 3 !! 1%nat = Some (Qnat 1 * (100 / Qnat 3)) /\
  Qnat 1 * (100 / Qnat 3) == 100 # 3 /\
  proper_difficulty (linspace 3) (Qnat 1 * (100 / Qnat 3)) = 1%Z.
Proof.
  split; [reflexivity |]. split; [reflexivity |].
  exact (threshold_skill_maps_to_its_tier 3 1 _ eq_refl).
Defined.

(** * Further properties of the code *)

(** ** Difficulty tiers on evenly spaced thresholds *)









(** ** The penalty of a training that is not adapted *)



(** ** The range of the test mean *)






(** ** What the constructor establishes and every call keeps *)

Lemma counts_nonneg_lookup (n : nat) (c : list Q) :
  Forall (Qle 0) (counts_slice n c) <->
  forall i x, (i < n)%nat -> c !! (2 + i)%nat = Some x -> 0 <= x.
Proof.
  unfold counts_slice. rewrite Forall_lookup. split.
  - intros Hall i x Hi Hx. apply (Hall i).
    rewrite lookup_take_lt by exact Hi. now rewrite lookup_drop.
  - intros Hall i x Hx. apply lookup_take_Some in Hx as [Hx Hi].
    rewrite lookup_drop in Hx. exact (Hall i x Hi Hx).
Qed.

Lemma fields_row_insert (n : nat) (c : list Q) (f : nat) (x : Q) :
  fields_row n c -> ((2 <= f < 2 + n)%nat -> 0 <= x) -> fields_row n (<[f := x]> c).
Proof.
  intros [Hlen Hcounts] Hx. split; [now rewrite length_insert |].
  rewrite counts_nonneg_lookup in *. intros i y Hi.
  destruct (decide (f = (2 + i)%nat)) as [-> | Hf].
  - rewrite list_lookup_insert_eq by lia. intros [= <-]. apply Hx. lia.
  - rewrite list_lookup_insert_ne by exact Hf. now apply Hcounts.
Qed.

Lemma fields_row_tail (n : nat) (v c c' : list Q) :
  (0 < n)%nat -> fields_row n c -> set_tail_slice n v c = Some c' -> fields_row n c'.
Proof.
  intros Hn [Hlen Hcounts]. unfold set_tail_slice.
  rewrite (tail_start_row n Hn) by exact Hlen.
  assert (Hhead : forall w, length w = n -> fields_row n (take (n + 2) c ++ w)).
  { intros w Hw. split.
    - rewrite length_app, length_take. lia.
    - rewrite (take_counts_eq n _ c); [exact Hcounts |].
      rewrite take_app_le by (rewrite length_take; lia). now rewrite take_take, Nat.min_id. }
  destruct (length v =? length c - (n + 2))%nat eqn:Hv.
  - apply Nat.eqb_eq in Hv. intros [= <-]. apply Hhead. lia.
  - destruct v as [| x [| y v]]; try discriminate.
    intros [= <-]. apply Hhead. rewrite length_replicate. lia.
Qed.

Lemma fields_row_zero_counts (n : nat) (c : list Q) :
  fields_row n c -> fields_row n (zero_counts n c).
Proof.
  intros [Hlen _]. split; [now apply zero_counts_length |].
  rewrite zero_counts_counts by exact Hlen. apply Forall_replicate. apply Qle_refl.
Qed.

Lemma add_broadcast_nonneg (row row' : list Q) (r : ndvalue) :
  Forall (Qle 0) row -> nd_nonneg r -> add_broadcast row r = Some row' ->
  length row' = length row /\ Forall (Qle 0) row'.
Proof.
  intros Hrow Hr.
  assert (Hscalar : forall x, 0 <= x ->
            length (map (fun y => y + x) row) = length row /\
            Forall (Qle 0) (map (fun y => y + x) row)).
  { intros x Hx. split; [apply length_map |]. apply Forall_fmap.
    eapply Forall_impl; [exact Hrow |]. intros y Hy. simpl. lra. }
  assert (Hvector : forall v, Forall (Qle 0) v -> length v = length row ->
            length (zip_with Qplus row v) = length row /\
            Forall (Qle 0) (zip_with Qplus row v)).
  { intros v Hv Hlen. split; [rewrite length_zip_with; lia |].
    apply Forall_lookup. intros i y Hy.
    apply lookup_zip_with_Some in Hy as (a & b & -> & Ha & Hb).
    pose proof (Forall_lookup_1 _ _ _ _ Hrow Ha). pose proof (Forall_lookup_1 _ _ _ _ Hv Hb).
    simpl in *. lra. }
  destruct r as [x | v]; unfold add_broadcast, nd_nonneg in *.
  - intros [= <-]. now apply Hscalar.
  - destruct v as [| x [| y v]].
    + destruct (_ =? _)%nat eqn:Hlen; [| discriminate].
      apply Nat.eqb_eq in Hlen. intros [= <-]. now apply Hvector.
    + intros [= <-]. apply Hscalar. now inversion Hr.
    + destruct (_ =? _)%nat eqn:Hlen; [| discriminate].
      apply Nat.eqb_eq in Hlen. intros [= <-]. now apply Hvector.
Qed.

Lemma zip_snd_nonneg (t r : list Q) :
  Forall (Qle 0) r -> Forall (fun p : Q * Q => 0 <= snd p) (zip t r).
Proof.
  intros Hr. apply Forall_lookup. intros i [a b] Hab.
  apply lookup_zip_with_Some in Hab as (a' & b' & [= -> ->] & _ & Hb).
  exact (Forall_lookup_1 _ _ _ _ Hr Hb).
Qed.

Lemma shares_nonneg (v : list Q) (total : Q) :
  Forall (Qle 0) v -> 0 < total -> Forall (Qle 0) (map (fun x => x / total) v).
Proof.
  intros Hv Htotal. apply Forall_fmap. eapply Forall_impl; [exact Hv |].
  intros x Hx. simpl. apply Qle_shift_div_l; [exact Htotal | lra].
Qed.

Section Shapes.
Context (subjects levels types : nat).

Local Abbreviation J := (stepping subjects levels types).

Lemma stepping_with_last_scores (e : StudentEnv) (a : list (list (list Q))) :
  J e -> shape3 a subjects levels (2 * types + 2) ->
  Forall (Forall (fun c => Forall (Qle 0) (counts_slice types c))) a ->
  J (with_last_scores a e).
Proof.
  intros (Hs & Hd & Ht & Hpos & [Hwf [Hcounter _] Hthresholds Hprofile]) Hshape Hcounts.
  repeat (split; [assumption |]). constructor; try assumption.
  - apply well_formed_with_last_scores; [exact Hwf |]. now rewrite Hs, Hd, Ht.
  - split; [exact Hcounter |]. simpl. now rewrite Ht.
Qed.

Lemma stepping_set_cell (e : StudentEnv) (s d : nat) (c : list Q)
  (a : list (list (list Q))) :
  J e -> set_cell (last_scores e) s d c = Some a -> fields_row types c ->
  J (with_last_scores a e).
Proof.
  intros He Ha [Hlen Hcounts].
  pose proof He as (Hs & Hd & Ht & Hpos & [Hwf [_ Hnonneg] _ _]).
  apply stepping_with_last_scores; [exact He | |].
  - eapply set_cell_shape; [| exact Ha | exact Hlen].
    rewrite <- Hs, <- Hd, <- Ht. exact (wf_scores e Hwf).
  - rewrite Ht in Hnonneg.
    exact (set_cell_Forall _ _ _ _ _ _ Hnonneg Ha Hcounts).
Qed.

Lemma stepping_with_train_counter (e : StudentEnv) (t : list (list (list Q))) :
  J e -> shape3 t subjects levels types -> Forall (Forall (Forall (Qle 0))) t ->
  J (with_train_counter t e).
Proof.
  intros (Hs & Hd & Ht & Hpos & [Hwf [_ Hcounts] Hthresholds Hprofile]) Hshape Hnonneg.
  repeat (split; [assumption |]). constructor; try assumption.
  - apply well_formed_with_train_counter; [exact Hwf |]. now rewrite Hs, Hd, Ht.
  - split; [exact Hnonneg | exact Hcounts].
Qed.

Lemma stepping_with_last_action (e : StudentEnv) (la : option action_log) :
  J e -> J (with_last_action la e).
Proof.
  intros (Hs & Hd & Ht & Hpos & [Hwf Hnonneg Hthresholds Hprofile]).
  repeat (split; [assumption |]). constructor; try assumption.
  now apply well_formed_with_last_action.
Qed.

Lemma stepping_with_step_num (e : StudentEnv) (k : nat) : J e -> J (with_step_num k e).
Proof.
  intros (Hs & Hd & Ht & Hpos & [[] Hnonneg Hthresholds Hprofile]).
  repeat (split; [assumption |]). constructor; try assumption. now constructor.
Qed.

Lemma stepping_with_skills_levels (e : StudentEnv) (v : list Q) :
  J e -> length v = subjects -> J (with_skills_levels v e).
Proof.
  intros (Hs & Hd & Ht & Hpos & [[] Hnonneg Hthresholds Hprofile]) Hv.
  repeat (split; [assumption |]). constructor; try assumption.
  constructor; try assumption. simpl. congruence.
Qed.

Lemma stepping_with_cumulative_train_time (e : StudentEnv) (v : list Q) :
  J e -> length v = subjects -> J (with_cumulative_train_time v e).
Proof.
  intros (Hs & Hd & Ht & Hpos & [[] Hnonneg Hthresholds Hprofile]) Hv.
  repeat (split; [assumption |]). constructor; try assumption.
  constructor; try assumption. simpl. congruence.
Qed.

Lemma stepping_rows (e : StudentEnv) :
  J e -> Forall (Forall (fields_row types)) (last_scores e).
Proof.
  intros (Hs & Hd & Ht & Hpos & [Hwf [_ Hcounts] _ _]).
  apply Forall_cells. intros s d c Hc. split.
  - rewrite <- Ht. exact (proj2 (proj2 (cell_shape _ _ _ _ _ _ _ (wf_scores e Hwf) Hc))).
  - rewrite <- Ht. exact (cell_Forall _ _ _ _ _ Hcounts Hc).
Qed.

Lemma shaped_scores_cell (s d : nat) : yields J (scores_cell s d) (fields_row types).
Proof.
  intros e He. unfold scores_cell.
  destruct (cell (last_scores e) s d) as [c |] eqn:Hc; simpl; [| exact He].
  split; [exact He |]. exact (cell_Forall _ _ _ _ _ (stepping_rows e He) Hc).
Qed.

Lemma shaped_scores_set_cell (s d : nat) (c : list Q) :
  fields_row types c -> yields J (scores_set_cell s d c) (fun _ => True).
Proof.
  intros Hc e He. unfold scores_set_cell.
  destruct (set_cell (last_scores e) s d c) as [a |] eqn:Ha; [| exact He].
  split; [| exact I]. exact (stepping_set_cell e s d c a He Ha Hc).
Qed.

Lemma shaped_scores_item (s d f : nat) :
  yields J (scores_item s d f) (fun x => (2 <= f < 2 + types)%nat -> 0 <= x).
Proof.
  unfold scores_item. eapply yields_bind; [apply shaped_scores_cell |].
  intros c [_ Hcounts]. apply yields_orRaise. intros x Hx Hf.
  rewrite counts_nonneg_lookup in Hcounts. apply (Hcounts (f - 2)%nat); [lia |].
  now replace (2 + (f - 2))%nat with f by lia.
Qed.

Lemma shaped_scores_set_item (s d f : nat) (x : Q) :
  ((2 <= f < 2 + types)%nat -> 0 <= x) ->
  yields J (scores_set_item s d f x) (fun _ => True).
Proof.
  intros Hx. unfold scores_set_item.
  eapply yields_bind; [apply shaped_scores_cell |]. intros c Hc.
  eapply yields_bind with (post := fields_row types).
  - apply yields_orRaise. intros c'. unfold set_item.
    destruct (c !! f); [| discriminate]. intros [= <-]. now apply fields_row_insert.
  - intros c' Hc'. now apply shaped_scores_set_cell.
Qed.

Lemma shaped_scores_set_tail (s d : nat) (v : list Q) :
  yields J (scores_set_tail types s d v) (fun _ => True).
Proof.
  intros e He. pose proof He as (_ & _ & _ & Hpos & _). revert e He.
  unfold scores_set_tail.
  eapply yields_bind; [apply shaped_scores_cell |]. intros c Hc.
  eapply yields_bind with (post := fields_row types).
  - apply yields_orRaise. intros c' Hc'. exact (fields_row_tail _ _ _ _ Hpos Hc Hc').
  - intros c' Hc'. now apply shaped_scores_set_cell.
Qed.

Lemma shaped_get : yields J get J.
Proof. intros e He. now split. Qed.

Lemma shaped_blend_subject (g : type_gain) (d s : nat) :
  yields J (blend_subject g d s) (fun _ => True).
Proof.
  unfold blend_subject. eapply yields_bind; [apply shaped_get |].
  intros e0 (_ & _ & -> & _).
  eapply yields_bind; [apply yields_read_only, read_only_scores_cell |]. intros c _.
  eapply yields_bind; [apply yields_read_only, read_only_type_gain_value |]. intros v _.
  eapply yields_bind; [apply yields_read_only, read_only_reading |]. intros avg _.
  apply shaped_scores_set_tail.
Qed.

Lemma shaped_propagate_type_gain (g : type_gain) (subject : nat) :
  yields J (propagate_type_gain g subject) (fun _ => True).
Proof.
  unfold propagate_type_gain. eapply yields_bind; [apply yields_get |]. intros e0 _.
  apply yields_for_each. intros d. unfold propagate_difficulty.
  eapply yields_bind; [apply shaped_get |]. intros e1 (_ & _ & -> & _).
  eapply yields_bind; [apply yields_read_only, read_only_type_gain_value |]. intros v _.
  eapply yields_bind; [apply shaped_scores_set_tail |]. intros _ _.
  apply yields_for_each. intros s. apply shaped_blend_subject.
Qed.

Lemma shaped_counter_add (subject d : nat) (ratio : ndvalue) :
  nd_nonneg ratio -> yields J (counter_add subject d ratio) (fun _ => True).
Proof.
  intros Hratio e He. unfold counter_add.
  destruct (cell (train_counter e) subject d) as [row |] eqn:Hrow; [| exact He].
  destruct (add_broadcast row ratio) as [row' |] eqn:Hrow'; [| exact He].
  destruct (set_cell (train_counter e) subject d row') as [t |] eqn:Ht; [| exact He].
  split; [| exact I].
  pose proof He as (Hs & Hd & Hl & _ & [Hwf [Hnonneg _] _ _]).
  pose proof (cell_shape _ _ _ _ _ _ _ (wf_counter e Hwf) Hrow) as (_ & _ & Hlen).
  destruct (add_broadcast_nonneg row row' ratio) as [Hlen' Hrow'_nonneg];
    [exact (cell_Forall _ _ _ _ _ Hnonneg Hrow) | exact Hratio | exact Hrow' |].
  apply stepping_with_train_counter; [exact He | |].
  - rewrite <- Hs, <- Hd, <- Hl.
    eapply set_cell_shape; [exact (wf_counter e Hwf) | exact Ht | congruence].
  - exact (set_cell_Forall _ _ _ _ _ _ Hnonneg Ht Hrow'_nonneg).
Qed.

Lemma shaped_attribute_types (subject difficulty : nat) (new_gain : Q)
  (elems : list (Q * Q)) :
  Forall (fun p => 0 <= snd p) elems ->
  forall (idx : nat) (result : list Q) (ratio : ndvalue),
    nd_nonneg ratio ->
    yields J (attribute_types subject difficulty new_gain idx elems result ratio)
           (fun looped => nd_nonneg (snd looped)).
Proof.
  induction 1 as [| [last_avg r] rest Hr _ IH]; intros idx result ratio Hratio; simpl.
  - now apply yields_ret.
  - eapply yields_bind; [apply yields_get |]. intros e0 _.
    eapply yields_bind; [apply yields_read_only, read_only_orRaise |]. intros row _.
    eapply yields_bind; [apply yields_read_only, read_only_orRaise |]. intros counter _.
    eapply yields_bind with (post := fun _ => True).
    { apply yields_read_only. destruct (Qeq_bool counter 0);
        [apply read_only_ret | apply read_only_reading]. }
    intros x _.
    eapply yields_bind; [apply yields_read_only, read_only_orRaise |]. intros result' _.
    apply IH. exact Hr.
Qed.

Lemma shaped_get_mean_type_gain (subject difficulty : nat) (improvement : Q) :
  yields J (_get_mean_type_gain subject difficulty improvement) (fun _ => True).
Proof.
  unfold _get_mean_type_gain. eapply yields_bind; [apply shaped_get |].
  intros e0 (_ & _ & -> & _).
  eapply yields_bind; [apply shaped_scores_cell |]. intros c [_ Hcounts].
  destruct (Qlt_bool 0 _) eqn:Htotal; [| now apply yields_ret].
  apply Qlt_bool_iff in Htotal.
  pose proof (shares_nonneg _ _ Hcounts Htotal) as Hshares.
  eapply yields_bind.
  { apply shaped_attribute_types; [now apply zip_snd_nonneg | exact Hshares]. }
  intros looped Hlooped.
  eapply yields_bind; [apply yields_for_each; intros d; now apply shaped_counter_add |].
  intros _ _. now apply yields_ret.
Qed.

Lemma shaped_record_test_score `{Externals} (subject difficulty : nat) (z : Q) :
  yields J (record_test_score subject difficulty z) (fun _ => True).
Proof.
  unfold record_test_score.
  eapply yields_bind; [apply yields_read_only, read_only_get_test_mean |]. intros mean _.
  eapply yields_bind; [apply yields_read_only, read_only_scores_item |]. intros previous _.
  eapply yields_bind; [apply yields_read_only, read_only_gets |]. intros previous_scores _.
  eapply yields_bind; [apply shaped_scores_set_item; lia |]. intros _ _.
  eapply yields_bind; [apply shaped_scores_set_item; lia |]. intros _ _.
  eapply yields_bind; [apply yields_read_only, read_only_gets |]. intros scores_now _.
  eapply yields_bind; [apply yields_read_only, read_only_estimated_skill |]. intros after _.
  eapply yields_bind; [apply yields_read_only, read_only_estimated_skill |]. intros before _.
  now apply yields_ret.
Qed.

Lemma shaped_log_update (f : action_log -> action_log) :
  yields J (log_update f) (fun _ => True).
Proof.
  intros e He. unfold log_update. destruct (last_action e); [| exact He].
  split; [now apply stepping_with_last_action | exact I].
Qed.

Lemma shaped_test_reward `{Externals} (subject difficulty : nat) (previous : Q) :
  yields J (test_reward subject difficulty previous) (fun _ => True).
Proof.
  unfold test_reward. eapply yields_bind; [apply shaped_get |].
  intros e0 (_ & _ & -> & _).
  eapply yields_bind; [apply shaped_scores_cell |]. intros c Hc.
  eapply yields_bind; [apply shaped_scores_set_cell; now apply fields_row_zero_counts |].
  intros _ _.
  eapply yields_bind; [apply yields_read_only, read_only_scores_item |]. intros score _.
  eapply yields_bind; [apply shaped_log_update |]. intros _ _.
  eapply yields_bind; [apply yields_read_only, read_only_train_time |]. intros time _.
  apply yields_read_only. solve_reads.
Qed.

Lemma shaped_test `{Externals} (subject difficulty : nat) (z : Q) :
  yields J (_test subject difficulty z) (fun _ => True).
Proof.
  unfold _test.
  eapply yields_bind; [apply shaped_record_test_score |]. intros recorded _.
  eapply yields_bind; [apply shaped_get_mean_type_gain |]. intros g _.
  eapply yields_bind; [apply shaped_propagate_type_gain |]. intros _ _.
  apply shaped_test_reward.
Qed.

Lemma shaped_train `{Externals} (subject learning_type learning_difficulty : nat) (z : Q) :
  yields J (_train subject learning_type learning_difficulty z) (fun _ => True).
Proof.
  unfold _train. eapply yields_bind; [apply shaped_get |]. intros e0 He0.
  pose proof He0 as (Hs & _ & _ & _ & [Hwf _ _ _]).
  eapply yields_bind; [apply yields_read_only, read_only_orRaise |]. intros gains _.
  eapply yields_bind; [apply yields_read_only, read_only_orRaise |]. intros mean_gain _.
  eapply yields_bind; [apply yields_read_only, read_only_orRaise |]. intros skill _.
  eapply yields_bind; [apply yields_read_only, read_only_get_penalty |]. intros penalty _.
  eapply yields_bind.
  { apply yields_modify. intros e He. apply stepping_with_skills_levels; [exact He |].
    rewrite length_insert, (wf_skills e0 Hwf). exact Hs. }
  intros _ _.
  eapply yields_bind; [apply shaped_log_update |]. intros _ _.
  eapply yields_bind; [apply shaped_log_update |]. intros _ _.
  eapply yields_bind; [apply yields_read_only, read_only_train_time |]. intros time _.
  eapply yields_bind.
  { apply yields_modify. intros e He. apply stepping_with_cumulative_train_time; [exact He |].
    rewrite length_insert, (wf_train_time e0 Hwf). exact Hs. }
  intros _ _.
  eapply yields_bind; [apply shaped_scores_item |]. intros count Hcount.
  eapply yields_bind.
  { apply shaped_scores_set_item. intros Hf. specialize (Hcount Hf). simpl in Hcount. lra. }
  intros _ _. apply yields_read_only. solve_reads.
Qed.

Lemma shaped_step_body `{Externals} (is_test subject test_difficulty learning_types
  learning_difficulty : Z) (z : Q) (la : action_log) :
  yields J
    (modify (with_last_action (Some la)) ;;
     outcome <-
       (if (is_test =? 0)%Z
        then
          reward <- _train (Z.to_nat subject) (Z.to_nat learning_types)
                           (Z.to_nat learning_difficulty) z ;;
          ret (reward, 0%Z)
        else test_branch (Z.to_nat subject) (Z.to_nat test_difficulty) z) ;;
     finish_step outcome)%env
    (fun _ => True).
Proof.
  eapply yields_bind.
  { apply yields_modify. intros e He. now apply stepping_with_last_action. }
  intros _ _.
  eapply yields_bind with (post := fun _ => True).
  - destruct (is_test =? 0)%Z.
    + eapply yields_bind; [apply shaped_train |]. intros reward _. now apply yields_ret.
    + unfold test_branch. eapply yields_bind; [apply shaped_test |]. intros reward _.
      eapply yields_bind with (post := fun _ => True).
      { intros e He. unfold reset_train_time.
        destruct (cumulative_train_time e !! Z.to_nat subject); [| exact He].
        split; [| exact I]. apply stepping_with_cumulative_train_time; [exact He |].
        pose proof He as (Hs & _ & _ & _ & [Hwf _ _ _]).
        rewrite length_insert, (wf_train_time e Hwf). exact Hs. }
      intros _ _.
      eapply yields_bind; [apply yields_read_only, read_only_all_levels_achieved |].
      intros achieved _. destruct achieved; now apply yields_ret.
  - intros outcome _. unfold finish_step.
    eapply yields_bind; [apply yields_get |]. intros e0 _.
    eapply yields_bind; [apply shaped_log_update |]. intros _ _.
    eapply yields_bind.
    { apply yields_modify. intros e He. now apply stepping_with_step_num. }
    intros _ _.
    eapply yields_bind; [apply yields_get |]. intros e1 _. now apply yields_ret.
Qed.
End Shapes.

Lemma step_constructed `{Externals} (e : StudentEnv) (action : list Z) (z : Q) :
  constructed e -> constructed (fst (step action z e)).
Proof.
  intros He. unfold step. rewrite (bind_ok _ _ e e e eq_refl).
  destruct (contains (action_space e) action) eqn:Hvalid; [| exact He].
  cbv beta iota delta [negb].
  rewrite (wf_action_space e (built_shapes e He)) in Hvalid.
  unfold contains in Hvalid. apply andb_true_iff in Hvalid as [Hvalid Hbelow].
  apply andb_true_iff in Hvalid as [Hlen Hpos]. apply Nat.eqb_eq in Hlen.
  destruct action as [| is_test [| subject [| test_difficulty [| learning_types
    [| learning_difficulty [| extra action]]]]]]; try discriminate Hlen.
  simpl in Hpos, Hbelow.
  rewrite !andb_true_iff, !Z.leb_le in Hpos. rewrite !andb_true_iff, !Z.ltb_lt in Hbelow.
  assert (Hstepping : stepping (num_subjects e) (difficulties_levels e)
                               (learning_type_number e) e).
  { repeat (split; [reflexivity |]). split; [lia | exact He]. }
  cbv zeta.
  exact (proj2 (proj2 (proj2 (proj2
           (yields_state _ _ _ e (shaped_step_body _ _ _ _ _ _ _ _ z _) Hstepping))))).
Qed.

Lemma py_max_ge_r (a b : Q) : b <= py_max a b.
Proof.
  unfold py_max. destruct (Qlt_bool a b) eqn:Hab; [apply Qle_refl |].
  apply not_true_iff_false in Hab. rewrite Qlt_bool_iff in Hab. lra.
Qed.

Lemma profile_generated (subjects_number learning_types_number : nat) (dr : profile_draws) :
  profile_ok (_get_mean_skills_gains subjects_number learning_types_number dr).
Proof.
  assert (Hclamped : forall row, length row = 3%nat -> profile_ok (perturb_and_clamp dr row)).
  { intros row Hrow. split; [apply profile_rows |].
    unfold perturb_and_clamp. apply Forall_map, Forall_forall. intros i _. simpl.
    split; [now rewrite length_imap |].
    apply Forall_lookup. intros j x Hx. rewrite list_lookup_imap in Hx.
    destruct (row !! j); [| discriminate]. injection Hx as <-. apply py_max_ge_r. }
  unfold _get_mean_skills_gains. destruct (Qlt_bool _ _); now apply Hclamped.
Qed.

Lemma start_skills_length (n : nat) (skill_z : nat -> Q) :
  length (start_skills n skill_z) = n.
Proof. unfold start_skills, range. now rewrite length_map, length_seq. Qed.

Lemma linspace_length (n : nat) : length (linspace n) = n.
Proof. unfold linspace, range. now rewrite length_map, length_seq. Qed.

Lemma init_constructed (subjects levels types : nat) (skill_z : nat -> Q)
  (dr : profile_draws) :
  constructed (StudentEnv_init subjects levels types skill_z dr).
Proof.
  constructor.
  - constructor; simpl; try reflexivity.
    + apply start_skills_length.
    + apply zeros3_shape.
    + apply linspace_length.
    + apply length_replicate.
    + apply zeros3_shape.
  - split; simpl; unfold zeros3.
    + do 3 apply Forall_replicate. apply Qle_refl.
    + do 2 apply Forall_replicate. unfold counts_slice.
      apply Forall_take, Forall_drop, Forall_replicate, Qle_refl.
  - reflexivity.
  - apply profile_generated.
Qed.

Lemma const_map_replicate {A B} (l : list A) (b : B) :
  map (fun _ => b) l = replicate (length l) b.
Proof. induction l as [| x l IH]; simpl; [reflexivity | now rewrite IH]. Qed.

Lemma zeros_like3_in_shape (a : list (list (list Q))) (n1 n2 n3 : nat) :
  shape3 a n1 n2 n3 -> zeros_like3 a = zeros3 n1 n2 n3.
Proof.
  intros [Hlen Hrows]. unfold zeros_like3, zeros3. rewrite <- Hlen. clear Hlen.
  induction Hrows as [| r a [Hr Hcells] _ IH]; simpl; [reflexivity |].
  rewrite IH. f_equal. rewrite <- Hr. clear Hr IH.
  induction Hcells as [| c r Hc _ IH]; simpl; [reflexivity |].
  rewrite IH. f_equal. rewrite <- Hc. apply const_map_replicate.
Qed.

Lemma reset_state (e : StudentEnv) (skill_z : nat -> Q) (dr : profile_draws) :
  well_formed e ->
  fst (reset skill_z dr e)
  = with_last_action (last_action e)
      (with_episode (episode e + 1)
         (StudentEnv_init (num_subjects e) (difficulties_levels e)
                          (learning_type_number e) skill_z dr)).
Proof.
  intros Hwf. unfold reset, StudentEnv_init, with_last_action, with_episode. simpl.
  rewrite (wf_action_space e Hwf), (wf_skills e Hwf), (wf_review_ratio e Hwf).
  rewrite (zeros_like3_in_shape _ _ _ _ (wf_scores e Hwf)).
  rewrite (zeros_like3_in_shape _ _ _ _ (wf_counter e Hwf)).
  rewrite const_map_replicate, (wf_train_time e Hwf).
  reflexivity.
Qed.

Lemma constructed_with_episode (e : StudentEnv) (n : nat) :
  constructed e -> constructed (with_episode n e).
Proof. intros [[] ? ? ?]. constructor; try assumption. now constructor. Qed.

Lemma constructed_with_last_action (e : StudentEnv) (la : option action_log) :
  constructed e -> constructed (with_last_action la e).
Proof. intros [[] ? ? ?]. constructor; try assumption. now constructor. Qed.

Lemma reset_constructed (e : StudentEnv) (skill_z : nat -> Q) (dr : profile_draws) :
  constructed e -> constructed (fst (reset skill_z dr e)).
Proof.
  intros He. rewrite (reset_state e skill_z dr (built_shapes e He)).
  apply constructed_with_last_action, constructed_with_episode, init_constructed.
Qed.

Lemma reachable_constructed `{Externals} (start_ok : Q -> Prop) (e : StudentEnv) :
  reachable start_ok e -> constructed e.
Proof.
  induction 1 as [subjects levels types skill_z dr _ | e skill_z dr _ _ IH | e action z _ IH].
  - apply init_constructed.
  - now apply reset_constructed.
  - now apply step_constructed.
Qed.

(** ** A whole training *)

Lemma sum_rows_length (k : nat) (m : list (list Q)) :
  Forall (fun r => length r = k) m -> length (sum_rows k m) = k.
Proof.
  unfold sum_rows. induction 1 as [| r m Hr _ IH]; simpl; [apply length_replicate |].
  rewrite length_zip_with, IH. lia.
Qed.

Lemma np_argmax_run (v : list Q) : (0 < length v)%nat -> exists i, np_argmax v = Ok i.
Proof. destruct v as [| x v]; simpl; [lia |]. intros _. now eexists. Qed.

Lemma Forall_concat_rows {A} (P : A -> Prop) (m : list (list A)) :
  Forall (Forall P) m -> Forall P (concat m).
Proof.
  induction 1 as [| r m Hr _ IH]; simpl; [constructor |]. apply Forall_app. now split.
Qed.

Lemma summed_type_gains_run (e : StudentEnv) :
  well_formed e -> (0 < learning_type_number e)%nat ->
  exists i, np_argmax (summed_type_gains e) = Ok i.
Proof.
  intros Hwf Hpos. apply np_argmax_run. unfold summed_type_gains.
  set (n := learning_type_number e) in *.
  assert (Hk : length (tail_slice n (replicate (2 + 2 * n) 0)) = n).
  { apply tail_slice_length; [exact Hpos |]. rewrite length_replicate. lia. }
  rewrite Hk, sum_rows_length; [exact Hpos |].
  apply Forall_map, Forall_concat_rows.
  destruct (wf_scores e Hwf) as [_ Hrows].
  eapply Forall_impl; [exact Hrows |]. intros r [_ Hcells].
  eapply Forall_impl; [exact Hcells |]. intros c Hc. simpl.
  now apply tail_slice_length.
Qed.

Lemma profile_excellence_run (m : list (list Q)) :
  profile_ok m -> exists i, np_argmax (np_sum_axis0 m) = Ok i.
Proof.
  intros [Hlen Hrows]. apply np_argmax_run. unfold np_sum_axis0.
  destruct m as [| r m]; [discriminate |].
  pose proof (proj1 (Forall_inv Hrows)) as Hr.
  rewrite sum_rows_length; [lia |].
  eapply Forall_impl; [exact Hrows |]. intros r' [Hr' _]. simpl in *. congruence.
Qed.

Lemma profile_lookup (m : list (list Q)) (subject learning_type : nat) :
  profile_ok m -> (subject < 3)%nat -> (learning_type < 3)%nat ->
  exists gains mean_gain,
    m !! subject = Some gains /\ gains !! learning_type = Some mean_gain /\
    5 # 100 <= mean_gain.
Proof.
  intros [Hlen Hrows] Hs Ht.
  destruct (lookup_lt_is_Some_2 m subject) as [gains Hgains]; [lia |].
  destruct (Forall_lookup_1 _ _ _ _ Hrows Hgains) as [Hgains_len Hfloor].
  destruct (lookup_lt_is_Some_2 gains learning_type) as [mean_gain Hmean]; [lia |].
  exists gains, mean_gain. split; [exact Hgains |]. split; [exact Hmean |].
  exact (Forall_lookup_1 _ _ _ _ Hfloor Hmean).
Qed.

Lemma train_run `{Externals} (e : StudentEnv) (subject learning_type learning_difficulty : nat)
  (z : Q) (la : action_log) (skill mean_gain time : Q) (gains c : list Q) (count : Q) :
  one_estimate_per_subject -> well_formed e -> profile_ok (mean_skill_gains e) ->
  (0 < learning_type_number e)%nat ->
  last_action e = Some la ->
  mean_skill_gains e !! subject = Some gains ->
  gains !! learning_type = Some mean_gain ->
  skills_levels e !! subject = Some skill ->
  cumulative_train_time e !! subject = Some time ->
  cell (last_scores e) subject learning_difficulty = Some c ->
  c !! (2 + learning_type)%nat = Some count ->
  exists (a : list (list (list Q))) (penalty : Q),
    _get_not_adapted_learning_penalty skill learning_difficulty e = (e, Ok penalty) /\
    set_cell (last_scores e) subject learning_difficulty
             (<[(2 + learning_type)%nat := count + 1]> c) = Some a /\
    _train subject learning_type learning_difficulty z e
    = (with_last_scores a
         (with_cumulative_train_time
            (<[subject := time + Qnat (learning_type + 1)]> (cumulative_train_time e))
            (with_last_action
               (Some (log_learning_type (Z.of_nat learning_type + 1)
                        (log_improvement
                           (py_max (py_max (random_normal mean_gain STUDENT_SKILL_GAIN_STD z
                                            * penalty) 0) 0) la)))
               (with_skills_levels
                  (<[subject := py_min (skill + py_max (random_normal mean_gain
                                                          STUDENT_SKILL_GAIN_STD z
                                                        * penalty) 0) 100]>
                     (skills_levels e)) e))),
       Ok 0).
Proof.
  intros Hone Hwf Hprofile Hpos Hla Hgains Hmean Hskill Htime Hc Hcount.
  set (penalty := NOT_ADAPTED_DIFFICULTY_PENALTY
                  ^ Z.abs (Z.of_nat learning_difficulty
                           - proper_difficulty (difficulties_thresholds e) skill)).
  set (adjusted := py_max (random_normal mean_gain STUDENT_SKILL_GAIN_STD z * penalty) 0).
  destruct (scores_set_item_run e subject learning_difficulty (2 + learning_type)
              (count + 1) c Hc) as (a & Ha & _).
  { exact (lookup_lt_Some _ _ _ Hcount). }
  exists a, penalty. split; [reflexivity |]. split; [exact Ha |].
  set (e1 := with_skills_levels (<[subject := py_min (skill + adjusted) 100]> (skills_levels e)) e).
  set (e2 := with_last_action
               (Some (log_learning_type (Z.of_nat learning_type + 1)
                        (log_improvement (py_max adjusted 0) la))) e1).
  set (e3 := with_cumulative_train_time
               (<[subject := time + Qnat (learning_type + 1)]> (cumulative_train_time e)) e2).
  set (e4 := with_last_scores a e3).
  assert (Hwf4 : well_formed e4).
  { pose proof (wf_scores e Hwf) as Hshape.
    destruct Hwf. constructor; try assumption; simpl.
    - now rewrite length_insert.
    - eapply set_cell_shape; [exact Hshape | exact Ha |].
      rewrite length_insert.
      exact (proj2 (proj2 (cell_shape _ _ _ _ _ _ _ Hshape Hc))). 
    - now rewrite length_insert. }
  destruct (estimated_skill_run (layer0 a) subject e4 Hone) as [estimate Hestimate].
  { rewrite layer0_length. destruct (wf_scores e4 Hwf4) as [Hlen4 _]. simpl in Hlen4.
    pose proof (lookup_lt_Some _ _ _ Hskill) as Hs. rewrite (wf_skills e Hwf) in Hs.
    now rewrite Hlen4. }
  destruct (summed_type_gains_run e4 Hwf4 Hpos) as [predicted Hpredicted].
  destruct (profile_excellence_run _ Hprofile) as [excellence Hexcellence].
  unfold _train.
  step_with (eq_refl (e, Ok e)).
  step_with (orRaise_run IndexError _ gains e Hgains).
  step_with (orRaise_run IndexError _ mean_gain e Hmean).
  step_with (orRaise_run IndexError _ skill e Hskill).
  step_with (eq_refl (e, Ok penalty)
             : _get_not_adapted_learning_penalty skill learning_difficulty e = _).
  fold adjusted.
  step_with (eq_refl (e1, Ok tt)).
  assert (Hlog1 : log_update (log_improvement (py_max adjusted 0)) e1
                  = (with_last_action (Some (log_improvement (py_max adjusted 0) la)) e1, Ok tt)).
  { unfold log_update. simpl. now rewrite Hla. }
  step_with Hlog1.
  step_with (eq_refl (e2, Ok tt)
             : log_update (log_learning_type (Z.of_nat learning_type + 1))
                 (with_last_action (Some (log_improvement (py_max adjusted 0) la)) e1) = _).
  step_with (train_time_run e2 subject time Htime).
  step_with (eq_refl (e3, Ok tt)).
  step_with (scores_item_run e3 subject learning_difficulty _ c count Hc Hcount).
  assert (Hset : scores_set_item subject learning_difficulty (2 + learning_type) (count + 1) e3
                 = (e4, Ok tt)).
  { destruct (scores_set_item_run e3 subject learning_difficulty (2 + learning_type)
                (count + 1) c Hc (lookup_lt_Some _ _ _ Hcount)) as (a' & Ha' & ->).
    change (last_scores e3) with (last_scores e) in Ha'.
    assert (a' = a) as -> by congruence. reflexivity. }
  step_with Hset.
  step_with (eq_refl (e4, Ok (layer0 a))).
  step_with Hestimate.
  step_with (eq_refl (e4, Ok (NOT_ADAPTED_DIFFICULTY_PENALTY
                              ^ Z.abs (Z.of_nat learning_difficulty
                                       - proper_difficulty (difficulties_thresholds e4) estimate)))
             : _get_not_adapted_learning_penalty estimate learning_difficulty e4 = _).
  step_with (eq_refl (e4, Ok e4)).
  assert (Hread1 : reading (fun _ => np_argmax (summed_type_gains e4)) e4
                   = (e4, Ok predicted)) by (unfold reading; now rewrite Hpredicted).
  step_with Hread1.
  assert (Hread2 : reading (fun _ => np_argmax (np_sum_axis0 (mean_skill_gains e4))) e4
                   = (e4, Ok excellence)) by (unfold reading; simpl; now rewrite Hexcellence).
  step_with Hread2.
  destruct (_ && _); reflexivity.
Qed.

Lemma train_lookups (e : StudentEnv) (subject learning_type learning_difficulty : nat) :
  well_formed e -> profile_ok (mean_skill_gains e) ->
  (subject < num_subjects e)%nat -> (subject < 3)%nat ->
  (learning_type < learning_type_number e)%nat -> (learning_type < 3)%nat ->
  (learning_difficulty < difficulties_levels e)%nat ->
  exists (skill mean_gain time count : Q) (gains c : list Q),
    mean_skill_gains e !! subject = Some gains /\
    gains !! learning_type = Some mean_gain /\
    skills_levels e !! subject = Some skill /\
    cumulative_train_time e !! subject = Some time /\
    cell (last_scores e) subject learning_difficulty = Some c /\
    c !! (2 + learning_type)%nat = Some count.
Proof.
  intros Hwf Hprofile Hs Hs3 Ht Ht3 Hd.
  destruct (profile_lookup _ subject learning_type Hprofile Hs3 Ht3)
    as (gains & mean_gain & Hgains & Hmean & _).
  destruct (lookup_lt_is_Some_2 (skills_levels e) subject) as [skill Hskill];
    [rewrite (wf_skills e Hwf); exact Hs |].
  destruct (lookup_lt_is_Some_2 (cumulative_train_time e) subject) as [time Htime];
    [rewrite (wf_train_time e Hwf); exact Hs |].
  destruct (cell_in_shape _ _ _ _ subject learning_difficulty (wf_scores e Hwf) Hs Hd)
    as (c & Hc & Hlen).
  destruct (lookup_lt_is_Some_2 c (2 + learning_type)) as [count Hcount]; [lia |].
  now exists skill, mean_gain, time, count, gains, c.
Qed.

Lemma step_train_run `{Externals} (e : StudentEnv)
  (subject test_difficulty learning_types learning_difficulty : Z) (z : Q) :
  one_estimate_per_subject -> well_formed e -> profile_ok (mean_skill_gains e) ->
  (subject < 3)%Z -> (learning_types < 3)%Z ->
  contains (action_space e)
           [0%Z; subject; test_difficulty; learning_types; learning_difficulty] = true ->
  exists (e_t e' : StudentEnv),
    _train (Z.to_nat subject) (Z.to_nat learning_types) (Z.to_nat learning_difficulty) z
           (with_last_action (Some (new_log 0 subject learning_difficulty)) e)
    = (e_t, Ok 0) /\
    (exists la, e' = with_step_num (step_num e + 1) (with_last_action la e_t)) /\
    step [0%Z; subject; test_difficulty; learning_types; learning_difficulty] z e
    = (e', Ok {| observation := last_scores e';
                 reward := 0 + - np_sqrt (Qnat (step_num e));
                 is_done := 0 |}).
Proof.
  intros Hone Hwf Hprofile Hsubjects Htypes Hvalid.
  destruct (contains_components _ _ _ _ _ _ Hwf Hvalid) as (_ & Hs & _ & Ht & Hd).
  set (la := new_log 0 subject learning_difficulty).
  set (e_log := with_last_action (Some la) e).
  assert (Hwf_log : well_formed e_log) by now apply well_formed_with_last_action.
  destruct (train_lookups e_log (Z.to_nat subject) (Z.to_nat learning_types)
              (Z.to_nat learning_difficulty) Hwf_log Hprofile)
    as (skill & mean_gain & time & count & gains & c
        & Hgains & Hmean & Hskill & Htime & Hc & Hcount); simpl; try lia.
  destruct (train_run e_log _ _ _ z la skill mean_gain time gains c count
              Hone Hwf_log Hprofile ltac:(simpl; lia) eq_refl Hgains Hmean Hskill Htime Hc Hcount)
    as (a & penalty & _ & _ & Htrain).
  match type of Htrain with _ = (?st, _) => set (e_t := st) in * end.
  eexists e_t, _. split; [exact Htrain |]. split; [eexists; reflexivity |].
  unfold step. step_with (eq_refl (e, Ok e)). rewrite Hvalid.
  cbv beta iota zeta delta [negb Z.eqb].
  step_with (eq_refl (e_log, Ok tt)).
  assert (Hbranch : (reward <- _train (Z.to_nat subject) (Z.to_nat learning_types)
                                      (Z.to_nat learning_difficulty) z ;;
                     ret (reward, 0%Z))%env e_log = (e_t, Ok (0, 0%Z)))
    by (step_with Htrain; reflexivity).
  step_with Hbranch.
  unfold finish_step. step_with (eq_refl (e_t, Ok e_t)). simpl fst. simpl snd.
  reflexivity.
Qed.

(** ** Reachable environments and whole steps *)

Lemma trained_env_reachable : @reachable sample_externals (fun _ => True) trained_env.
Proof. unfold trained_env, small_env. now apply reachable_step, reachable_init. Qed.

(** Every environment that [reset] and [step] calls reach from a
    constructed one, whatever the calls return or raise, has the shapes of
    the constructor, counters that are not negative, evenly spaced
    thresholds and a 3 x 3 skill-gain profile of gains of at least 0.05. *)
Theorem reachable_environment_is_constructed `{Externals} (start_ok : Q -> Prop)
  (e : StudentEnv) :
  reachable start_ok e ->
  well_formed e /\ nonneg_counters e /\
  difficulties_thresholds e = linspace (difficulties_levels e) /\
  profile_ok (mean_skill_gains e).
Proof. intros He. now destruct (reachable_constructed start_ok e He). Qed.

Lemma reachable_environment_is_constructed_witness :
  @reachable sample_externals (fun _ => True) trained_env /\
  well_formed trained_env /\ nonneg_counters trained_env /\
  difficulties_thresholds trained_env = linspace (difficulties_levels trained_env) /\
  profile_ok (mean_skill_gains trained_env).
Proof.
  split; [exact trained_env_reachable |].
  exact (@reachable_environment_is_constructed sample_externals _ _ trained_env_reachable).
Defined.

(** [step] returns on every valid action: in an environment reached from
    a constructed one with at most three subjects and at most three
    learning types, no more than there are difficulty levels, a [step] with
    an action of the action space raises nothing. *)
Theorem step_returns_on_valid_action `{Externals} (start_ok : Q -> Prop) (e : StudentEnv)
  (action : list Z) (z : Q) :
  one_estimate_per_subject ->
  reachable start_ok e ->
  (num_subjects e <= 3)%nat ->
  (learning_type_number e <= 3)%nat ->
  (learning_type_number e <= difficulties_levels e)%nat ->
  contains (action_space e) action = true ->
  exists (e' : StudentEnv) (out : step_result), step action z e = (e', Ok out).
Proof.
  intros Hone Hreach Hsubjects Htypes Hlevels Hvalid.
  destruct (reachable_constructed start_ok e Hreach) as [Hwf Hnonneg _ Hprofile].
  assert (Hlen : length action = 5%nat).
  { rewrite (wf_action_space e Hwf) in Hvalid. unfold contains in Hvalid.
    rewrite !andb_true_iff, Nat.eqb_eq in Hvalid. now destruct Hvalid as [[-> _] _]. }
  destruct action as [| is_test [| subject [| test_difficulty [| learning_types
    [| learning_difficulty [| extra action]]]]]]; try discriminate Hlen.
  destruct (contains_components _ _ _ _ _ _ Hwf Hvalid) as (Htest & _).
  assert (is_test = 0%Z \/ is_test = 1%Z) as [-> | ->] by lia.
  - destruct (contains_components _ _ _ _ _ _ Hwf Hvalid) as (_ & Hs & _ & Ht & _).
    destruct (step_train_run e subject test_difficulty learning_types learning_difficulty z
                Hone Hwf Hprofile ltac:(lia) ltac:(lia) Hvalid) as (e_t & e' & _ & _ & Hstep).
    eexists _, _. exact Hstep.
  - destruct (step_test_run e subject test_difficulty learning_types learning_difficulty z
                Hone Hwf Hnonneg (or_introl Hlevels) Hvalid)
      as (e_t & e' & r & tops & _ & _ & _ & _ & Hstep).
    eexists _, _. exact Hstep.
Qed.

Lemma step_returns_on_valid_action_witness :
  contains (action_space trained_env) [1; 0; 2; 0; 0]%Z = true /\
  exists (e' : StudentEnv) (out : step_result),
    @step sample_externals [1; 0; 2; 0; 0]%Z 0 trained_env = (e', Ok out).
Proof.
  split; [reflexivity |].
  apply (@step_returns_on_valid_action sample_externals (fun _ => True) trained_env
           [1; 0; 2; 0; 0]%Z 0 sample_one_estimate trained_env_reachable);
    solve [vm_compute; lia | reflexivity].
Defined.

(** The skill of the trained subject moves by the sampled gain, scaled by
    the penalty and cut at 0 from below, and is cut at 100 from above: a
    training never lowers a skill of at most 100.  The training adds
    [learning_type + 1] to the subject's train time and 1 to the count of
    the cell, returns 0, and leaves every other cell, every other skill and
    the attribution counters as they were. *)
Theorem training_adds_clamped_gain_to_skill `{Externals} (e : StudentEnv)
  (subject learning_type learning_difficulty : nat) (z : Q) (la : action_log)
  (skill mean_gain time : Q) (gains c : list Q) (count : Q) :
  one_estimate_per_subject -> well_formed e -> profile_ok (mean_skill_gains e) ->
  (0 < learning_type_number e)%nat ->
  last_action e = Some la ->
  mean_skill_gains e !! subject = Some gains ->
  gains !! learning_type = Some mean_gain ->
  skills_levels e !! subject = Some skill ->
  cumulative_train_time e !! subject = Some time ->
  cell (last_scores e) subject learning_difficulty = Some c ->
  c !! (2 + learning_type)%nat = Some count ->
  exists (e' : StudentEnv) (penalty new_skill : Q),
    _get_not_adapted_learning_penalty skill learning_difficulty e = (e, Ok penalty) /\
    new_skill = py_min (skill + py_max (random_normal mean_gain STUDENT_SKILL_GAIN_STD z
                                        * penalty) 0) 100 /\
    _train subject learning_type learning_difficulty z e = (e', Ok 0) /\
    skills_levels e' = <[subject := new_skill]> (skills_levels e) /\
    new_skill <= 100 /\ (skill <= 100 -> skill <= new_skill) /\
    cumulative_train_time e'
    = <[subject := time + Qnat (learning_type + 1)]> (cumulative_train_time e) /\
    cell (last_scores e') subject learning_difficulty
    = Some (<[(2 + learning_type)%nat := count + 1]> c) /\
    (forall s d, s <> subject \/ d <> learning_difficulty ->
                 cell (last_scores e') s d = cell (last_scores e) s d) /\
    train_counter e' = train_counter e /\
    step_num e' = step_num e.
Proof.
  intros Hone Hwf Hprofile Hpos Hla Hgains Hmean Hskill Htime Hc Hcount.
  destruct (train_run e subject learning_type learning_difficulty z la skill mean_gain time
              gains c count Hone Hwf Hprofile Hpos Hla Hgains Hmean Hskill Htime Hc Hcount)
    as (a & penalty & Hpenalty & Ha & Htrain).
  pose proof (py_max_0_nonneg (random_normal mean_gain STUDENT_SKILL_GAIN_STD z * penalty))
    as Hgain.
  set (gain := py_max (random_normal mean_gain STUDENT_SKILL_GAIN_STD z * penalty) 0) in *.
  eexists _, penalty, (py_min (skill + gain) 100).
  split; [exact Hpenalty |]. split; [reflexivity |]. split; [exact Htrain |]. simpl.
  split; [reflexivity |].
  assert (Hcap : py_min (skill + gain) 100 <= 100
                 /\ (skill <= 100 -> skill <= py_min (skill + gain) 100)).
  { unfold py_min. destruct (Qlt_bool 100 (skill + gain)) eqn:Hbig.
    - split; [apply Qle_refl | auto].
    - apply not_true_iff_false in Hbig. rewrite Qlt_bool_iff in Hbig. split; intros; lra. }
  split; [apply Hcap |]. split; [apply Hcap |]. split; [reflexivity |].
  split; [exact (cell_set_cell_eq _ _ _ _ _ Ha) |].
  split; [| now split].
  intros s d Hne. exact (cell_set_cell_ne _ _ _ _ _ s d Ha Hne).
Qed.

Lemma training_adds_clamped_gain_to_skill_witness :
  is_Some (last_action trained_env) /\
  exists (e' : StudentEnv) (new_skill : Q),
    @_train sample_externals 0 1 0 (1 # 2) trained_env = (e', Ok 0) /\
    skills_levels e' = <[0%nat := new_skill]> (skills_levels trained_env) /\
    new_skill <= 100.
Proof.
  assert (Hla : exists la, last_action trained_env = Some la)
    by (vm_compute; eexists; reflexivity).
  destruct Hla as [la Hla].
  split; [rewrite Hla; now exists la |].
  assert (Hprofile : profile_ok (mean_skill_gains trained_env))
    by exact (built_profile _ (reachable_constructed _ _ trained_env_reachable)).
  destruct (train_lookups trained_env 0 1 0 trained_env_well_formed Hprofile
              ltac:(vm_compute; lia) ltac:(lia) ltac:(vm_compute; lia) ltac:(lia)
              ltac:(vm_compute; lia))
    as (skill & mean_gain & time & count & gains & c
        & Hgains & Hmean & Hskill & Htime & Hc & Hcount).
  destruct (@training_adds_clamped_gain_to_skill sample_externals trained_env 0 1 0 (1 # 2)
              la skill mean_gain time gains c count sample_one_estimate
              trained_env_well_formed Hprofile ltac:(vm_compute; lia) Hla
              Hgains Hmean Hskill Htime Hc Hcount)
    as (e' & penalty & new_skill & _ & _ & Htrain & Hskills & Hcap & _).
  exists e', new_skill. split; [exact Htrain |]. split; [exact Hskills | exact Hcap].
Defined.

(** ** What a computation that returned has read *)

Lemma scores_cell_inv (s d : nat) (e e' : StudentEnv) (c : list Q) :
  scores_cell s d e = (e', Ok c) -> e' = e /\ cell (last_scores e) s d = Some c.
Proof.
  unfold scores_cell. destruct (cell (last_scores e) s d); simpl; [| discriminate].
  now intros [= <- <-].
Qed.

Lemma scores_item_inv (s d f : nat) (e e' : StudentEnv) (x : Q) :
  scores_item s d f e = (e', Ok x) ->
  e' = e /\ exists c, cell (last_scores e) s d = Some c /\ c !! f = Some x.
Proof.
  unfold scores_item. intros Hrun.
  apply bind_inv in Hrun as (e1 & c & Hcell & Hitem).
  apply scores_cell_inv in Hcell as [-> Hcell].
  destruct (c !! f) as [y |] eqn:Hy; simpl in Hitem; [| discriminate].
  injection Hitem as <- <-. split; [reflexivity |]. now exists c.
Qed.

Lemma scores_set_cell_inv (s d : nat) (c : list Q) (e e' : StudentEnv) (u : unit) :
  scores_set_cell s d c e = (e', Ok u) ->
  exists a, set_cell (last_scores e) s d c = Some a /\ e' = with_last_scores a e.
Proof.
  unfold scores_set_cell. destruct (set_cell (last_scores e) s d c) as [a |]; [| discriminate].
  intros [= <- _]. now exists a.
Qed.

Lemma log_update_inv (f : action_log -> action_log) (e e' : StudentEnv) (u : unit) :
  log_update f e = (e', Ok u) ->
  exists la, last_action e = Some la /\ e' = with_last_action (Some (f la)) e.
Proof.
  unfold log_update. destruct (last_action e) as [la |]; [| discriminate].
  intros [= <- _]. now exists la.
Qed.

Lemma train_time_inv (subject : nat) (e e' : StudentEnv) (t : Q) :
  train_time subject e = (e', Ok t) -> e' = e /\ cumulative_train_time e !! subject = Some t.
Proof.
  unfold train_time. destruct (cumulative_train_time e !! subject); simpl; [| discriminate].
  now intros [= <- <-].
Qed.

(** The reward that [_test] computes, from the score it stored, the score
    before it and the subject's train time. *)
Lemma test_reward_inv `{Externals} (subject difficulty : nat) (previous : Q)
  (e e' : StudentEnv) (r : Q) :
  test_reward subject difficulty previous e = (e', Ok r) ->
  exists (c c' : list Q) (score time : Q),
    cell (last_scores e) subject difficulty = Some c /\
    c' = zero_counts (learning_type_number e) c /\
    cell (last_scores e') subject difficulty = Some c' /\ c' !! 0%nat = Some score /\
    cumulative_train_time e' !! subject = Some time /\
    difficulties_levels e' = difficulties_levels e /\
    r == (if Qeq_bool time 0 then TIME_PENALTY_FOR_TEST
          else if Qle_bool TARGET_SCORE score
               then if Qlt_bool previous TARGET_SCORE
                    then REWARD_FOR_ACHIEVING_TARGET_LEVEL * Qnat (difficulty + 1)
                         / Qnat (difficulties_levels e)
                    else PENALTY_FOR_UNNECESSARY_TEST
               else TIME_PENALTY_FOR_TEST).
Proof.
  unfold test_reward. intros Hrun.
  apply bind_inv in Hrun as (e0 & e0' & [= <- <-] & Hrun).
  apply bind_inv in Hrun as (e1 & c & Hcell & Hrun).
  apply scores_cell_inv in Hcell as [-> Hcell].
  apply bind_inv in Hrun as (e1 & [] & Hset & Hrun).
  apply scores_set_cell_inv in Hset as (a & Ha & ->).
  apply bind_inv in Hrun as (e2 & score & Hscore & Hrun).
  apply scores_item_inv in Hscore as [-> (c' & Hc' & Hscore)].
  apply bind_inv in Hrun as (e2 & [] & Hlog & Hrun).
  apply log_update_inv in Hlog as (la & _ & ->).
  apply bind_inv in Hrun as (e3 & time & Htime & Hrun).
  apply train_time_inv in Htime as [-> Htime].
  set (e2 := with_last_action _ _) in *.
  assert (Hitem : scores_item subject difficulty 0 e2 = (e2, Ok score))
    by exact (scores_item_run e2 subject difficulty 0 c' score Hc' Hscore).
  assert (Hfinal : e' = e2 /\
            r == (if Qeq_bool time 0 then TIME_PENALTY_FOR_TEST
                  else if Qle_bool TARGET_SCORE score
                       then if Qlt_bool previous TARGET_SCORE
                            then REWARD_FOR_ACHIEVING_TARGET_LEVEL * Qnat (difficulty + 1)
                                 / Qnat (difficulties_levels e)
                            else PENALTY_FOR_UNNECESSARY_TEST
                       else TIME_PENALTY_FOR_TEST)).
  { destruct (Qeq_bool time 0).
    - injection Hrun as <- <-. split; reflexivity.
    - erewrite bind_ok in Hrun by exact Hitem. cbv beta in Hrun.
      destruct (Qle_bool TARGET_SCORE score).
      + destruct (Qlt_bool previous TARGET_SCORE); injection Hrun as <- <-; split; reflexivity.
      + erewrite bind_ok in Hrun by exact (eq_refl (e2, Ok e2)). cbv beta in Hrun.
        erewrite bind_ok in Hrun by exact Hitem. cbv beta in Hrun.
        erewrite bind_ok in Hrun by exact (train_time_run e2 subject time Htime).
        injection Hrun as <- <-. split; [reflexivity |].
        unfold GAIN_MULTIPLIER_FOR_TEST. ring. }
  destruct Hfinal as [-> Hr].
  exists c, c', score, time. split; [exact Hcell |].
  split.
  { pose proof (cell_set_cell_eq _ _ _ _ _ Ha) as Hzeroed.
    change (cell (last_scores (with_last_scores a e)) subject difficulty
            = Some (zero_counts (learning_type_number e) c)) in Hzeroed.
    congruence. }
  split; [exact Hc' |]. split; [exact Hscore |]. split; [exact Htime |].
  split; [reflexivity | exact Hr].
Qed.

(** ** Gain attribution *)

Lemma attribute_types_first (e : StudentEnv) (subject difficulty : nat) (new_gain : Q)
  (row : list Q) :
  cell (train_counter e) subject difficulty = Some row ->
  Forall (fun x => x == 0) row ->
  forall (elems : list (Q * Q)) (idx : nat) (result : list Q) (ratio : ndvalue),
    (idx + length elems <= length row)%nat ->
    (idx + length elems <= length result)%nat ->
    exists ratio',
      attribute_types subject difficulty new_gain idx elems result ratio e
      = (e, Ok (take idx result ++ replicate (length elems) new_gain
                ++ drop (idx + length elems) result, ratio')) /\
      ((elems = [] /\ ratio' = ratio) \/ exists r, In r (map snd elems) /\ ratio' = Scalar r).
Proof.
  intros Hrow Hzero. induction elems as [| [last_avg r] rest IH];
    intros idx result ratio Hlen_row Hlen_result; simpl in *.
  - exists ratio. split; [| now left].
    rewrite Nat.add_0_r, take_drop. reflexivity.
  - destruct (lookup_lt_is_Some_2 row idx) as [counter Hcounter]; [lia |].
    pose proof (Forall_lookup_1 _ _ _ _ Hzero Hcounter) as Hcounter0.
    apply Qeq_bool_iff in Hcounter0.
    destruct (lookup_lt_is_Some_2 result idx) as [old Hold]; [lia |].
    destruct (IH (S idx) (<[idx := new_gain]> result) (Scalar r)) as (ratio' & Hrun & Hratio);
      [lia | rewrite length_insert; lia |].
    exists ratio'. split.
    + step_with (eq_refl (e, Ok e)).
      step_with (orRaise_run IndexError _ row e Hrow).
      step_with (orRaise_run IndexError _ counter e Hcounter).
      rewrite Hcounter0.
      step_with (eq_refl (e, Ok new_gain)).
      assert (Hset : set_item result idx new_gain = Some (<[idx := new_gain]> result))
        by (unfold set_item; now rewrite Hold).
      step_with (orRaise_run IndexError _ _ e Hset).
      rewrite Hrun. f_equal. f_equal. f_equal.
      rewrite (take_S_r _ idx new_gain) by (apply list_lookup_insert_eq; lia).
      rewrite take_insert_ge by lia. rewrite drop_insert_lt by lia.
      rewrite <- app_assoc. simpl. now rewrite Nat.add_succ_r.
    + right. destruct Hratio as [[-> ->] | (r' & Hin & ->)].
      * exists r. split; [now left | reflexivity].
      * exists r'. split; [now right | reflexivity].
Qed.

Lemma counts_shares_length (n : nat) (c : list Q) (total : Q) :
  (0 < n)%nat -> length c = (2 * n + 2)%nat ->
  length (zip (tail_slice n c) (map (fun x => x / total) (counts_slice n c))) = n.
Proof.
  intros Hn Hlen. rewrite length_zip_with, length_map, (tail_slice_length n Hn) by exact Hlen.
  unfold counts_slice. rewrite length_take, length_drop. lia.
Qed.

(** The first attribution at a cell gives every learning type the same
    estimate.  When the cell has been trained since its last test and its
    attribution counters are all zero, [_get_mean_type_gain] returns the
    improvement divided by the number of trainings for every learning type,
    the types that were not trained included, and writes only
    [train_counter]. *)
Theorem first_attribution_is_uniform (e : StudentEnv) (subject difficulty : nat)
  (improvement : Q) (c row : list Q) :
  well_formed e ->
  (0 < learning_type_number e <= difficulties_levels e)%nat ->
  cell (last_scores e) subject difficulty = Some c ->
  0 < np_sum (counts_slice (learning_type_number e) c) ->
  cell (train_counter e) subject difficulty = Some row ->
  Forall (fun x => x == 0) row ->
  exists t : list (list (list Q)),
    _get_mean_type_gain subject difficulty improvement e
    = (with_train_counter t e,
       Ok (Fresh (replicate (learning_type_number e)
                    (improvement / np_sum (counts_slice (learning_type_number e) c))))).
Proof.
  intros Hwf [Hpos Hle] Hc Htotal Hrow Hzero.
  set (n := learning_type_number e) in *.
  pose proof (cell_shape _ _ _ _ _ _ _ (wf_scores e Hwf) Hc) as (Hs & Hd & Hlen). fold n in Hlen.
  pose proof (cell_shape _ _ _ _ _ _ _ (wf_counter e Hwf) Hrow) as (_ & _ & Hrow_len).
  fold n in Hrow_len.
  set (total := np_sum (counts_slice n c)) in *.
  set (elems := zip (tail_slice n c) (map (fun x => x / total) (counts_slice n c))).
  assert (Helems : length elems = n) by now apply counts_shares_length.
  destruct (attribute_types_first e subject difficulty (improvement / total) row Hrow Hzero
              elems 0 (replicate n (- (1))) (Vector (map (fun x => x / total) (counts_slice n c))))
    as (ratio' & Hloop & Hratio); [lia | rewrite length_replicate; lia |].
  destruct Hratio as [[Hnil _] | (r & _ & ->)].
  { rewrite Hnil in Helems. simpl in Helems. lia. }
  destruct (counter_add_loop_run e subject n r (wf_counter e Hwf) Hs Hle)
    as (e' & Hadd & Hframe & _).
  exists (train_counter e'). unfold _get_mean_type_gain.
  step_with (eq_refl (e, Ok e)).
  step_with (scores_cell_run e subject difficulty c Hc).
  fold n. fold total. apply Qlt_bool_iff in Htotal. rewrite Htotal.
  fold elems. step_with Hloop. cbn [fst snd].
  step_with Hadd. unfold counter_only in Hframe. rewrite <- Hframe.
  cbv [ret]. do 3 f_equal. rewrite Helems.
  rewrite drop_ge by (rewrite length_replicate; lia). now rewrite app_nil_r.
Qed.

Lemma counted_env_well_formed : well_formed counted_env.
Proof. concrete_well_formed. Qed.

Lemma first_attribution_is_uniform_witness :
  cell (train_counter counted_env) 0 0 = Some [0; 0; 0] /\
  exists (t : list (list (list Q))) (c : list Q),
    cell (last_scores counted_env) 0 0 = Some c /\
    _get_mean_type_gain 0 0 8 counted_env
    = (with_train_counter t counted_env,
       Ok (Fresh (replicate 3 (8 / np_sum (counts_slice 3 c))))).
Proof.
  split; [reflexivity |].
  assert (Hcell : exists c, cell (last_scores counted_env) 0 0 = Some c /\
                            0 < np_sum (counts_slice 3 c)).
  { vm_compute. eexists. split; reflexivity. }
  destruct Hcell as (c & Hc & Htotal).
  destruct (first_attribution_is_uniform counted_env 0 0 8 c [0; 0; 0]
              counted_env_well_formed ltac:(vm_compute; lia) Hc Htotal eq_refl
              ltac:(repeat constructor)) as [t Ht].
  exists t, c. now split.
Defined.

Lemma for_each_app {St A} (xs ys : list A) (body : A -> M St unit) (st : St) :
  for_each (xs ++ ys) body st = bind (for_each xs body) (fun _ => for_each ys body) st.
Proof.
  revert st. induction xs as [| x xs IH]; intros st; simpl; [reflexivity |].
  unfold bind. destruct (body x st) as [st1 [[] | exn]]; [| reflexivity].
  rewrite IH. reflexivity.
Qed.

Lemma nonneg_attribution_run (e : StudentEnv) (subject difficulty : nat) (new_gain : Q)
  (c : list Q) :
  well_formed e -> nonneg_counters e -> (0 < learning_type_number e)%nat ->
  (difficulty < difficulties_levels e)%nat ->
  cell (last_scores e) subject difficulty = Some c ->
  0 < np_sum (counts_slice (learning_type_number e) c) ->
  exists (result : list Q) (r : Q),
    attribute_types subject difficulty new_gain 0
      (zip (tail_slice (learning_type_number e) c)
           (map (fun x => x / np_sum (counts_slice (learning_type_number e) c))
                (counts_slice (learning_type_number e) c)))
      (replicate (learning_type_number e) (- (1)))
      (Vector (map (fun x => x / np_sum (counts_slice (learning_type_number e) c))
                   (counts_slice (learning_type_number e) c))) e
    = (e, Ok (result, Scalar r)).
Proof.
  intros Hwf [Hcounter Hcounts] Hpos Hd Hc Htotal.
  set (n := learning_type_number e) in *.
  pose proof (cell_shape _ _ _ _ _ _ _ (wf_scores e Hwf) Hc) as (Hs & _ & Hlen). fold n in Hlen.
  destruct (cell_in_shape _ _ _ _ subject difficulty (wf_counter e Hwf) Hs Hd)
    as (row & Hrow & Hrow_len). fold n in Hrow_len.
  pose proof (counts_shares_length n c (np_sum (counts_slice n c)) Hpos Hlen) as Helems.
  destruct (attribute_types_run e subject difficulty new_gain row Hrow
              (cell_Forall _ _ _ _ _ Hcounter Hrow)
              (zip (tail_slice n c)
                   (map (fun x => x / np_sum (counts_slice n c)) (counts_slice n c)))
              0 (replicate n (- (1)))
              (Vector (map (fun x => x / np_sum (counts_slice n c)) (counts_slice n c))))
    as (result & ratio' & Hrun & _ & Hratio).
  - rewrite Helems. lia.
  - rewrite Helems, length_replicate. lia.
  - apply zip_snd_nonneg, shares_nonneg; [| exact Htotal].
    exact (cell_Forall _ _ _ _ _ Hcounts Hc).
  - destruct Hratio as [[Hnil _] | [r ->]].
    + rewrite Hnil in Helems. simpl in Helems. lia.
    + now exists result, r.
Qed.

Lemma get_mean_type_gain_raises (e : StudentEnv) (subject difficulty : nat)
  (improvement : Q) (c : list Q) :
  well_formed e -> nonneg_counters e ->
  (difficulties_levels e < learning_type_number e)%nat ->
  (difficulty < difficulties_levels e)%nat ->
  cell (last_scores e) subject difficulty = Some c ->
  0 < np_sum (counts_slice (learning_type_number e) c) ->
  exists t : list (list (list Q)),
    _get_mean_type_gain subject difficulty improvement e
    = (with_train_counter t e, Raise IndexError).
Proof.
  intros Hwf Hnonneg Hmore Hd Hc Htotal.
  set (n := learning_type_number e) in *.
  pose proof (cell_shape _ _ _ _ _ _ _ (wf_scores e Hwf) Hc) as (Hs & _ & _).
  destruct (nonneg_attribution_run e subject difficulty
              (improvement / np_sum (counts_slice n c)) c Hwf Hnonneg ltac:(lia) Hd Hc Htotal)
    as (result & r & Hloop).
  fold n in Hloop.
  destruct (counter_add_loop_run e subject (difficulties_levels e) r (wf_counter e Hwf) Hs
              (Nat.le_refl _)) as (e' & Hadd & Hframe & Hshape).
  assert (Hfail : for_each (range n) (fun d => counter_add subject d (Scalar r)) e
                  = (e', Raise IndexError)).
  { unfold range.
    replace n with (difficulties_levels e + S (n - S (difficulties_levels e)))%nat
      by (clear - Hmore; lia).
    rewrite seq_app, for_each_app. fold (range (difficulties_levels e)).
    step_with Hadd. simpl.
    assert (Hnone : counter_add subject (difficulties_levels e) (Scalar r) e'
                    = (e', Raise IndexError)).
    { unfold counter_add.
      destruct (cell (train_counter e') subject (difficulties_levels e)) as [row |] eqn:Hrow;
        [| reflexivity].
      pose proof (cell_shape _ _ _ _ _ _ _ Hshape Hrow) as (_ & Habs & _). lia. }
    exact (bind_raise _ _ _ _ _ Hnone). }
  exists (train_counter e'). unfold _get_mean_type_gain.
  step_with (eq_refl (e, Ok e)).
  step_with (scores_cell_run e subject difficulty c Hc).
  fold n. apply Qlt_bool_iff in Htotal. rewrite Htotal.
  step_with Hloop. cbn [fst snd].
  unfold counter_only in Hframe. rewrite <- Hframe.
  exact (bind_raise _ _ _ _ _ Hfail).
Qed.

(** With more learning types than difficulty levels the attribution
    fails: its loop [for d in range(self.learning_type_number)] indexes the
    difficulty axis of [train_counter], so for a cell trained since its last
    test [_get_mean_type_gain] raises [IndexError]; what it has written by
    then is in [train_counter] only. *)
Theorem attribution_raises_with_more_types_than_levels (e : StudentEnv)
  (subject difficulty : nat) (improvement : Q) (c : list Q) :
  well_formed e -> nonneg_counters e ->
  (difficulties_levels e < learning_type_number e)%nat ->
  (difficulty < difficulties_levels e)%nat ->
  cell (last_scores e) subject difficulty = Some c ->
  0 < np_sum (counts_slice (learning_type_number e) c) ->
  exists t : list (list (list Q)),
    _get_mean_type_gain subject difficulty improvement e
    = (with_train_counter t e, Raise IndexError).
Proof. apply get_mean_type_gain_raises. Qed.

Lemma narrow_env_well_formed : well_formed narrow_env.
Proof. concrete_well_formed. Qed.

Lemma narrow_env_nonneg : nonneg_counters narrow_env.
Proof. concrete_nonneg. Qed.

Lemma attribution_raises_with_more_types_than_levels_witness :
  (difficulties_levels narrow_env < learning_type_number narrow_env)%nat /\
  exists t : list (list (list Q)),
    _get_mean_type_gain 0 0 5 narrow_env = (with_train_counter t narrow_env, Raise IndexError).
Proof.
  split; [vm_compute; lia |].
  assert (Hcell : exists c, cell (last_scores narrow_env) 0 0 = Some c /\
                            0 < np_sum (counts_slice 2 c)).
  { vm_compute. eexists. split; reflexivity. }
  destruct Hcell as (c & Hc & Htotal).
  exact (attribution_raises_with_more_types_than_levels narrow_env 0 0 5 c
           narrow_env_well_formed narrow_env_nonneg
           ltac:(vm_compute; lia) ltac:(vm_compute; lia) Hc Htotal).
Defined.

(** ** The skill-gain profile, [reset] and the constructors *)

(** Whatever its arguments and its draws, [_get_mean_skills_gains] gives
    three rows of three mean gains, and every mean gain is at least the
    floor 0.05 that [np.maximum] sets. *)
Theorem skill_gain_profile_has_a_floor (subjects_number learning_types_number : nat)
  (dr : profile_draws) :
  profile_ok (_get_mean_skills_gains subjects_number learning_types_number dr).
Proof. apply profile_generated. Qed.

(** [reset] rebuilds the state of the constructor: on an environment of
    the constructor's shapes it leaves exactly what [StudentEnv(num_subjects,
    num_difficulty_levels, num_learning_types)] builds from the same draws,
    except that the episode counter has grown by one and that [last_action]
    still holds the log of the last step before the reset. *)
Theorem reset_rebuilds_the_constructed_state (e : StudentEnv) (skill_z : nat -> Q)
  (dr : profile_draws) :
  well_formed e ->
  fst (reset skill_z dr e)
  = with_last_action (last_action e)
      (with_episode (episode e + 1)
         (StudentEnv_init (num_subjects e) (difficulties_levels e)
                          (learning_type_number e) skill_z dr)) /\
  returned (reset skill_z dr e)
  = Some (zeros3 (num_subjects e) (difficulties_levels e) (2 * learning_type_number e + 2)).
Proof.
  intros Hwf. split; [now apply reset_state |].
  unfold returned, reset. simpl.
  now rewrite (zeros_like3_in_shape _ _ _ _ (wf_scores e Hwf)).
Qed.

Lemma reset_rebuilds_the_constructed_state_witness :
  fst (reset (fun _ => 1) (still_draws 0) trained_env)
  = with_last_action (last_action trained_env)
      (with_episode 1 (StudentEnv_init 2 3 3 (fun _ => 1) (still_draws 0))) /\
  returned (reset (fun _ => 1) (still_draws 0) trained_env) = Some (zeros3 2 3 8).
Proof.
  exact (reset_rebuilds_the_constructed_state trained_env (fun _ => 1) (still_draws 0)
           trained_env_well_formed).
Defined.

(** A [StudentEnvBypass] built from an environment has the fields of that
    environment, the spaces and thresholds that its own constructor call
    rebuilds included; only [last_action] is not copied and starts as
    [None].  Its [prob_ratio] is the argument, or the default when the
    argument is [None] or empty. *)
Theorem bypass_copy_has_the_state_of_the_original (e : StudentEnv) (prob : option (list Q)) :
  well_formed e ->
  difficulties_thresholds e = linspace (difficulties_levels e) ->
  base (StudentEnvBypass_init e prob) = with_last_action None e /\
  prob_ratio (StudentEnvBypass_init e prob)
  = match prob with
    | Some (x :: p) => x :: p
    | _ => [8 # 10; 1 # 10; 1 # 10]
    end.
Proof.
  intros Hwf Hthresholds. split; [| reflexivity].
  unfold StudentEnvBypass_init, with_last_action. simpl.
  now rewrite <- (wf_action_space e Hwf), <- Hthresholds, <- (wf_review_ratio e Hwf).
Qed.

Lemma bypass_copy_has_the_state_of_the_original_witness :
  base (StudentEnvBypass_init trained_env (Some [])) = with_last_action None trained_env /\
  prob_ratio (StudentEnvBypass_init trained_env (Some [])) = [8 # 10; 1 # 10; 1 # 10].
Proof.
  exact (bypass_copy_has_the_state_of_the_original trained_env (Some [])
           trained_env_well_formed eq_refl).
Defined.

(** ** Steps that raise *)

(** A training step of [StudentEnvBypass] draws the learning type with
    [np.random.choice(self.difficulties_levels, p=self.prob_ratio)]: when
    [prob_ratio] has not one entry per difficulty level, as the default of
    three entries in an environment without three levels, every training
    step raises [ValueError], after it has stored the new [last_action]. *)
Theorem bypass_training_needs_a_probability_per_level `{Externals} (b : StudentEnvBypass)
  (subject test_difficulty learning_types learning_difficulty : Z) (u z : Q) :
  contains (action_space (base b))
           [0%Z; subject; test_difficulty; learning_types; learning_difficulty] = true ->
  length (prob_ratio b) <> difficulties_levels (base b) ->
  bypass_step [0%Z; subject; test_difficulty; learning_types; learning_difficulty] u z b
  = ({| base := with_last_action (Some (new_log 0 subject learning_difficulty)) (base b);
        prob_ratio := prob_ratio b |},
     Raise ValueError).
Proof.
  intros Hvalid Hlength. destruct b as [e p]. simpl in *.
  assert (Hchoice : random_choice (difficulties_levels e) p u = Raise ValueError).
  { unfold random_choice. destruct (difficulties_levels e =? 0)%nat; [reflexivity |].
    apply Nat.eqb_neq in Hlength. now rewrite Hlength. }
  unfold bypass_step, inherited, bind, get, raise, modify, reading, ret.
  simpl. rewrite Hvalid. simpl. now rewrite Hchoice.
Qed.

Lemma bypass_training_needs_a_probability_per_level_witness :
  length (prob_ratio (StudentEnvBypass_init two_level_env None))
  <> difficulties_levels (base (StudentEnvBypass_init two_level_env None)) /\
  exists b',
    @bypass_step sample_externals [0; 1; 0; 1; 1]%Z (1 # 2) 0
      (StudentEnvBypass_init two_level_env None) = (b', Raise ValueError).
Proof.
  split; [vm_compute; lia |]. eexists.
  apply (@bypass_training_needs_a_probability_per_level sample_externals
           (StudentEnvBypass_init two_level_env None) 1 0 1 1 (1 # 2) 0);
    [reflexivity | vm_compute; lia].
Defined.

(** The skill-gain profile has three rows of three entries whatever the
    sizes of the environment: a training step for the fourth subject or
    later, or with the fourth learning type or later, raises [IndexError] at
    its first statement, after only [last_action] has been set. *)
Theorem training_beyond_the_profile_raises `{Externals} (e : StudentEnv)
  (subject test_difficulty learning_types learning_difficulty : Z) (z : Q) :
  profile_ok (mean_skill_gains e) ->
  contains (action_space e)
           [0%Z; subject; test_difficulty; learning_types; learning_difficulty] = true ->
  (3 <= subject \/ 3 <= learning_types)%Z ->
  step [0%Z; subject; test_difficulty; learning_types; learning_difficulty] z e
  = (with_last_action (Some (new_log 0 subject learning_difficulty)) e, Raise IndexError).
Proof.
  intros [Hrows Hcols] Hvalid Hbeyond.
  set (e_log := with_last_action (Some (new_log 0 subject learning_difficulty)) e).
  assert (Htrain : forall A (k : Q -> M StudentEnv A),
            bind (_train (Z.to_nat subject) (Z.to_nat learning_types)
                         (Z.to_nat learning_difficulty) z) k e_log
            = (e_log, Raise IndexError)).
  { intros A k. apply bind_raise. unfold _train.
    step_with (eq_refl (e_log, Ok e_log)). simpl mean_skill_gains.
    destruct (mean_skill_gains e !! Z.to_nat subject) as [gains |] eqn:Hgains;
      [| reflexivity].
    step_with (eq_refl (e_log, Ok gains)).
    destruct (gains !! Z.to_nat learning_types) as [mean_gain |] eqn:Hmean; [| reflexivity].
    pose proof (lookup_lt_Some _ _ _ Hgains) as Hs.
    pose proof (lookup_lt_Some _ _ _ Hmean) as Ht.
    rewrite (proj1 (Forall_lookup_1 _ _ _ _ Hcols Hgains)) in Ht. lia. }
  unfold step. step_with (eq_refl (e, Ok e)). rewrite Hvalid.
  cbv beta iota zeta delta [negb Z.eqb].
  step_with (eq_refl (e_log, Ok tt)).
  apply bind_raise. apply Htrain.
Qed.

Lemma training_beyond_the_profile_raises_witness :
  contains (action_space crowded_env) [0; 3; 0; 0; 0]%Z = true /\
  @step sample_externals [0; 3; 0; 0; 0]%Z 0 crowded_env
  = (with_last_action (Some (new_log 0 3 0)) crowded_env, Raise IndexError).
Proof.
  split; [reflexivity |].
  apply (@training_beyond_the_profile_raises sample_externals crowded_env 3 0 0 0 0);
    [apply profile_generated | reflexivity | lia].
Defined.

(** ** The fields that a method does not write *)

Section Frame.
Context (K : StudentEnv -> Prop).
Hypothesis keeps_scores : forall e a, K e -> K (with_last_scores a e).
Hypothesis keeps_counter : forall e t, K e -> K (with_train_counter t e).
Hypothesis keeps_action : forall e la, K e -> K (with_last_action la e).
Hypothesis keeps_skills : forall e v, K e -> K (with_skills_levels v e).
Hypothesis keeps_time : forall e v, K e -> K (with_cumulative_train_time v e).
Hypothesis keeps_step : forall e n, K e -> K (with_step_num n e).

Lemma kept_scores_set_cell (s d : nat) (c : list Q) :
  yields K (scores_set_cell s d c) (fun _ => True).
Proof.
  intros e He. unfold scores_set_cell.
  destruct (set_cell (last_scores e) s d c); [| exact He]. split; [now apply keeps_scores | exact I].
Qed.

Lemma kept_scores_set_item (s d f : nat) (x : Q) :
  yields K (scores_set_item s d f x) (fun _ => True).
Proof.
  unfold scores_set_item.
  eapply yields_bind; [apply yields_read_only, read_only_scores_cell |]. intros c _.
  eapply yields_bind; [apply yields_read_only, read_only_orRaise |]. intros c' _.
  apply kept_scores_set_cell.
Qed.

Lemma kept_scores_set_tail (n s d : nat) (v : list Q) :
  yields K (scores_set_tail n s d v) (fun _ => True).
Proof.
  unfold scores_set_tail.
  eapply yields_bind; [apply yields_read_only, read_only_scores_cell |]. intros c _.
  eapply yields_bind; [apply yields_read_only, read_only_orRaise |]. intros c' _.
  apply kept_scores_set_cell.
Qed.

Lemma kept_log_update (f : action_log -> action_log) :
  yields K (log_update f) (fun _ => True).
Proof.
  intros e He. unfold log_update. destruct (last_action e); [| exact He].
  split; [now apply keeps_action | exact I].
Qed.

Lemma kept_record_test_score `{Externals} (subject difficulty : nat) (z : Q) :
  yields K (record_test_score subject difficulty z) (fun _ => True).
Proof.
  unfold record_test_score.
  eapply yields_bind; [apply yields_read_only, read_only_get_test_mean |]. intros mean _.
  eapply yields_bind; [apply yields_read_only, read_only_scores_item |]. intros previous _.
  eapply yields_bind; [apply yields_read_only, read_only_gets |]. intros previous_scores _.
  eapply yields_bind; [apply kept_scores_set_item |]. intros _ _.
  eapply yields_bind; [apply kept_scores_set_item |]. intros _ _.
  apply yields_read_only. solve_reads.
Qed.

Lemma kept_get_mean_type_gain (subject difficulty : nat) (improvement : Q) :
  yields K (_get_mean_type_gain subject difficulty improvement) (fun _ => True).
Proof.
  unfold _get_mean_type_gain. eapply yields_bind; [apply yields_get |]. intros e0 _.
  eapply yields_bind; [apply yields_read_only, read_only_scores_cell |]. intros c _.
  destruct (Qlt_bool 0 _); [| now apply yields_ret].
  eapply yields_bind; [apply yields_read_only, read_only_attribute_types |]. intros looped _.
  eapply yields_bind; [| intros _ _; now apply yields_ret].
  apply yields_for_each. intros d e He. unfold counter_add.
  destruct (cell (train_counter e) subject d) as [row |]; [| exact He].
  destruct (add_broadcast row (snd looped)) as [row' |]; [| exact He].
  destruct (set_cell (train_counter e) subject d row') as [t |]; [| exact He].
  split; [now apply keeps_counter | exact I].
Qed.

Lemma kept_propagate_type_gain (g : type_gain) (subject : nat) :
  yields K (propagate_type_gain g subject) (fun _ => True).
Proof.
  unfold propagate_type_gain. eapply yields_bind; [apply yields_get |]. intros e0 _.
  apply yields_for_each. intros d. unfold propagate_difficulty.
  eapply yields_bind; [apply yields_get |]. intros e1 _.
  eapply yields_bind; [apply yields_read_only, read_only_type_gain_value |]. intros v _.
  eapply yields_bind; [apply kept_scores_set_tail |]. intros _ _.
  apply yields_for_each. intros s. unfold blend_subject.
  eapply yields_bind; [apply yields_get |]. intros e2 _.
  eapply yields_bind; [apply yields_read_only, read_only_scores_cell |]. intros c _.
  eapply yields_bind; [apply yields_read_only, read_only_type_gain_value |]. intros v' _.
  eapply yields_bind; [apply yields_read_only, read_only_reading |]. intros avg _.
  apply kept_scores_set_tail.
Qed.

Lemma kept_test `{Externals} (subject difficulty : nat) (z : Q) :
  yields K (_test subject difficulty z) (fun _ => True).
Proof.
  unfold _test.
  eapply yields_bind; [apply kept_record_test_score |]. intros recorded _.
  eapply yields_bind; [apply kept_get_mean_type_gain |]. intros g _.
  eapply yields_bind; [apply kept_propagate_type_gain |]. intros _ _.
  unfold test_reward. eapply yields_bind; [apply yields_get |]. intros e0 _.
  eapply yields_bind; [apply yields_read_only, read_only_scores_cell |]. intros c _.
  eapply yields_bind; [apply kept_scores_set_cell |]. intros _ _.
  eapply yields_bind; [apply yields_read_only, read_only_scores_item |]. intros score _.
  eapply yields_bind; [apply kept_log_update |]. intros _ _.
  eapply yields_bind; [apply yields_read_only, read_only_train_time |]. intros time _.
  apply yields_read_only. solve_reads.
Qed.

Lemma kept_train `{Externals} (subject learning_type learning_difficulty : nat) (z : Q) :
  yields K (_train subject learning_type learning_difficulty z) (fun _ => True).
Proof.
  unfold _train. eapply yields_bind; [apply yields_get |]. intros e0 _.
  eapply yields_bind; [apply yields_read_only, read_only_orRaise |]. intros gains _.
  eapply yields_bind; [apply yields_read_only, read_only_orRaise |]. intros mean_gain _.
  eapply yields_bind; [apply yields_read_only, read_only_orRaise |]. intros skill _.
  eapply yields_bind; [apply yields_read_only, read_only_get_penalty |]. intros penalty _.
  eapply yields_bind; [apply yields_modify; intros e He; now apply keeps_skills |].
  intros _ _.
  eapply yields_bind; [apply kept_log_update |]. intros _ _.
  eapply yields_bind; [apply kept_log_update |]. intros _ _.
  eapply yields_bind; [apply yields_read_only, read_only_train_time |]. intros time _.
  eapply yields_bind; [apply yields_modify; intros e He; now apply keeps_time |].
  intros _ _.
  eapply yields_bind; [apply yields_read_only, read_only_scores_item |]. intros count _.
  eapply yields_bind; [apply kept_scores_set_item |]. intros _ _.
  apply yields_read_only. solve_reads.
Qed.

Lemma kept_reset_train_time (subject : nat) :
  yields K (reset_train_time subject) (fun _ => True).
Proof.
  intros e He. unfold reset_train_time.
  destruct (cumulative_train_time e !! subject); [| exact He].
  split; [now apply keeps_time | exact I].
Qed.

(** The branch of [step] on [is_test]. *)
Lemma kept_branch `{Externals} (is_test subject test_difficulty learning_types
  learning_difficulty : Z) (z : Q) :
  yields K
    (if (is_test =? 0)%Z
     then
       reward <- _train (Z.to_nat subject) (Z.to_nat learning_types)
                        (Z.to_nat learning_difficulty) z ;;
       ret (reward, 0%Z)
     else test_branch (Z.to_nat subject) (Z.to_nat test_difficulty) z)%env
    (fun _ => True).
Proof.
  destruct (is_test =? 0)%Z.
  - eapply yields_bind; [apply kept_train |]. intros reward _. now apply yields_ret.
  - unfold test_branch. eapply yields_bind; [apply kept_test |]. intros reward _.
    eapply yields_bind; [apply kept_reset_train_time |]. intros _ _.
    eapply yields_bind; [apply yields_read_only, read_only_all_levels_achieved |].
    intros achieved _. destruct achieved; now apply yields_ret.
Qed.

Lemma kept_step `{Externals} (action : list Z) (z : Q) (e : StudentEnv) :
  K e -> K (fst (step action z e)).
Proof.
  intros He. unfold step. rewrite (bind_ok _ _ e e e eq_refl).
  destruct (contains (action_space e) action); [| exact He].
  cbv beta iota delta [negb].
  destruct action as [| is_test [| subject [| test_difficulty [| learning_types
    [| learning_difficulty [| extra action]]]]]]; try exact He.
  cbv zeta. apply (yields_state K _ (fun _ => True)); [| exact He].
  eapply yields_bind; [apply yields_modify; intros e1 He1; now apply keeps_action |].
  intros _ _. eapply yields_bind; [apply kept_branch |]. intros outcome _.
  unfold finish_step. eapply yields_bind; [apply yields_get |]. intros e0 _.
  eapply yields_bind; [apply kept_log_update |]. intros _ _.
  eapply yields_bind; [apply yields_modify; intros e1 He1; now apply keeps_step |].
  intros _ _. eapply yields_bind; [apply yields_get |]. intros e1 _. now apply yields_ret.
Qed.
End Frame.

Lemma step_num_after_step `{Externals} (e : StudentEnv) (action : list Z) (z : Q) :
  match step action z e with
  | (e', Ok _) => step_num e' = (step_num e + 1)%nat
  | (e', Raise _) => step_num e' = step_num e
  end.
Proof.
  set (K := fun e' : StudentEnv => step_num e' = step_num e).
  unfold step. rewrite (bind_ok _ _ e e e eq_refl).
  destruct (contains (action_space e) action); [| reflexivity].
  cbv beta iota delta [negb].
  destruct action as [| is_test [| subject [| test_difficulty [| learning_types
    [| learning_difficulty [| extra action]]]]]]; try reflexivity.
  cbv zeta. rewrite (bind_ok _ _ e (with_last_action _ e) tt eq_refl).
  pose proof (kept_branch K ltac:(now unfold K) ltac:(now unfold K) ltac:(now unfold K)
                ltac:(now unfold K) ltac:(now unfold K)
                is_test subject test_difficulty learning_types learning_difficulty z
                (with_last_action
                   (Some (new_log is_test subject
                            (if (is_test =? 0)%Z then learning_difficulty
                             else test_difficulty))) e) eq_refl) as Hbranch.
  unfold bind at 1.
  destruct (_ : StudentEnv * result (Q * Z)) as [e2 [outcome | x]].
  - destruct Hbranch as [He2 _]. unfold K in He2. unfold finish_step.
    rewrite (bind_ok _ _ e2 e2 e2 eq_refl). unfold bind at 1, log_update.
    destruct (last_action e2); [| exact He2]. simpl. now rewrite He2.
  - exact Hbranch.
Qed.

(** [step_num] counts the steps that return: a [step] that returns has
    added one to it, and a [step] that raises, whatever the exception and
    however far it got, has left it as it was. *)
Theorem step_counts_the_steps_that_return `{Externals} (e : StudentEnv) (action : list Z)
  (z : Q) :
  (forall e' out, step action z e = (e', Ok out) -> step_num e' = (step_num e + 1)%nat) /\
  (forall e' x, step action z e = (e', Raise x) -> step_num e' = step_num e).
Proof.
  pose proof (step_num_after_step e action z) as Hcases.
  split; intros e' r Hstep; now rewrite Hstep in Hcases.
Qed.

Lemma test_frame `{Externals} (e : StudentEnv) (subject difficulty : nat) (z : Q) :
  skills_levels (fst (_test subject difficulty z e)) = skills_levels e /\
  cumulative_train_time (fst (_test subject difficulty z e)) = cumulative_train_time e /\
  step_num (fst (_test subject difficulty z e)) = step_num e /\
  same_configuration e (fst (_test subject difficulty z e)).
Proof.
  set (K := fun e' : StudentEnv =>
              skills_levels e' = skills_levels e /\
              cumulative_train_time e' = cumulative_train_time e /\
              step_num e' = step_num e /\ same_configuration e e').
  apply (yields_state K _ (fun _ => True)).
  - apply kept_test; now unfold K.
  - unfold K, same_configuration. now repeat split.
Qed.

Lemma test_leaves_skills_time `{Externals} (e : StudentEnv) (subject difficulty : nat)
  (z : Q) :
  skills_levels (fst (_test subject difficulty z e)) = skills_levels e /\
  cumulative_train_time (fst (_test subject difficulty z e)) = cumulative_train_time e.
Proof. destruct (test_frame e subject difficulty z) as (? & ? & _). now split. Qed.

(** A test observes: whether [_test] returns or raises, it leaves the
    skills, the train times, [step_num] and the configuration as they
    were; it writes only [last_scores], [train_counter] and [last_action]. *)
Theorem test_leaves_skills_and_train_time `{Externals} (e : StudentEnv)
  (subject difficulty : nat) (z : Q) :
  skills_levels (fst (_test subject difficulty z e)) = skills_levels e /\
  cumulative_train_time (fst (_test subject difficulty z e)) = cumulative_train_time e /\
  step_num (fst (_test subject difficulty z e)) = step_num e /\
  same_configuration e (fst (_test subject difficulty z e)).
Proof. apply test_frame. Qed.

Lemma same_configuration_step `{Externals} (e : StudentEnv) (action : list Z) (z : Q) :
  same_configuration e (fst (step action z e)).
Proof.
  apply (kept_step (same_configuration e)); now unfold same_configuration.
Qed.

(** ** The state after a test step *)

Lemma step_test_state `{Externals} (e e' : StudentEnv)
  (subject test_difficulty learning_types learning_difficulty : Z) (z : Q)
  (out : step_result) :
  contains (action_space e)
           [1%Z; subject; test_difficulty; learning_types; learning_difficulty] = true ->
  step [1%Z; subject; test_difficulty; learning_types; learning_difficulty] z e
  = (e', Ok out) ->
  cumulative_train_time e' = <[Z.to_nat subject := 0]> (cumulative_train_time e) /\
  skills_levels e' = skills_levels e.
Proof.
  intros Hvalid Hstep. unfold step in Hstep.
  rewrite (bind_ok _ _ e e e eq_refl), Hvalid in Hstep.
  cbv beta iota zeta delta [negb Z.eqb] in Hstep.
  rewrite (bind_ok _ _ e (with_last_action _ e) tt eq_refl) in Hstep.
  set (e_log := with_last_action _ e) in Hstep.
  apply bind_inv in Hstep as (e2 & outcome & Hbranch & Hfinish).
  unfold test_branch in Hbranch.
  apply bind_inv in Hbranch as (e_t & r & Htest & Hbranch).
  apply bind_inv in Hbranch as (e_r & [] & Hreset & Hbranch).
  apply bind_inv in Hbranch as (e_a & achieved & Hall & Hret).
  assert (e_a = e_r) as ->.
  { pose proof (read_only_all_levels_achieved e_r) as Hread. now rewrite Hall in Hread. }
  assert (e2 = e_r) as -> by (destruct achieved; now injection Hret).
  unfold reset_train_time in Hreset.
  destruct (cumulative_train_time e_t !! Z.to_nat subject); [| discriminate].
  injection Hreset as <-.
  unfold finish_step in Hfinish.
  apply bind_inv in Hfinish as (e0 & e0' & [= <- <-] & Hfinish).
  apply bind_inv in Hfinish as (e3 & [] & Hlog & Hfinish).
  apply log_update_inv in Hlog as (la & _ & ->).
  injection Hfinish as <- _. simpl.
  destruct (test_leaves_skills_time e_log (Z.to_nat subject) (Z.to_nat test_difficulty) z)
    as (Hskills & Htime).
  rewrite Htest in Hskills, Htime. simpl in Hskills, Htime.
  now rewrite Hskills, Htime.
Qed.

(** ** What recording a score has written *)

Lemma scores_set_item_inv (s d f : nat) (x : Q) (e e' : StudentEnv) (u : unit) :
  scores_set_item s d f x e = (e', Ok u) ->
  exists c a,
    cell (last_scores e) s d = Some c /\ (f < length c)%nat /\
    set_cell (last_scores e) s d (<[f := x]> c) = Some a /\ e' = with_last_scores a e.
Proof.
  unfold scores_set_item. intros Hrun.
  apply bind_inv in Hrun as (e1 & c & Hcell & Hrun).
  apply scores_cell_inv in Hcell as [-> Hcell].
  apply bind_inv in Hrun as (e1 & c' & Hitem & Hset).
  unfold set_item in Hitem. destruct (c !! f) as [y |] eqn:Hy; [| discriminate].
  injection Hitem as <- <-.
  apply scores_set_cell_inv in Hset as (a & Ha & ->).
  exists c, a. split; [exact Hcell |]. split; [exact (lookup_lt_Some _ _ _ Hy) |]. now split.
Qed.

Lemma record_test_score_inv `{Externals} (subject difficulty : nat) (z : Q)
  (e e' : StudentEnv) (previous improvement : Q) :
  record_test_score subject difficulty z e = (e', Ok (previous, improvement)) ->
  exists (mean : Q) (c : list Q),
    _get_test_mean subject difficulty e = (e, Ok mean) /\
    cell (last_scores e) subject difficulty = Some c /\
    c !! 0%nat = Some previous /\
    cell (last_scores e') subject difficulty
    = Some (<[0%nat := py_min (py_max (random_normal mean TEST_SCORE_STD z) 0) 100]>
              (<[1%nat := py_min (py_max (random_normal mean TEST_SCORE_STD z) 0) 100
                          - previous]> c)).
Proof.
  unfold record_test_score. intros Hrun.
  apply bind_inv in Hrun as (e1 & mean & Hmean & Hrun).
  assert (e1 = e) as ->.
  { pose proof (read_only_get_test_mean subject difficulty e) as Hread.
    now rewrite Hmean in Hread. }
  apply bind_inv in Hrun as (e1 & previous' & Hprevious & Hrun).
  apply scores_item_inv in Hprevious as [-> (c & Hc & Hprevious)].
  apply bind_inv in Hrun as (e1 & scores & [= <- <-] & Hrun).
  apply bind_inv in Hrun as (e1 & [] & Hset1 & Hrun).
  apply scores_set_item_inv in Hset1 as (c1 & a1 & Hc1 & _ & Ha1 & ->).
  apply bind_inv in Hrun as (e2 & [] & Hset0 & Hrun).
  apply scores_set_item_inv in Hset0 as (c2 & a2 & Hc2 & _ & Ha2 & ->).
  apply bind_inv in Hrun as (e3 & scores_now & [= <- <-] & Hrun).
  apply bind_inv in Hrun as (e3 & after & Hafter & Hrun).
  apply bind_inv in Hrun as (e4 & before & Hbefore & Hrun).
  injection Hrun as <- <- _.
  assert (e3 = with_last_scores a2 (with_last_scores a1 e)) as ->.
  { pose proof (read_only_estimated_skill (layer0 a2) subject
                  (with_last_scores a2 (with_last_scores a1 e))) as Hread.
    simpl in Hafter. now rewrite Hafter in Hread. }
  assert (e4 = with_last_scores a2 (with_last_scores a1 e)) as ->.
  { pose proof (read_only_estimated_skill (layer0 (last_scores e)) subject
                  (with_last_scores a2 (with_last_scores a1 e))) as Hread.
    now rewrite Hbefore in Hread. }
  assert (c1 = c) as -> by congruence.
  change (last_scores (with_last_scores a1 e)) with a1 in Hc2, Ha2.
  rewrite (cell_set_cell_eq _ _ _ _ _ Ha1) in Hc2. injection Hc2 as <-.
  exists mean, c. split; [exact Hmean |]. split; [exact Hc |]. split; [exact Hprevious |].
  exact (cell_set_cell_eq _ _ _ _ _ Ha2).
Qed.

Lemma record_keeps_counts (e : StudentEnv) (a : list (list (list Q)))
  (subject difficulty : nat) (c : list Q) (x y : Q) :
  nonneg_counters e ->
  cell (last_scores e) subject difficulty = Some c ->
  cell a subject difficulty = Some (<[0%nat := x]> (<[1%nat := y]> c)) ->
  (forall s d, s <> subject \/ d <> difficulty -> cell a s d = cell (last_scores e) s d) ->
  nonneg_counters (with_last_scores a e).
Proof.
  intros [Hcounter Hcounts] Hc Ha Hother. split; [exact Hcounter |].
  apply Forall_cells. intros s d c' Hc'. simpl in Hc'.
  destruct (decide (s = subject /\ d = difficulty)) as [[-> ->] | Hne].
  - rewrite Ha in Hc'. injection Hc' as <-. simpl.
    unfold counts_slice. rewrite !drop_insert_lt by lia.
    exact (cell_Forall _ _ _ _ _ Hcounts Hc).
  - rewrite Hother in Hc' by (destruct (decide (s = subject)); [right; intros ->; tauto | now left]).
    exact (cell_Forall _ _ _ _ _ Hcounts Hc').
Qed.

(** ** The estimates that an attribution returns *)

Lemma attribute_types_values (e : StudentEnv) (subject difficulty : nat) (new_gain : Q)
  (row : list Q) :
  cell (train_counter e) subject difficulty = Some row ->
  Forall (Qle 0) row ->
  forall (elems : list (Q * Q)) (idx : nat) (result : list Q) (ratio : ndvalue),
    (idx + length elems <= length row)%nat ->
    (idx + length elems <= length result)%nat ->
    Forall (fun p => 0 <= snd p) elems ->
    exists result' ratio',
      attribute_types subject difficulty new_gain idx elems result ratio e
      = (e, Ok (result', ratio')) /\
      length result' = length result /\
      (forall j, (j < idx)%nat -> result' !! j = result !! j) /\
      (forall k last_avg r counter,
         elems !! k = Some (last_avg, r) -> row !! (idx + k)%nat = Some counter ->
         result' !! (idx + k)%nat
         = Some (if Qeq_bool counter 0 then new_gain
                 else (last_avg * counter + new_gain * r) / (counter + r))).
Proof.
  intros Hrow Hnonneg elems.
  induction elems as [| [last_avg r] rest IH]; intros idx result ratio Hidx Hres Hr.
  - exists result, ratio. split; [reflexivity |]. split; [reflexivity |].
    split; [reflexivity |]. intros k ? ? ? Hk. discriminate Hk.
  - simpl in Hidx, Hres. inversion Hr as [| p ps Hr0 Hrest]; subst. simpl in Hr0.
    destruct (lookup_lt_is_Some_2 row idx) as [counter Hcounter]; [lia |].
    pose proof (Forall_lookup_1 _ _ _ _ Hnonneg Hcounter) as Hcounter_pos.
    set (x := if Qeq_bool counter 0 then new_gain
              else (last_avg * counter + new_gain * r) / (counter + r)).
    assert (Hx : (if Qeq_bool counter 0 then ret new_gain
                  else reading (fun _ => np_average last_avg new_gain counter r)) e
                 = (e, Ok x)).
    { unfold x. destruct (Qeq_bool counter 0) eqn:Hzero; [reflexivity |].
      apply Qeq_bool_neq in Hzero. unfold reading, np_average.
      replace (Qeq_bool (counter + r) 0) with false; [reflexivity |].
      symmetry. apply not_true_iff_false. rewrite Qeq_bool_iff. lra. }
    destruct (IH (S idx) (<[idx := x]> result) (Scalar r))
      as (result' & ratio' & Hrun & Hlen & Hbefore & Hvalues);
      [lia | rewrite length_insert; lia | exact Hrest |].
    exists result', ratio'. split; [| split; [| split]].
    + assert (Hset : set_item result idx x = Some (<[idx := x]> result)).
      { unfold set_item. destruct (lookup_lt_is_Some_2 result idx) as [y Hy]; [lia |].
        now rewrite Hy. }
      cbn [attribute_types].
      step_with (eq_refl (e, Ok e)).
      step_with (orRaise_run IndexError _ row e Hrow).
      step_with (orRaise_run IndexError _ counter e Hcounter).
      step_with Hx.
      step_with (orRaise_run IndexError _ _ e Hset).
      exact Hrun.
    + now rewrite Hlen, length_insert.
    + intros j Hj. rewrite Hbefore by lia. apply list_lookup_insert_ne. lia.
    + intros [| k] last_avg' r' counter' Hk Hcounter'.
      * simpl in Hk. injection Hk as <- <-. rewrite Nat.add_0_r in *.
        rewrite Hbefore by lia. rewrite list_lookup_insert_eq by lia.
        assert (counter' = counter) as -> by congruence. reflexivity.
      * simpl in Hk. replace (idx + S k)%nat with (S idx + k)%nat in * by lia.
        exact (Hvalues k last_avg' r' counter' Hk Hcounter').
Qed.

(** The estimate that an attribution returns for a learning type: the
    improvement per training when the attribution counter of the type at
    the cell is zero, and otherwise the average of the stored estimate and
    of the improvement per training, weighted by the counter and by the
    share of the type among the trainings since the last test. *)
Theorem attribution_weighs_stored_estimate_by_counter (e : StudentEnv)
  (subject difficulty : nat) (improvement : Q) (c row : list Q) :
  well_formed e -> nonneg_counters e ->
  (0 < learning_type_number e <= difficulties_levels e)%nat ->
  cell (last_scores e) subject difficulty = Some c ->
  cell (train_counter e) subject difficulty = Some row ->
  0 < np_sum (counts_slice (learning_type_number e) c) ->
  exists (t : list (list (list Q))) (result : list Q),
    _get_mean_type_gain subject difficulty improvement e
    = (with_train_counter t e, Ok (Fresh result)) /\
    length result = learning_type_number e /\
    forall (idx : nat) (stored count counter : Q),
      tail_slice (learning_type_number e) c !! idx = Some stored ->
      counts_slice (learning_type_number e) c !! idx = Some count ->
      row !! idx = Some counter ->
      result !! idx
      = Some (if Qeq_bool counter 0
              then improvement / np_sum (counts_slice (learning_type_number e) c)
              else (stored * counter
                    + improvement / np_sum (counts_slice (learning_type_number e) c)
                      * (count / np_sum (counts_slice (learning_type_number e) c)))
                   / (counter + count / np_sum (counts_slice (learning_type_number e) c))).
Proof.
  intros Hwf [Hcounter Hcounts] [Hpos Hle] Hc Hrow Htotal.
  set (n := learning_type_number e) in *.
  pose proof (cell_shape _ _ _ _ _ _ _ (wf_scores e Hwf) Hc) as (Hs & Hd & Hlen). fold n in Hlen.
  pose proof (cell_shape _ _ _ _ _ _ _ (wf_counter e Hwf) Hrow) as (_ & _ & Hrow_len).
  fold n in Hrow_len.
  set (total := np_sum (counts_slice n c)) in *.
  set (shares := map (fun x => x / total) (counts_slice n c)).
  set (elems := zip (tail_slice n c) shares).
  assert (Helems : length elems = n) by now apply counts_shares_length.
  destruct (attribute_types_values e subject difficulty (improvement / total) row Hrow
              (cell_Forall _ _ _ _ _ Hcounter Hrow) elems 0 (replicate n (- (1)))
              (Vector shares))
    as (result & ratio' & Hloop & Hresult_len & _ & Hvalues).
  { lia. }
  { rewrite length_replicate. lia. }
  { apply zip_snd_nonneg, shares_nonneg; [| exact Htotal].
    exact (cell_Forall _ _ _ _ _ Hcounts Hc). }
  assert (Hscalar : exists r, ratio' = Scalar r).
  { destruct (attribute_types_run e subject difficulty (improvement / total) row Hrow
                (cell_Forall _ _ _ _ _ Hcounter Hrow) elems 0 (replicate n (- (1)))
                (Vector shares)) as (result0 & ratio0 & Hloop0 & _ & Hratio); [lia | | |].
    - rewrite length_replicate. lia.
    - apply zip_snd_nonneg, shares_nonneg; [| exact Htotal].
      exact (cell_Forall _ _ _ _ _ Hcounts Hc).
    - rewrite Hloop in Hloop0. injection Hloop0 as _ <-.
      destruct Hratio as [[Hnil _] | Hr]; [| exact Hr].
      rewrite Hnil in Helems. simpl in Helems. lia. }
  destruct Hscalar as [r ->].
  destruct (counter_add_loop_run e subject n r (wf_counter e Hwf) Hs Hle)
    as (e' & Hadd & Hframe & _).
  exists (train_counter e'), result. split; [| split].
  - unfold _get_mean_type_gain.
    step_with (eq_refl (e, Ok e)).
    step_with (scores_cell_run e subject difficulty c Hc).
    fold n. fold total. apply Qlt_bool_iff in Htotal. rewrite Htotal.
    fold shares. fold elems. step_with Hloop. cbn [fst snd].
    step_with Hadd. unfold counter_only in Hframe. now rewrite <- Hframe.
  - now rewrite Hresult_len, length_replicate.
  - intros idx stored count counter Hstored Hcount Hcounter_idx.
    apply (Hvalues idx stored (count / total) counter); [| exact Hcounter_idx].
    unfold elems. apply lookup_zip_Some. split; [exact Hstored |].
    unfold shares. now rewrite list_lookup_fmap, Hcount.
Qed.

Lemma weighed_env_well_formed : well_formed weighed_env.
Proof. concrete_well_formed. Qed.

Lemma weighed_env_nonneg : nonneg_counters weighed_env.
Proof. concrete_nonneg. Qed.

Lemma attribution_weighs_stored_estimate_by_counter_witness :
  exists (c : list Q) (t : list (list (list Q))) (result : list Q) (stored count total : Q),
    cell (last_scores weighed_env) 0 0 = Some c /\
    cell (train_counter weighed_env) 0 0 = Some [1; 1; 1] /\
    tail_slice 3 c !! 1%nat = Some stored /\
    counts_slice 3 c !! 1%nat = Some count /\
    total = np_sum (counts_slice 3 c) /\ 0 < total /\
    _get_mean_type_gain 0 0 8 weighed_env
    = (with_train_counter t weighed_env, Ok (Fresh result)) /\
    result !! 1%nat
    = Some ((stored * 1 + 8 / total * (count / total)) / (1 + count / total)).
Proof.
  assert (Hcell : exists c stored count,
             cell (last_scores weighed_env) 0 0 = Some c /\
             tail_slice 3 c !! 1%nat = Some stored /\
             counts_slice 3 c !! 1%nat = Some count /\
             0 < np_sum (counts_slice 3 c)).
  { vm_compute. eexists _, _, _. repeat split; reflexivity. }
  destruct Hcell as (c & stored & count & Hc & Hstored & Hcount & Htotal).
  destruct (attribution_weighs_stored_estimate_by_counter weighed_env 0 0 8 c [1; 1; 1]
              weighed_env_well_formed weighed_env_nonneg ltac:(vm_compute; lia) Hc eq_refl
              Htotal)
    as (t & result & Hrun & _ & Hvalues).
  exists c, t, result, stored, count, (np_sum (counts_slice 3 c)).
  split; [exact Hc |]. split; [reflexivity |]. split; [exact Hstored |].
  split; [exact Hcount |]. split; [reflexivity |]. split; [exact Htotal |].
  split; [exact Hrun |].
  exact (Hvalues 1%nat stored count 1 Hstored Hcount eq_refl).
Defined.

(** ** The cell that a bypassed training writes *)

(** When a training step of [StudentEnvBypass] draws a learning type
    that the environment does not have, which
    [np.random.choice(self.difficulties_levels, ...)] can do with fewer
    learning types than difficulty levels, the training is not rejected.  For
    a subject below 3 and a drawn index below 3, the size of the skill-gain
    profile, and below twice the number of learning types, so that field
    [2 + drawn] exists, the step returns, and the field it increments is not
    a count of trainings but one of the gain estimates of the cell. *)
Theorem bypass_training_with_a_foreign_type_writes_an_estimate `{Externals}
  (b : StudentEnvBypass) (subject test_difficulty learning_types learning_difficulty : Z)
  (u z : Q) (drawn : nat) :
  one_estimate_per_subject ->
  well_formed (base b) -> profile_ok (mean_skill_gains (base b)) ->
  contains (action_space (base b))
           [0%Z; subject; test_difficulty; learning_types; learning_difficulty] = true ->
  (subject < 3)%Z ->
  random_choice (difficulties_levels (base b)) (prob_ratio b) u = Ok drawn ->
  (learning_type_number (base b) <= drawn)%nat ->
  (drawn < 3)%nat ->
  (drawn < 2 * learning_type_number (base b))%nat ->
  exists (b' : StudentEnvBypass) (out : step_result) (c : list Q) (count : Q),
    cell (last_scores (base b)) (Z.to_nat subject) (Z.to_nat learning_difficulty) = Some c /\
    c !! (2 + drawn)%nat = Some count /\
    bypass_step [0%Z; subject; test_difficulty; learning_types; learning_difficulty] u z b
    = (b', Ok out) /\
    cell (last_scores (base b')) (Z.to_nat subject) (Z.to_nat learning_difficulty)
    = Some (<[(2 + drawn)%nat := count + 1]> c) /\
    counts_slice (learning_type_number (base b)) (<[(2 + drawn)%nat := count + 1]> c)
    = counts_slice (learning_type_number (base b)) c /\
    tail_slice (learning_type_number (base b)) (<[(2 + drawn)%nat := count + 1]> c)
      !! (drawn - learning_type_number (base b))%nat
    = Some (count + 1).
Proof.
  intros Hone Hwf Hprofile Hvalid Hsubject Hdrawn Hforeign Hprofiled Hfield.
  destruct b as [e p]. simpl in *.
  destruct (contains_components _ _ _ _ _ _ Hwf Hvalid) as (_ & Hs & _ & Ht & Hd).
  set (la := new_log 0 subject learning_difficulty).
  set (e_log := with_last_action (Some la) e).
  assert (Hwf_log : well_formed e_log) by now apply well_formed_with_last_action.
  destruct (profile_lookup _ (Z.to_nat subject) drawn Hprofile ltac:(lia) ltac:(lia))
    as (gains & mean_gain & Hgains & Hmean & _).
  destruct (lookup_lt_is_Some_2 (skills_levels e) (Z.to_nat subject)) as [skill Hskill];
    [rewrite (wf_skills e Hwf); lia |].
  destruct (lookup_lt_is_Some_2 (cumulative_train_time e) (Z.to_nat subject))
    as [time Htime]; [rewrite (wf_train_time e Hwf); lia |].
  destruct (cell_in_shape _ _ _ _ (Z.to_nat subject) (Z.to_nat learning_difficulty)
              (wf_scores e Hwf) ltac:(lia) ltac:(lia)) as (c & Hc & Hlen).
  destruct (lookup_lt_is_Some_2 c (2 + drawn)) as [count Hcount]; [lia |].
  destruct (train_run e_log (Z.to_nat subject) drawn (Z.to_nat learning_difficulty) z la
              skill mean_gain time gains c count Hone Hwf_log Hprofile ltac:(simpl; lia)
              eq_refl Hgains Hmean Hskill Htime Hc Hcount)
    as (a & penalty & _ & Ha & Htrain).
  match type of Htrain with _ = (?st, _) => set (e_t := st) in * end.
  eexists _, _, c, count. split; [exact Hc |]. split; [exact Hcount |].
  split; [| split; [| split]].
  - unfold bypass_step, inherited, bind, get, raise, modify, reading, ret.
    simpl. rewrite Hvalid. simpl. rewrite Hdrawn. simpl.
    fold la. fold e_log. rewrite Htrain. simpl. reflexivity.
  - simpl. exact (cell_set_cell_eq _ _ _ _ _ Ha).
  - unfold counts_slice. rewrite drop_insert_ge by lia. rewrite take_insert_ge by lia.
    reflexivity.
  - unfold tail_slice, tail_start.
    destruct (learning_type_number e =? 0)%nat eqn:Hzero; [apply Nat.eqb_eq in Hzero; lia |].
    rewrite lookup_drop, length_insert, Hlen.
    replace (2 * learning_type_number e + 2 - learning_type_number e
             + (drawn - learning_type_number e))%nat with (2 + drawn)%nat by lia.
    apply list_lookup_insert_eq. exact (lookup_lt_Some _ _ _ Hcount).
Qed.

Lemma two_type_env_well_formed : well_formed two_type_env.
Proof. concrete_well_formed. Qed.

Lemma bypass_training_with_a_foreign_type_writes_an_estimate_witness :
  random_choice 3 (prob_ratio (StudentEnvBypass_init two_type_env None)) (95 # 100)
  = Ok 2%nat /\
  exists (b' : StudentEnvBypass) (out : step_result),
    @bypass_step sample_externals [0; 1; 0; 0; 0]%Z (95 # 100) 0
      (StudentEnvBypass_init two_type_env None) = (b', Ok out) /\
    cell (last_scores (base b')) 1 0 = Some [0; 0; 0; 0; 0 + 1; 0].
Proof.
  split; [reflexivity |].
  destruct (@bypass_training_with_a_foreign_type_writes_an_estimate sample_externals
              (StudentEnvBypass_init two_type_env None) 1 0 0 0 (95 # 100) 0 2
              sample_one_estimate
              (well_formed_with_last_action _ None two_type_env_well_formed)
              (profile_generated 2 2 (still_draws 1))
              eq_refl ltac:(lia) eq_refl ltac:(vm_compute; lia) ltac:(lia)
              ltac:(vm_compute; lia))
    as (b' & out & c & count & Hc & Hcount & Hstep & Hcell & _).
  assert (Hc0 : cell (last_scores (base (StudentEnvBypass_init two_type_env None)))
                     (Z.to_nat 1) (Z.to_nat 0)
                = Some (replicate 6 0)) by reflexivity.
  rewrite Hc0 in Hc. injection Hc as <-.
  change (Some (0 : Q) = Some count) in Hcount. injection Hcount as <-.
  exists b', out. split; [exact Hstep | exact Hcell].
Defined.

(** * Tests that return and tests that raise

    A test of a cell that counts trainings runs the counter loop of
    [_get_mean_type_gain], [for d in range(self.learning_type_number)], on
    the difficulty axis of [train_counter]: with more learning types than
    difficulty levels the loop leaves the array and the test raises.  Every
    other test returns. *)

(** ** When a test returns *)

Lemma counted_or_untrained (e : StudentEnv) (subject difficulty : nat) (c : list Q) :
  cell (last_scores e) subject difficulty = Some c ->
  0 < np_sum (counts_slice (learning_type_number e) c) \/ untrained_cell e subject difficulty.
Proof.
  intros Hc.
  destruct (Qlt_le_dec 0 (np_sum (counts_slice (learning_type_number e) c))) as [Hpos | Hle];
    [now left | right].
  intros c' Hc'. assert (c' = c) as -> by congruence. exact Hle.
Qed.

Lemma test_raises `{Externals} (e : StudentEnv) (subject difficulty : nat) (z : Q)
  (c : list Q) :
  one_estimate_per_subject -> well_formed e -> nonneg_counters e ->
  (difficulties_levels e < learning_type_number e)%nat ->
  (subject < num_subjects e)%nat -> (difficulty < difficulties_levels e)%nat ->
  cell (last_scores e) subject difficulty = Some c ->
  0 < np_sum (counts_slice (learning_type_number e) c) ->
  exists (a t : list (list (list Q))) (sampled previous : Q),
    _test subject difficulty z e
    = (with_train_counter t (with_last_scores a e), Raise IndexError) /\
    c !! 0%nat = Some previous /\ 0 <= sampled <= 100 /\
    cell a subject difficulty
    = Some (<[0%nat := sampled]> (<[1%nat := sampled - previous]> c)) /\
    (forall s d, s <> subject \/ d <> difficulty -> cell a s d = cell (last_scores e) s d).
Proof.
  intros Hone Hwf Hnonneg Hmore Hs Hd Hc Htotal.
  destruct (record_test_score_run e subject difficulty z Hone Hwf Hs Hd)
    as (c0 & a & sampled & previous & improvement
        & Hc0 & Hprevious & Hsampled & Hshape & Hcell & Hother & Hrecord).
  assert (c0 = c) as -> by congruence.
  set (e_mid := with_last_scores a e) in *.
  assert (Hwf_mid : well_formed e_mid) by now apply well_formed_with_last_scores.
  pose proof (record_keeps_counts e a subject difficulty c _ _ Hnonneg Hc Hcell Hother)
    as Hnonneg_mid.
  destruct (get_mean_type_gain_raises e_mid subject difficulty improvement _
              Hwf_mid Hnonneg_mid Hmore Hd Hcell) as [t Hgain].
  { simpl. unfold counts_slice. rewrite !drop_insert_lt by lia. exact Htotal. }
  exists a, t, sampled, previous.
  split; [| split; [exact Hprevious | split; [exact Hsampled | split; [exact Hcell | exact Hother]]]].
  unfold _test. step_with Hrecord. simpl snd.
  exact (bind_raise _ _ _ _ _ Hgain).
Qed.

Lemma test_returned `{Externals} (e e' : StudentEnv) (subject difficulty : nat) (z r : Q) :
  one_estimate_per_subject -> well_formed e -> nonneg_counters e ->
  (subject < num_subjects e)%nat -> (difficulty < difficulties_levels e)%nat ->
  _test subject difficulty z e = (e', Ok r) ->
  (learning_type_number e <= difficulties_levels e)%nat \/ untrained_cell e subject difficulty.
Proof.
  intros Hone Hwf Hnonneg Hs Hd Htest.
  destruct (le_lt_dec (learning_type_number e) (difficulties_levels e)) as [Hle | Hmore];
    [now left |].
  destruct (cell_in_shape _ _ _ _ subject difficulty (wf_scores e Hwf) Hs Hd) as (c & Hc & _).
  destruct (counted_or_untrained e subject difficulty c Hc) as [Htotal | Huntrained];
    [| now right].
  destruct (test_raises e subject difficulty z c Hone Hwf Hnonneg Hmore Hs Hd Hc Htotal)
    as (a & t & sampled & previous & Hraise & _).
  rewrite Hraise in Htest. discriminate Htest.
Qed.

(** ** What a step that returned has run *)

Lemma step_test_inv `{Externals} (e e' : StudentEnv)
  (subject test_difficulty learning_types learning_difficulty : Z) (z : Q)
  (out : step_result) :
  step [1%Z; subject; test_difficulty; learning_types; learning_difficulty] z e
  = (e', Ok out) ->
  contains (action_space e)
           [1%Z; subject; test_difficulty; learning_types; learning_difficulty] = true /\
  exists (e_t : StudentEnv) (r_test : Q) (tops : list Q),
    _test (Z.to_nat subject) (Z.to_nat test_difficulty) z
          (with_last_action (Some (new_log 1 subject test_difficulty)) e)
    = (e_t, Ok r_test) /\
    last_scores e' = last_scores e_t /\
    top_scores (last_scores e') = Some tops /\
    is_Some (cumulative_train_time e !! Z.to_nat subject) /\
    out = {| observation := last_scores e';
             reward := (if forallb (fun x => Qlt_bool TARGET_SCORE x) tops
                        then r_test + REWARD_FOR_ACHIEVING_ALL_LEVELS else r_test)
                       + - np_sqrt (Qnat (step_num e));
             is_done := if forallb (fun x => Qlt_bool TARGET_SCORE x) tops
                        then 1%Z else 0%Z |}.
Proof.
  intros Hstep.
  destruct (contains (action_space e)
              [1%Z; subject; test_difficulty; learning_types; learning_difficulty]) eqn:Hvalid.
  2: { unfold step in Hstep. rewrite (bind_ok _ _ e e e eq_refl), Hvalid in Hstep.
       discriminate Hstep. }
  split; [reflexivity |].
  unfold step in Hstep.
  rewrite (bind_ok _ _ e e e eq_refl), Hvalid in Hstep.
  cbv beta iota zeta delta [negb Z.eqb] in Hstep.
  rewrite (bind_ok _ _ e (with_last_action _ e) tt eq_refl) in Hstep.
  set (e_log := with_last_action _ e) in Hstep.
  apply bind_inv in Hstep as (e2 & outcome & Hbranch & Hfinish).
  unfold test_branch in Hbranch.
  apply bind_inv in Hbranch as (e_t & r & Htest & Hbranch).
  apply bind_inv in Hbranch as (e_r & [] & Hreset & Hbranch).
  apply bind_inv in Hbranch as (e_a & achieved & Hall & Hret).
  unfold all_levels_achieved in Hall.
  destruct (top_scores (last_scores e_r)) as [tops |] eqn:Htops; [| discriminate Hall].
  injection Hall as <- <-.
  unfold reset_train_time in Hreset.
  destruct (cumulative_train_time e_t !! Z.to_nat subject) as [time |] eqn:Htime;
    [| discriminate Hreset].
  injection Hreset as <-.
  destruct (test_frame e_log (Z.to_nat subject) (Z.to_nat test_difficulty) z)
    as (_ & Hkept & Hnum & _).
  rewrite Htest in Hkept, Hnum. simpl in Hkept, Hnum.
  unfold finish_step in Hfinish.
  apply bind_inv in Hfinish as (e0 & e0' & [= <- <-] & Hfinish).
  apply bind_inv in Hfinish as (e3 & [] & Hlog & Hfinish).
  apply log_update_inv in Hlog as (la & _ & ->).
  exists e_t, r, tops.
  split; [exact Htest |].
  assert (Hstate : e2 = with_cumulative_train_time
                          (<[Z.to_nat subject := 0]> (cumulative_train_time e_t)) e_t /\
                   outcome = (if forallb (fun x => Qlt_bool TARGET_SCORE x) tops
                              then r + REWARD_FOR_ACHIEVING_ALL_LEVELS else r,
                              if forallb (fun x => Qlt_bool TARGET_SCORE x) tops
                              then 1%Z else 0%Z)).
  { destruct (forallb (fun x => Qlt_bool TARGET_SCORE x) tops);
      injection Hret as <- <-; now split. }
  destruct Hstate as [-> ->].
  injection Hfinish as <- <-. simpl. simpl in Htops.
  split; [reflexivity |]. split; [exact Htops |].
  split; [rewrite <- Hkept; now exists time |].
  rewrite Hnum. reflexivity.
Qed.

Lemma train_inv `{Externals} (subject learning_type learning_difficulty : nat) (z : Q)
  (e e' : StudentEnv) (r : Q) :
  _train subject learning_type learning_difficulty z e = (e', Ok r) -> r = 0.
Proof.
  unfold _train. intros Hrun.
  repeat (apply bind_inv in Hrun as (? & ? & _ & Hrun); cbv beta zeta in Hrun).
  destruct (_ && _) in Hrun; now injection Hrun as _ <-.
Qed.

Lemma step_train_inv `{Externals} (e e' : StudentEnv)
  (subject test_difficulty learning_types learning_difficulty : Z) (z : Q)
  (out : step_result) :
  step [0%Z; subject; test_difficulty; learning_types; learning_difficulty] z e
  = (e', Ok out) ->
  contains (action_space e)
           [0%Z; subject; test_difficulty; learning_types; learning_difficulty] = true /\
  exists e_t : StudentEnv,
    _train (Z.to_nat subject) (Z.to_nat learning_types) (Z.to_nat learning_difficulty) z
           (with_last_action (Some (new_log 0 subject learning_difficulty)) e)
    = (e_t, Ok 0) /\
    last_scores e' = last_scores e_t /\
    out = {| observation := last_scores e';
             reward := 0 + - np_sqrt (Qnat (step_num e));
             is_done := 0%Z |}.
Proof.
  intros Hstep.
  destruct (contains (action_space e)
              [0%Z; subject; test_difficulty; learning_types; learning_difficulty]) eqn:Hvalid.
  2: { unfold step in Hstep. rewrite (bind_ok _ _ e e e eq_refl), Hvalid in Hstep.
       discriminate Hstep. }
  split; [reflexivity |].
  unfold step in Hstep.
  rewrite (bind_ok _ _ e e e eq_refl), Hvalid in Hstep.
  cbv beta iota zeta delta [negb Z.eqb] in Hstep.
  rewrite (bind_ok _ _ e (with_last_action _ e) tt eq_refl) in Hstep.
  set (e_log := with_last_action _ e) in Hstep.
  apply bind_inv in Hstep as (e2 & outcome & Hbranch & Hfinish).
  apply bind_inv in Hbranch as (e_t & r & Htrain & Hret).
  injection Hret as <- <-.
  pose proof (train_inv _ _ _ _ _ _ _ Htrain) as ->.
  assert (Hnum : step_num e_t = step_num e).
  { set (K := fun e1 : StudentEnv => step_num e1 = step_num e).
    assert (Hkept : K (fst (_train (Z.to_nat subject) (Z.to_nat learning_types)
                                   (Z.to_nat learning_difficulty) z e_log))).
    { apply (yields_state K _ (fun _ => True)); [apply kept_train; now unfold K |].
      reflexivity. }
    now rewrite Htrain in Hkept. }
  unfold finish_step in Hfinish.
  apply bind_inv in Hfinish as (e0 & e0' & [= <- <-] & Hfinish).
  apply bind_inv in Hfinish as (e3 & [] & Hlog & Hfinish).
  apply log_update_inv in Hlog as (la & _ & ->).
  exists e_t. split; [exact Htrain |].
  injection Hfinish as <- <-. simpl.
  split; [reflexivity |]. now rewrite Hnum.
Qed.

Lemma test_inv `{Externals} (subject difficulty : nat) (z : Q) (e e' : StudentEnv) (r : Q) :
  _test subject difficulty z e = (e', Ok r) ->
  exists (e_mid e_attr e_prop : StudentEnv) (previous improvement : Q) (g : type_gain),
    record_test_score subject difficulty z e = (e_mid, Ok (previous, improvement)) /\
    _get_mean_type_gain subject difficulty improvement e_mid = (e_attr, Ok g) /\
    propagate_type_gain g subject e_attr = (e_prop, Ok tt) /\
    test_reward subject difficulty previous e_prop = (e', Ok r).
Proof.
  unfold _test. intros Hrun.
  apply bind_inv in Hrun as (e_mid & [previous improvement] & Hrecord & Hrun).
  apply bind_inv in Hrun as (e_attr & g & Hgain & Hrun).
  apply bind_inv in Hrun as (e_prop & [] & Hprop & Hreward).
  now exists e_mid, e_attr, e_prop, previous, improvement, g.
Qed.

(** The reward of a test that returned, from the score the tested cell
    holds after it, the score it held before and the subject's train time
    before it. *)
Lemma test_reward_of_returned `{Externals} (subject difficulty : nat) (z : Q)
  (e e' : StudentEnv) (r time : Q) :
  _test subject difficulty z e = (e', Ok r) ->
  cumulative_train_time e !! subject = Some time ->
  exists (previous score : Q) (c c' : list Q),
    cell (last_scores e) subject difficulty = Some c /\ c !! 0%nat = Some previous /\
    cell (last_scores e') subject difficulty = Some c' /\ c' !! 0%nat = Some score /\
    r == (if Qeq_bool time 0 then TIME_PENALTY_FOR_TEST
          else if Qle_bool TARGET_SCORE score
               then if Qlt_bool previous TARGET_SCORE
                    then REWARD_FOR_ACHIEVING_TARGET_LEVEL * Qnat (difficulty + 1)
                         / Qnat (difficulties_levels e)
                    else PENALTY_FOR_UNNECESSARY_TEST
               else TIME_PENALTY_FOR_TEST).
Proof.
  intros Htest Htime.
  destruct (test_frame e subject difficulty z) as (_ & Hkept & _ & Hconf).
  rewrite Htest in Hkept, Hconf. simpl in Hkept, Hconf.
  destruct Hconf as (_ & Hlevels & _).
  destruct (test_inv _ _ _ _ _ _ Htest)
    as (e_mid & e_attr & e_prop & previous & improvement & g
        & Hrecord & Hgain & Hprop & Hreward).
  destruct (record_test_score_inv _ _ _ _ _ _ _ Hrecord) as (mean & c & _ & Hc & Hprevious & _).
  assert (Hlevels_prop : difficulties_levels e_prop = difficulties_levels e').
  { apply test_reward_inv in Hreward as (_ & _ & _ & _ & _ & _ & _ & _ & _ & Hsame & _).
    now symmetry. }
  apply test_reward_inv in Hreward
    as (c2 & c' & score & time' & _ & _ & Hc' & Hscore & Htime' & _ & Hr).
  rewrite Hkept, Htime in Htime'. injection Htime' as <-.
  exists previous, score, c, c'.
  split; [exact Hc |]. split; [exact Hprevious |]. split; [exact Hc' |].
  split; [exact Hscore |]. now rewrite Hr, Hlevels_prop, Hlevels.
Qed.

Lemma lopsided_trained_env_well_formed : well_formed lopsided_trained_env.
Proof. concrete_well_formed. Qed.

Lemma lopsided_trained_env_nonneg : nonneg_counters lopsided_trained_env.
Proof. concrete_nonneg. Qed.

Lemma lopsided_trained_env_untrained : untrained_cell lopsided_trained_env 0 0.
Proof.
  assert (Hcell : exists c0, cell (last_scores lopsided_trained_env) 0 0 = Some c0 /\
                             np_sum (counts_slice 3 c0) == 0)
    by (vm_compute; eexists; split; reflexivity).
  destruct Hcell as (c0 & Hc0 & Hsum).
  intros c Hc. rewrite Hc0 in Hc. injection Hc as <-.
  change (learning_type_number lopsided_trained_env) with 3%nat.
  rewrite Hsum. apply Qle_refl.
Qed.

Lemma retested_env_well_formed : well_formed retested_env.
Proof. concrete_well_formed. Qed.

Lemma retested_env_nonneg : nonneg_counters retested_env.
Proof. concrete_nonneg. Qed.

Lemma retested_env_untrained : untrained_cell retested_env 0 0.
Proof.
  assert (Hcell : exists c0, cell (last_scores retested_env) 0 0 = Some c0 /\
                             np_sum (counts_slice 3 c0) == 0)
    by (vm_compute; eexists; split; reflexivity).
  destruct Hcell as (c0 & Hc0 & Hsum).
  intros c Hc. rewrite Hc0 in Hc. injection Hc as <-.
  change (learning_type_number retested_env) with 3%nat.
  rewrite Hsum. apply Qle_refl.
Qed.

(** ** The claims about tests *)

(** C3 on [retested_env], an environment of one subject, two difficulty
    levels and three learning types after a training at difficulty 1 and a
    test at difficulty 0.  The train time of the subject is 0, yet the test
    at difficulty 1 does not return -2: it raises [IndexError], in [_test]
    and so in [step], because the cell counts a training and the counter
    loop of [_get_mean_type_gain] runs over three rows of a difficulty axis
    of two. *)
Theorem untrained_test_raises_with_more_types_than_levels :
  cumulative_train_time retested_env !! 0%nat = Some 0 /\
  contains (action_space retested_env) [1; 0; 1; 0; 0]%Z = true /\
  (exists e', @_test sample_externals 0 1 0 retested_env = (e', Raise IndexError)) /\
  (exists e', @step sample_externals [1; 0; 1; 0; 0]%Z 0 retested_env
              = (e', Raise IndexError)).
Proof.
  split; [reflexivity |]. split; [reflexivity |].
  split; vm_compute; eexists; reflexivity.
Qed.

(** Where [_test] returns, a test of a subject whose
    [cumulative_train_time] is 0 when it is tested returns
    [TIME_PENALTY_FOR_TEST], that is -2, whatever the deviate of the sampled
    score and whatever the scores stored before; and [_test] returns with
    this value in every environment with a learning type and no more
    learning types than difficulty levels, and on every cell without a
    training since its last test. *)
Theorem untrained_test_returns_time_penalty `{Externals} (e : StudentEnv)
  (subject difficulty : nat) (z : Q) (time : Q) :
  cumulative_train_time e !! subject = Some time -> time == 0 ->
  TIME_PENALTY_FOR_TEST == - (2) /\
  (forall (e' : StudentEnv) (r : Q),
     _test subject difficulty z e = (e', Ok r) -> r == TIME_PENALTY_FOR_TEST) /\
  (forall la : action_log,
     one_estimate_per_subject -> well_formed e -> nonneg_counters e ->
     (0 < learning_type_number e)%nat ->
     (subject < num_subjects e)%nat -> (difficulty < difficulties_levels e)%nat ->
     last_action e = Some la ->
     (learning_type_number e <= difficulties_levels e)%nat
     \/ untrained_cell e subject difficulty ->
     exists e', _test subject difficulty z e = (e', Ok TIME_PENALTY_FOR_TEST)).
Proof.
  intros Htime Hzero. split; [reflexivity |]. split.
  - intros e' r Htest.
    destruct (test_reward_of_returned _ _ _ _ _ _ _ Htest Htime)
      as (previous & score & c & c' & _ & _ & _ & _ & Hr).
    apply Qeq_bool_iff in Hzero. now rewrite Hzero in Hr.
  - intros la Hone Hwf Hnonneg Hpos Hs Hd Hla Hreach.
    destruct (test_run e subject difficulty z la time Hone Hwf Hnonneg Hpos Hreach Hs Hd
                Hla Htime)
      as (a1 & t & a3 & sampled & previous & improvement & r & g & v0
          & _ & _ & _ & Htest & _ & _ & _ & _ & Hr & _).
    rewrite (Hr Hzero) in Htest. eauto.
Qed.

Lemma untrained_test_returns_time_penalty_witness :
  cumulative_train_time retested_env !! 0%nat = Some 0 /\
  (difficulties_levels retested_env < learning_type_number retested_env)%nat /\
  exists e', @_test sample_externals 0 0 (3 # 2) retested_env
             = (e', Ok TIME_PENALTY_FOR_TEST).
Proof.
  split; [reflexivity |]. split; [vm_compute; lia |].
  assert (Hla : exists la, last_action retested_env = Some la)
    by (vm_compute; eexists; reflexivity).
  destruct Hla as [la Hla].
  destruct (@untrained_test_returns_time_penalty sample_externals retested_env 0 0 (3 # 2) 0
              eq_refl (Qeq_refl 0)) as (_ & _ & Hreturns).
  apply (Hreturns la sample_one_estimate retested_env_well_formed retested_env_nonneg).
  - vm_compute. lia.
  - vm_compute. lia.
  - vm_compute. lia.
  - exact Hla.
  - right. exact retested_env_untrained.
Defined.

(** C1, as the code has it.  On a test action, a [step] that returns
    sets the done flag if and only if, after the step's update, every
    subject's last score at the highest difficulty exceeds the target 95, and
    then its reward is the reward of the test plus the completion bonus 2000
    minus the step cost [sqrt(step_num)]; otherwise the flag is 0 and the
    reward is the reward of the test minus the step cost.  On a training
    action the flag is never set, whatever the scores.  A test step on a
    valid action returns in every environment with no more learning types
    than difficulty levels, and on every cell without a training since its
    last test. *)
Theorem done_iff_all_levels_achieved_on_test `{Externals} (e : StudentEnv)
  (subject test_difficulty learning_types learning_difficulty : Z) (z : Q) :
  (forall (e' : StudentEnv) (out : step_result),
     step [1%Z; subject; test_difficulty; learning_types; learning_difficulty] z e
     = (e', Ok out) ->
     exists (e_t : StudentEnv) (r_test : Q) (tops : list Q),
       _test (Z.to_nat subject) (Z.to_nat test_difficulty) z
             (with_last_action (Some (new_log 1 subject test_difficulty)) e)
       = (e_t, Ok r_test) /\
       top_scores (last_scores e') = Some tops /\
       (is_done out = 1%Z <-> Forall (fun x => TARGET_SCORE < x) tops) /\
       (is_done out = 1%Z ->
        reward out
        == r_test + REWARD_FOR_ACHIEVING_ALL_LEVELS - np_sqrt (Qnat (step_num e))) /\
       (is_done out <> 1%Z ->
        is_done out = 0%Z /\ reward out == r_test - np_sqrt (Qnat (step_num e)))) /\
  (forall (e' : StudentEnv) (out : step_result),
     step [0%Z; subject; test_difficulty; learning_types; learning_difficulty] z e
     = (e', Ok out) ->
     is_done out = 0%Z) /\
  (one_estimate_per_subject -> well_formed e -> nonneg_counters e ->
   contains (action_space e)
            [1%Z; subject; test_difficulty; learning_types; learning_difficulty] = true ->
   (learning_type_number e <= difficulties_levels e)%nat
   \/ untrained_cell e (Z.to_nat subject) (Z.to_nat test_difficulty) ->
   exists (e' : StudentEnv) (out : step_result),
     step [1%Z; subject; test_difficulty; learning_types; learning_difficulty] z e
     = (e', Ok out)).
Proof.
  split; [| split].
  - intros e' out Hstep.
    destruct (step_test_inv _ _ _ _ _ _ _ _ Hstep)
      as (_ & e_t & r_test & tops & Htest & _ & Htops & _ & ->).
    exists e_t, r_test, tops. split; [exact Htest |]. split; [exact Htops |].
    simpl. destruct (forallb (fun x => Qlt_bool TARGET_SCORE x) tops) eqn:Hall.
    + rewrite forallb_forall in Hall.
      split; [| split; [intros _; unfold Qminus; reflexivity | intros Hne; congruence]].
      split; [intros _ | reflexivity].
      apply Forall_forall. intros x Hx. apply Qlt_bool_iff, Hall.
      now apply list_elem_of_In.
    + split; [| split; [discriminate
                       | intros _; split; [reflexivity |]; unfold Qminus; reflexivity]].
      split; [discriminate |]. intros Hforall. exfalso.
      apply not_true_iff_false in Hall. apply Hall. apply forallb_forall.
      intros x Hx. apply Qlt_bool_iff. rewrite Forall_forall in Hforall.
      now apply Hforall, list_elem_of_In.
  - intros e' out Hstep.
    now destruct (step_train_inv _ _ _ _ _ _ _ _ Hstep) as (_ & e_t & _ & _ & ->).
  - intros Hone Hwf Hnonneg Hvalid Hreach.
    destruct (step_test_run e subject test_difficulty learning_types learning_difficulty z
                Hone Hwf Hnonneg Hreach Hvalid)
      as (e_t & e' & r_test & tops & _ & _ & _ & _ & Hstep).
    eexists _, _. exact Hstep.
Qed.

Lemma done_iff_all_levels_achieved_on_test_witness :
  (exists (e' : StudentEnv) (out : step_result) (tops : list Q),
     @step sample_externals [1; 0; 0; 0; 0]%Z 0 drilled_env = (e', Ok out) /\
     top_scores (last_scores e') = Some tops /\
     (is_done out = 1%Z <-> Forall (fun x => TARGET_SCORE < x) tops)) /\
  (difficulties_levels lopsided_trained_env < learning_type_number lopsided_trained_env)%nat /\
  exists (e' : StudentEnv) (out : step_result) (tops : list Q),
    @step sample_externals [1; 0; 0; 0; 0]%Z 0 lopsided_trained_env = (e', Ok out) /\
    top_scores (last_scores e') = Some tops /\
    (is_done out = 1%Z <-> Forall (fun x => TARGET_SCORE < x) tops).
Proof.
  split; [| split; [vm_compute; lia |]].
  - destruct (@done_iff_all_levels_achieved_on_test sample_externals drilled_env
                0 0 0 0 0) as (Hdone & _ & Hreturns).
    destruct (Hreturns sample_one_estimate drilled_env_well_formed drilled_env_nonneg
                eq_refl (or_introl (Nat.le_refl 1))) as (e' & out & Hstep).
    destruct (Hdone e' out Hstep) as (e_t & r_test & tops & _ & Htops & Hflag & _).
    exists e', out, tops. split; [exact Hstep |]. split; [exact Htops | exact Hflag].
  - destruct (@done_iff_all_levels_achieved_on_test sample_externals lopsided_trained_env
                0 0 0 0 0) as (Hdone & _ & Hreturns).
    destruct (Hreturns sample_one_estimate lopsided_trained_env_well_formed
                lopsided_trained_env_nonneg eq_refl
                (or_intror lopsided_trained_env_untrained)) as (e' & out & Hstep).
    destruct (Hdone e' out Hstep) as (e_t & r_test & tops & _ & Htops & Hflag & _).
    exists e', out, tops. split; [exact Hstep |]. split; [exact Htops | exact Hflag].
Defined.

(** C1 as it is stated fails on a training action: the subject of
    [passed_env] has score 100 at the highest difficulty, and still has after
    a training step, which returns the done flag 0. *)
Lemma training_step_after_completion_is_not_done :
  ~ (forall (e' : StudentEnv) (out : step_result) (tops : list Q),
       @step sample_externals [0; 0; 0; 0; 0]%Z 0 passed_env = (e', Ok out) ->
       top_scores (last_scores e') = Some tops ->
       (is_done out = 1%Z <-> Forall (fun x => TARGET_SCORE < x) tops)).
Proof.
  intros Hclaim.
  pose (run := @step sample_externals [0; 0; 0; 0; 0]%Z 0 passed_env).
  assert (Hrun : exists out, run = (fst run, Ok out) /\ is_done out = 0%Z).
  { vm_compute. eexists. split; reflexivity. }
  assert (Htops : exists tops, top_scores (last_scores (fst run)) = Some tops /\
                               forallb (fun x => Qlt_bool TARGET_SCORE x) tops = true).
  { vm_compute. eexists. split; reflexivity. }
  destruct Hrun as (out & Hrun & Hdone). destruct Htops as (tops & Htops & Hall).
  destruct (Hclaim _ out tops Hrun Htops) as [_ Hset].
  clear Hclaim Hrun Htops. clearbody run.
  assert (Hone : is_done out = 1%Z).
  { apply Hset. rewrite forallb_forall in Hall. apply Forall_forall. intros x Hx.
    apply Qlt_bool_iff, Hall. now apply list_elem_of_In. }
  rewrite Hdone in Hone. discriminate Hone.
Qed.

(** C10, as the code has it.  After a test of [(subject, difficulty)]
    that returns, the gain estimates of the tested subject are, in the row of
    every difficulty, the average with weights 1 and 0.5 of the newly
    computed attribution vector [v0] (what [_get_mean_type_gain] returned)
    with itself: the rows are overwritten with [v0] before the averaging.  In
    exact arithmetic that average is [v0], so the blend changes nothing for
    the tested subject; the estimates of every other subject are blended with
    their old values.  A test returns in every environment with no more
    learning types than difficulty levels, and on every cell without a
    training since its last test. *)
Theorem tested_subject_rows_hold_new_vector `{Externals} (e : StudentEnv)
  (subject difficulty : nat) (z : Q) (la : action_log) :
  one_estimate_per_subject -> well_formed e -> nonneg_counters e ->
  (0 < learning_type_number e)%nat ->
  (subject < num_subjects e)%nat -> (difficulty < difficulties_levels e)%nat ->
  last_action e = Some la ->
  ((learning_type_number e <= difficulties_levels e)%nat
   \/ untrained_cell e subject difficulty ->
   exists (e' : StudentEnv) (r : Q), _test subject difficulty z e = (e', Ok r)) /\
  forall (e' : StudentEnv) (r : Q),
    _test subject difficulty z e = (e', Ok r) ->
    exists (e_mid e_attr : StudentEnv) (previous improvement : Q)
           (g : type_gain) (v0 : list Q),
      record_test_score subject difficulty z e = (e_mid, Ok (previous, improvement)) /\
      _get_mean_type_gain subject difficulty improvement e_mid = (e_attr, Ok g) /\
      type_gain_value g e_attr = (e_attr, Ok v0) /\
      (forall d, (d < difficulties_levels e)%nat ->
         exists c', cell (last_scores e') subject d = Some c' /\
                    Forall2 Qeq (tail_slice (learning_type_number e) c')
                      (zip_with average_1_half v0 v0) /\
                    Forall2 Qeq (tail_slice (learning_type_number e) c') v0) /\
      (forall x : Q, average_1_half x x == x) /\
      (forall s d c0, s <> subject -> cell (last_scores e) s d = Some c0 ->
         exists c', cell (last_scores e') s d = Some c' /\
                    Forall2 Qeq (tail_slice (learning_type_number e) c')
                      (zip_with average_1_half (tail_slice (learning_type_number e) c0) v0)).
Proof.
  intros Hone Hwf Hnonneg Hpos Hs Hd Hla.
  destruct (lookup_lt_is_Some_2 (cumulative_train_time e) subject) as [time Htime].
  { now rewrite (wf_train_time e Hwf). }
  split.
  { intros Hreach.
    destruct (test_run e subject difficulty z la time Hone Hwf Hnonneg Hpos Hreach Hs Hd
                Hla Htime)
      as (a1 & t & a3 & sampled & previous & improvement & r & g & v0
          & _ & _ & _ & Htest & _).
    eexists _, _. exact Htest. }
  intros e' r Htest.
  pose proof (test_returned _ _ _ _ _ _ Hone Hwf Hnonneg Hs Hd Htest) as Hreach.
  destruct (test_run e subject difficulty z la time Hone Hwf Hnonneg Hpos Hreach Hs Hd
              Hla Htime)
    as (a1 & t & a3 & sampled & previous & improvement & r' & g & v0
        & Hrecord & Hgain & Hvalue & Htest' & _ & _ & _ & _ & _ & Hcells).
  rewrite Htest in Htest'. injection Htest' as -> _.
  eexists _, _, previous, improvement, g, v0.
  split; [exact Hrecord |]. split; [exact Hgain |]. split; [exact Hvalue |].
  simpl. split; [| split].
  - intros d Hd'.
    destruct (cell_in_shape _ _ _ _ subject d (wf_scores e Hwf) Hs Hd') as (c0 & Hc0 & _).
    destruct (Hcells subject d c0 Hc0) as (c' & Hc' & Htail & _).
    exists c'. split; [exact Hc' |]. unfold propagated in Htail.
    destruct (decide (subject = subject)); [| contradiction].
    split; [| exact Htail].
    eapply Qvec_trans; [exact Htail |]. apply Qvec_sym, zip_average_same, Qvec_refl.
  - intros x. now apply average_1_half_same.
  - intros s d c0 Hne Hc0. destruct (Hcells s d c0 Hc0) as (c' & Hc' & Htail & _).
    exists c'. split; [exact Hc' |]. unfold propagated in Htail.
    now destruct (decide (s = subject)).
Qed.

Lemma tested_subject_rows_hold_new_vector_witness :
  is_Some (last_action trained_env) /\
  exists (e' : StudentEnv) (r : Q) (v0 : list Q),
    @_test sample_externals 0 0 0 trained_env = (e', Ok r) /\
    forall d, (d < 3)%nat ->
      exists c', cell (last_scores e') 0 d = Some c' /\ Forall2 Qeq (tail_slice 3 c') v0.
Proof.
  assert (Hla : is_Some (last_action trained_env)) by (vm_compute; eexists; reflexivity).
  assert (Hpos : (0 < learning_type_number trained_env)%nat) by (vm_compute; lia).
  assert (Hle : (learning_type_number trained_env <= difficulties_levels trained_env)%nat)
    by (vm_compute; lia).
  assert (Hs : (0 < num_subjects trained_env)%nat) by (vm_compute; lia).
  assert (Hd : (0 < difficulties_levels trained_env)%nat) by (vm_compute; lia).
  split; [exact Hla |]. destruct Hla as [la Hla].
  destruct (@tested_subject_rows_hold_new_vector sample_externals trained_env 0 0 0 la
              sample_one_estimate trained_env_well_formed trained_env_nonneg
              Hpos Hs Hd Hla) as [Hreturns Hrows].
  destruct (Hreturns (or_introl Hle)) as (e' & r & Htest).
  destruct (Hrows e' r Htest)
    as (e_mid & e_attr & previous & improvement & g & v0 & _ & _ & _ & Hsubject & _).
  exists e', r, v0. split; [exact Htest |].
  intros d Hd'. destruct (Hsubject d Hd') as (c' & Hc' & _ & Hsame).
  exists c'. split; [exact Hc' | exact Hsame].
Defined.

(** C10 as it is stated fails in two ways.  The arrays hold binary64
    numbers, and there the average of a value with itself is not always that
    value: for the double nearest to 0.1, [(x * 1 + x * 0.5) / 1.5] is the
    next double above it, so the estimates of the tested subject do not equal
    the attribution vector exactly.  And on [retested_env], where there are
    more learning types than difficulty levels and the cell of difficulty 1
    counts a training, the test raises [IndexError] and the gain estimates of
    the tested subject stay what they were. *)
Lemma tested_subject_rows_are_not_exactly_the_new_vector :
  (average_1_half_float64 0x1.999999999999ap-4 0x1.999999999999ap-4
   = 0x1.999999999999bp-4%float /\
   PrimFloat.eqb (average_1_half_float64 0x1.999999999999ap-4 0x1.999999999999ap-4)
                 0x1.999999999999ap-4 = false) /\
  exists e', @_test sample_externals 0 1 0 retested_env = (e', Raise IndexError) /\
             map (map (tail_slice 3)) (last_scores e')
             = map (map (tail_slice 3)) (last_scores retested_env).
Proof.
  split; [split; vm_compute; reflexivity |].
  vm_compute. eexists. split; reflexivity.
Qed.

(** C7, as the code has it.  After the gain attribution of a test that
    returns, the resulting vector [v0] is propagated into the rows of every
    subject at every difficulty, not only at the tested one: entry by entry,
    the stored gain estimate of every other subject becomes
    [(1*old + 0.5*new)/1.5] at each difficulty, and that of the tested subject
    becomes [(1*new + 0.5*new)/1.5], which in exact arithmetic is [new].  A
    test returns in every environment with no more learning types than
    difficulty levels, and on every cell without a training since its last
    test. *)
Theorem gain_vector_propagates_to_every_row `{Externals} (e : StudentEnv)
  (subject difficulty : nat) (z : Q) (la : action_log) :
  one_estimate_per_subject -> well_formed e -> nonneg_counters e ->
  (0 < learning_type_number e)%nat ->
  (subject < num_subjects e)%nat -> (difficulty < difficulties_levels e)%nat ->
  last_action e = Some la ->
  ((learning_type_number e <= difficulties_levels e)%nat
   \/ untrained_cell e subject difficulty ->
   exists (e' : StudentEnv) (r : Q), _test subject difficulty z e = (e', Ok r)) /\
  forall (e' : StudentEnv) (r : Q),
    _test subject difficulty z e = (e', Ok r) ->
    exists (e_mid e_attr : StudentEnv) (previous improvement : Q)
           (g : type_gain) (v0 : list Q),
      record_test_score subject difficulty z e = (e_mid, Ok (previous, improvement)) /\
      _get_mean_type_gain subject difficulty improvement e_mid = (e_attr, Ok g) /\
      type_gain_value g e_attr = (e_attr, Ok v0) /\
      forall s d c0, cell (last_scores e) s d = Some c0 ->
        exists c', cell (last_scores e') s d = Some c' /\
          forall (i : nat) (old new : Q),
            tail_slice (learning_type_number e) c0 !! i = Some old ->
            v0 !! i = Some new ->
            exists x, tail_slice (learning_type_number e) c' !! i = Some x /\
                      x == (if decide (s = subject)
                            then (1 * new + (1 # 2) * new) / (3 # 2)
                            else (1 * old + (1 # 2) * new) / (3 # 2)) /\
                      (s = subject -> x == new).
Proof.
  intros Hone Hwf Hnonneg Hpos Hs Hd Hla.
  destruct (lookup_lt_is_Some_2 (cumulative_train_time e) subject) as [time Htime].
  { now rewrite (wf_train_time e Hwf). }
  split.
  { intros Hreach.
    destruct (test_run e subject difficulty z la time Hone Hwf Hnonneg Hpos Hreach Hs Hd
                Hla Htime)
      as (a1 & t & a3 & sampled & previous & improvement & r & g & v0
          & _ & _ & _ & Htest & _).
    eexists _, _. exact Htest. }
  intros e' r Htest.
  pose proof (test_returned _ _ _ _ _ _ Hone Hwf Hnonneg Hs Hd Htest) as Hreach.
  destruct (test_run e subject difficulty z la time Hone Hwf Hnonneg Hpos Hreach Hs Hd
              Hla Htime)
    as (a1 & t & a3 & sampled & previous & improvement & r' & g & v0
        & Hrecord & Hgain & Hvalue & Htest' & _ & _ & _ & _ & _ & Hcells).
  rewrite Htest in Htest'. injection Htest' as -> _.
  eexists _, _, previous, improvement, g, v0.
  split; [exact Hrecord |]. split; [exact Hgain |]. split; [exact Hvalue |]. simpl.
  intros s d c0 Hc0. destruct (Hcells s d c0 Hc0) as (c' & Hc' & Htail & _).
  exists c'. split; [exact Hc' |]. intros i old new Hold Hnew.
  unfold propagated in Htail. destruct (decide (s = subject)) as [Hsame | Hother].
  - destruct (Forall2_lookup_r _ _ _ _ _ Htail Hnew) as (x & Hx & Hxnew).
    exists x. split; [exact Hx |]. split; [| intros _; exact Hxnew].
    rewrite Hxnew. field.
  - assert (Hblend : zip_with average_1_half (tail_slice (learning_type_number e) c0) v0 !! i
                     = Some (average_1_half old new)).
    { rewrite lookup_zip_with, Hold. simpl. now rewrite Hnew. }
    destruct (Forall2_lookup_r _ _ _ _ _ Htail Hblend) as (x & Hx & Hxavg).
    exists x. split; [exact Hx |]. split; [| contradiction].
    rewrite Hxavg. unfold average_1_half. field.
Qed.

Lemma gain_vector_propagates_to_every_row_witness :
  is_Some (last_action trained_env) /\
  exists (e' : StudentEnv) (r : Q) (v0 : list Q),
    @_test sample_externals 0 0 0 trained_env = (e', Ok r) /\
    forall s d c0, cell (last_scores trained_env) s d = Some c0 ->
      exists c', cell (last_scores e') s d = Some c' /\
        forall (i : nat) (old new : Q),
          tail_slice 3 c0 !! i = Some old -> v0 !! i = Some new ->
          exists x, tail_slice 3 c' !! i = Some x /\
                    x == (if decide (s = 0%nat)
                          then (1 * new + (1 # 2) * new) / (3 # 2)
                          else (1 * old + (1 # 2) * new) / (3 # 2)) /\
                    (s = 0%nat -> x == new).
Proof.
  assert (Hla : is_Some (last_action trained_env)) by (vm_compute; eexists; reflexivity).
  assert (Hpos : (0 < learning_type_number trained_env)%nat) by (vm_compute; lia).
  assert (Hle : (learning_type_number trained_env <= difficulties_levels trained_env)%nat)
    by (vm_compute; lia).
  assert (Hs : (0 < num_subjects trained_env)%nat) by (vm_compute; lia).
  assert (Hd : (0 < difficulties_levels trained_env)%nat) by (vm_compute; lia).
  split; [exact Hla |]. destruct Hla as [la Hla].
  destruct (@gain_vector_propagates_to_every_row sample_externals trained_env 0 0 0 la
              sample_one_estimate trained_env_well_formed trained_env_nonneg
              Hpos Hs Hd Hla) as [Hreturns Hrows].
  destruct (Hreturns (or_introl Hle)) as (e' & r & Htest).
  destruct (Hrows e' r Htest)
    as (e_mid & e_attr & previous & improvement & g & v0 & _ & _ & _ & Hcells).
  exists e', r, v0. split; [exact Htest | exact Hcells].
Defined.

(** C7 as it is stated fails on [trained_env], where every stored gain
    estimate is 0, when subject 0 is tested at difficulty 0: the row of
    subject 1 at difficulty 1, which is not the tested difficulty, does not
    keep its estimates (they become 23/16, the attribution vector having the
    entries 69/16). *)
Lemma propagation_reaches_other_difficulties :
  ~ (forall (e' : StudentEnv) (r : Q) (c0 c' : list Q),
       @_test sample_externals 0 0 0 trained_env = (e', Ok r) ->
       cell (last_scores trained_env) 1 1 = Some c0 ->
       cell (last_scores e') 1 1 = Some c' ->
       Forall2 Qeq (tail_slice 3 c') (tail_slice 3 c0)).
Proof.
  intros Hclaim.
  pose (out := @_test sample_externals 0 0 0 trained_env).
  assert (Hrun : exists r, out = (fst out, Ok r)).
  { vm_compute. eexists. reflexivity. }
  destruct Hrun as [r Hrun].
  assert (Hold : exists c0, cell (last_scores trained_env) 1 1 = Some c0 /\
                            tail_slice 3 c0 !! 0%nat = Some 0).
  { vm_compute. eexists. split; reflexivity. }
  assert (Hnew : exists c' x, cell (last_scores (fst out)) 1 1 = Some c' /\
                              tail_slice 3 c' !! 0%nat = Some x /\ ~ x == 0).
  { vm_compute. eexists _, _. split; [reflexivity |]. split; [reflexivity |]. discriminate. }
  destruct Hold as (c0 & Hc0 & Hzero). destruct Hnew as (c' & x & Hc' & Hx & Hne).
  pose proof (Hclaim _ r c0 c' Hrun Hc0 Hc') as Hsame.
  clear Hclaim Hrun Hc0 Hc'. clearbody out.
  apply Hne. exact (Forall2_lookup_lr _ _ _ _ _ _ Hsame Hx Hzero).
Qed.

(** ** Tests and trainings that return *)

(** [_test] returns on a valid cell unless the counter loop of the gain
    attribution leaves [train_counter]: in an environment with a learning
    type it returns when there are no more learning types than difficulty
    levels or the tested cell counts no training since its last test, and
    otherwise it raises [IndexError], after it has stored the sampled score
    and its gain in the tested cell, with every other cell of [last_scores],
    the skills and the train times as they were. *)
Theorem test_returns_unless_counter_loop_leaves_the_array `{Externals} (e : StudentEnv)
  (subject difficulty : nat) (z : Q) (la : action_log) (c : list Q) :
  one_estimate_per_subject -> well_formed e -> nonneg_counters e ->
  (0 < learning_type_number e)%nat ->
  (subject < num_subjects e)%nat -> (difficulty < difficulties_levels e)%nat ->
  last_action e = Some la ->
  cell (last_scores e) subject difficulty = Some c ->
  ((learning_type_number e <= difficulties_levels e)%nat
   \/ np_sum (counts_slice (learning_type_number e) c) <= 0 ->
   exists (e' : StudentEnv) (r : Q), _test subject difficulty z e = (e', Ok r)) /\
  ((difficulties_levels e < learning_type_number e)%nat ->
   0 < np_sum (counts_slice (learning_type_number e) c) ->
   exists (e' : StudentEnv) (sampled previous : Q),
     _test subject difficulty z e = (e', Raise IndexError) /\
     c !! 0%nat = Some previous /\ 0 <= sampled <= 100 /\
     cell (last_scores e') subject difficulty
     = Some (<[0%nat := sampled]> (<[1%nat := sampled - previous]> c)) /\
     (forall s d, s <> subject \/ d <> difficulty ->
                  cell (last_scores e') s d = cell (last_scores e) s d) /\
     skills_levels e' = skills_levels e /\
     cumulative_train_time e' = cumulative_train_time e).
Proof.
  intros Hone Hwf Hnonneg Hpos Hs Hd Hla Hc. split.
  - intros Hreach.
    destruct (lookup_lt_is_Some_2 (cumulative_train_time e) subject) as [time Htime].
    { now rewrite (wf_train_time e Hwf). }
    assert (Hreach' : (learning_type_number e <= difficulties_levels e)%nat
                      \/ untrained_cell e subject difficulty).
    { destruct Hreach as [Hle | Hsum]; [now left | right].
      intros c' Hc'. assert (c' = c) as -> by congruence. exact Hsum. }
    destruct (test_run e subject difficulty z la time Hone Hwf Hnonneg Hpos Hreach' Hs Hd
                Hla Htime)
      as (a1 & t & a3 & sampled & previous & improvement & r & g & v0
          & _ & _ & _ & Htest & _).
    eexists _, _. exact Htest.
  - intros Hmore Htotal.
    destruct (test_raises e subject difficulty z c Hone Hwf Hnonneg Hmore Hs Hd Hc Htotal)
      as (a & t & sampled & previous & Hraise & Hprevious & Hsampled & Hcell & Hother).
    eexists _, sampled, previous. split; [exact Hraise |]. simpl.
    split; [exact Hprevious |]. split; [exact Hsampled |].
    split; [exact Hcell |]. split; [exact Hother |]. now split.
Qed.

Lemma test_returns_unless_counter_loop_leaves_the_array_witness :
  (difficulties_levels retested_env < learning_type_number retested_env)%nat /\
  (exists (e' : StudentEnv) (r : Q),
     @_test sample_externals 0 0 0 retested_env = (e', Ok r)) /\
  (exists e' : StudentEnv,
     @_test sample_externals 0 1 0 retested_env = (e', Raise IndexError)).
Proof.
  assert (Hmore : (difficulties_levels retested_env < learning_type_number retested_env)%nat)
    by (vm_compute; lia).
  assert (Hla : exists la, last_action retested_env = Some la)
    by (vm_compute; eexists; reflexivity).
  assert (Hcell0 : exists c, cell (last_scores retested_env) 0 0 = Some c /\
                             np_sum (counts_slice 3 c) == 0)
    by (vm_compute; eexists; split; reflexivity).
  assert (Hcell1 : exists c, cell (last_scores retested_env) 0 1 = Some c /\
                             np_sum (counts_slice 3 c) == 1)
    by (vm_compute; eexists; split; reflexivity).
  destruct Hla as [la Hla]. destruct Hcell0 as (c0 & Hc0 & Hsum0).
  destruct Hcell1 as (c1 & Hc1 & Hsum1).
  split; [exact Hmore |]. split.
  - refine (proj1 (@test_returns_unless_counter_loop_leaves_the_array sample_externals
                     retested_env 0 0 0 la c0 sample_one_estimate retested_env_well_formed
                     retested_env_nonneg _ _ _ Hla Hc0) _).
    + vm_compute. lia.
    + vm_compute. lia.
    + vm_compute. lia.
    + right. change (learning_type_number retested_env) with 3%nat.
      rewrite Hsum0. apply Qle_refl.
  - destruct (proj2 (@test_returns_unless_counter_loop_leaves_the_array sample_externals
                       retested_env 0 1 0 la c1 sample_one_estimate retested_env_well_formed
                       retested_env_nonneg ltac:(vm_compute; lia) ltac:(vm_compute; lia)
                       ltac:(vm_compute; lia) Hla Hc1) Hmore)
      as (e' & sampled & previous & Hraise & _).
    + change (learning_type_number retested_env) with 3%nat. rewrite Hsum1. reflexivity.
    + now exists e'.
Defined.

(** The reward of a [_test] that returns takes one of three values.
    Without training time since the subject's last test it is the time
    penalty -2; otherwise a stored score of at least 95 earns
    200 * (difficulty + 1) / num_difficulty_levels when the score before was
    below 95 and costs -700 when it was not; and a stored score below 95
    earns the time penalty again, the gain term being multiplied by 0.  The
    train times are after the test what they were before it. *)
Theorem test_reward_is_one_of_three `{Externals} (e : StudentEnv)
  (subject difficulty : nat) (z : Q) :
  forall (e' : StudentEnv) (r time : Q),
    _test subject difficulty z e = (e', Ok r) ->
    cumulative_train_time e !! subject = Some time ->
    exists (previous score : Q) (c c' : list Q),
      cell (last_scores e) subject difficulty = Some c /\ c !! 0%nat = Some previous /\
      cell (last_scores e') subject difficulty = Some c' /\ c' !! 0%nat = Some score /\
      cumulative_train_time e' = cumulative_train_time e /\
      (time == 0 -> r == TIME_PENALTY_FOR_TEST) /\
      (~ time == 0 -> TARGET_SCORE <= score -> previous < TARGET_SCORE ->
       r == REWARD_FOR_ACHIEVING_TARGET_LEVEL * Qnat (difficulty + 1)
            / Qnat (difficulties_levels e)) /\
      (~ time == 0 -> TARGET_SCORE <= score -> TARGET_SCORE <= previous ->
       r == PENALTY_FOR_UNNECESSARY_TEST) /\
      (~ time == 0 -> score < TARGET_SCORE -> r == TIME_PENALTY_FOR_TEST).
Proof.
  intros e' r time Htest Htime.
  destruct (test_reward_of_returned _ _ _ _ _ _ _ Htest Htime)
    as (previous & score & c & c' & Hc & Hprevious & Hc' & Hscore & Hsame).
  destruct (test_frame e subject difficulty z) as (_ & Hkept & _).
  rewrite Htest in Hkept. simpl in Hkept.
  exists previous, score, c, c'.
  split; [exact Hc |]. split; [exact Hprevious |].
  split; [exact Hc' |]. split; [exact Hscore |]. split; [exact Hkept |].
  destruct (Qeq_bool time 0) eqn:Hzero.
  - apply Qeq_bool_iff in Hzero.
    repeat split; intros; first [exact Hsame | contradiction].
  - apply Qeq_bool_neq in Hzero.
    destruct (Qle_bool TARGET_SCORE score) eqn:Hpass.
    + apply Qle_bool_iff in Hpass.
      destruct (Qlt_bool previous TARGET_SCORE) eqn:Hbefore.
      * apply Qlt_bool_iff in Hbefore.
        repeat split; intros; first [exact Hsame | contradiction | lra].
      * apply not_true_iff_false in Hbefore. rewrite Qlt_bool_iff in Hbefore.
        repeat split; intros; first [exact Hsame | contradiction | lra].
    + apply not_true_iff_false in Hpass. rewrite Qle_bool_iff in Hpass.
      repeat split; intros; first [exact Hsame | contradiction | lra].
Qed.

Lemma test_reward_is_one_of_three_witness :
  exists (e' : StudentEnv) (r score : Q) (c' : list Q),
    @_test sample_externals 0 0 0 drilled_env = (e', Ok r) /\
    cumulative_train_time drilled_env !! 0%nat = Some (Qnat 27) /\
    cell (last_scores e') 0 0 = Some c' /\ c' !! 0%nat = Some score /\
    TARGET_SCORE <= score /\
    r == REWARD_FOR_ACHIEVING_TARGET_LEVEL * Qnat (0 + 1)
         / Qnat (difficulties_levels drilled_env).
Proof.
  pose (run := @_test sample_externals 0 0 0 drilled_env).
  assert (Hrun : exists r, run = (fst run, Ok r)) by (vm_compute; eexists; reflexivity).
  assert (Htime : cumulative_train_time drilled_env !! 0%nat = Some (Qnat 27))
    by (vm_compute; reflexivity).
  assert (Hbefore : exists c, cell (last_scores drilled_env) 0 0 = Some c /\
                              c !! 0%nat = Some 0)
    by (vm_compute; eexists; split; reflexivity).
  assert (Hafter : exists c' score, cell (last_scores (fst run)) 0 0 = Some c' /\
                                    c' !! 0%nat = Some score /\ TARGET_SCORE <= score).
  { vm_compute. eexists _, _. split; [reflexivity |]. split; [reflexivity |]. discriminate. }
  destruct Hrun as (r & Hrun). destruct Hbefore as (c & Hc & Hprevious).
  destruct Hafter as (c1 & score1 & Hc1 & Hscore1 & Hpass).
  destruct (@test_reward_is_one_of_three sample_externals drilled_env 0 0 0
              (fst run) r (Qnat 27) Hrun Htime)
    as (previous & score & c0 & c' & Hc0 & Hprevious0 & Hc' & Hscore & _ & _ & Hearn & _).
  rewrite Hc in Hc0. injection Hc0 as <-.
  rewrite Hprevious in Hprevious0. injection Hprevious0 as <-.
  rewrite Hc1 in Hc'. injection Hc' as <-.
  rewrite Hscore1 in Hscore. injection Hscore as <-.
  exists (fst run), r, score1, c1.
  split; [exact Hrun |]. split; [exact Htime |]. split; [exact Hc1 |].
  split; [exact Hscore1 |]. split; [exact Hpass |].
  apply Hearn; [| exact Hpass |].
  - intros Habs. vm_compute in Habs. discriminate Habs.
  - vm_compute. reflexivity.
Defined.

(** A training step that returns earns nothing: [_train] returns 0 on
    both of its paths, so the reward of the step is the step cost
    [- sqrt(step_num)] alone, the step is not done, it returns the score
    matrix, and [step_num] has grown by one.  A training step on a valid
    action returns when its subject and its learning type are both below 3,
    the size of the skill-gain profile. *)
Theorem training_step_costs_only_time `{Externals} (e : StudentEnv)
  (subject test_difficulty learning_types learning_difficulty : Z) (z : Q) :
  (forall (e' : StudentEnv) (out : step_result),
     step [0%Z; subject; test_difficulty; learning_types; learning_difficulty] z e
     = (e', Ok out) ->
     reward out == - np_sqrt (Qnat (step_num e)) /\
     is_done out = 0%Z /\
     observation out = last_scores e' /\
     step_num e' = (step_num e + 1)%nat) /\
  (one_estimate_per_subject -> well_formed e -> profile_ok (mean_skill_gains e) ->
   contains (action_space e)
            [0%Z; subject; test_difficulty; learning_types; learning_difficulty] = true ->
   (subject < 3)%Z -> (learning_types < 3)%Z ->
   exists (e' : StudentEnv) (out : step_result),
     step [0%Z; subject; test_difficulty; learning_types; learning_difficulty] z e
     = (e', Ok out)).
Proof.
  split.
  - intros e' out Hstep.
    pose proof (step_num_after_step e
                  [0%Z; subject; test_difficulty; learning_types; learning_difficulty] z)
      as Hnum.
    rewrite Hstep in Hnum.
    destruct (step_train_inv _ _ _ _ _ _ _ _ Hstep) as (_ & e_t & _ & _ & ->). simpl.
    split; [ring |]. now repeat split.
  - intros Hone Hwf Hprofile Hvalid Hsubject Htype.
    destruct (step_train_run e subject test_difficulty learning_types learning_difficulty z
                Hone Hwf Hprofile Hsubject Htype Hvalid) as (e_t & e' & _ & _ & Hstep).
    eexists _, _. exact Hstep.
Qed.

Lemma crowded_env_well_formed : well_formed crowded_env.
Proof. concrete_well_formed. Qed.

Lemma training_step_costs_only_time_witness :
  num_subjects crowded_env = 4%nat /\
  exists (e' : StudentEnv) (out : step_result),
    @step sample_externals [0; 1; 0; 2; 1]%Z (1 # 2) crowded_env = (e', Ok out) /\
    reward out == - sample_sqrt (Qnat (step_num crowded_env)) /\
    is_done out = 0%Z.
Proof.
  split; [reflexivity |].
  destruct (@training_step_costs_only_time sample_externals crowded_env 1 0 2 1 (1 # 2))
    as [Hcost Hreturns].
  destruct (Hreturns sample_one_estimate crowded_env_well_formed
              (profile_generated 4 3 (still_draws 1)) eq_refl ltac:(lia) ltac:(lia))
    as (e' & out & Hstep).
  destruct (Hcost e' out Hstep) as (Hreward & Hdone & _).
  exists e', out. split; [exact Hstep |]. split; [exact Hreward | exact Hdone].
Defined.

(** A test step that returns has set the train time of the tested subject
    to 0 and left the train times of the other subjects and every skill as
    they were.  A test step on a valid action returns in every environment
    with no more learning types than difficulty levels, and on every cell
    without a training since its last test. *)
Theorem test_step_clears_the_train_time `{Externals} (e : StudentEnv)
  (subject test_difficulty learning_types learning_difficulty : Z) (z : Q) :
  (forall (e' : StudentEnv) (out : step_result),
     step [1%Z; subject; test_difficulty; learning_types; learning_difficulty] z e
     = (e', Ok out) ->
     cumulative_train_time e' = <[Z.to_nat subject := 0]> (cumulative_train_time e) /\
     cumulative_train_time e' !! Z.to_nat subject = Some 0 /\
     skills_levels e' = skills_levels e) /\
  (one_estimate_per_subject -> well_formed e -> nonneg_counters e ->
   contains (action_space e)
            [1%Z; subject; test_difficulty; learning_types; learning_difficulty] = true ->
   (learning_type_number e <= difficulties_levels e)%nat
   \/ untrained_cell e (Z.to_nat subject) (Z.to_nat test_difficulty) ->
   exists (e' : StudentEnv) (out : step_result),
     step [1%Z; subject; test_difficulty; learning_types; learning_difficulty] z e
     = (e', Ok out)).
Proof.
  split.
  - intros e' out Hstep.
    destruct (step_test_inv _ _ _ _ _ _ _ _ Hstep) as (Hvalid & _ & _ & _ & _ & _ & _ & Hsome & _).
    destruct (step_test_state e e' _ _ _ _ z _ Hvalid Hstep) as [Htime Hskills].
    split; [exact Htime |]. split; [| exact Hskills].
    rewrite Htime. apply list_lookup_insert_eq. now apply lookup_lt_is_Some.
  - intros Hone Hwf Hnonneg Hvalid Hreach.
    destruct (step_test_run e subject test_difficulty learning_types learning_difficulty z
                Hone Hwf Hnonneg Hreach Hvalid)
      as (e_t & e' & r & tops & _ & _ & _ & _ & Hstep).
    eexists e', _. exact Hstep.
Qed.

Lemma test_step_clears_the_train_time_witness :
  cumulative_train_time lopsided_trained_env !! 0%nat = Some (0 + Qnat 1) /\
  exists (e' : StudentEnv) (out : step_result),
    @step sample_externals [1; 0; 0; 0; 0]%Z 0 lopsided_trained_env = (e', Ok out) /\
    cumulative_train_time e' !! 0%nat = Some 0.
Proof.
  split; [reflexivity |].
  destruct (@test_step_clears_the_train_time sample_externals lopsided_trained_env
              0 0 0 0 0) as [Hclears Hreturns].
  destruct (Hreturns sample_one_estimate lopsided_trained_env_well_formed
              lopsided_trained_env_nonneg eq_refl
              (or_intror lopsided_trained_env_untrained)) as (e' & out & Hstep).
  destruct (Hclears e' out Hstep) as (_ & Hzero & _).
  exists e', out. split; [exact Hstep | exact Hzero].
Defined.

(** A test right after a test of the same subject earns only the time
    penalty: when two test steps in a row on one subject, at any
    difficulties, both return, the reward of the second is -2, plus 2000 when
    that step is done, minus the step cost.  Both return in an environment
    reached from a constructed one with no more learning types than
    difficulty levels. *)
Theorem test_after_a_test_earns_the_time_penalty `{Externals}
  (e : StudentEnv) (subject difficulty1 types1 level1 difficulty2 types2 level2 : Z)
  (z1 z2 : Q) :
  (forall (e1 e2 : StudentEnv) (out1 out2 : step_result),
     step [1%Z; subject; difficulty1; types1; level1] z1 e = (e1, Ok out1) ->
     step [1%Z; subject; difficulty2; types2; level2] z2 e1 = (e2, Ok out2) ->
     reward out2
     == TIME_PENALTY_FOR_TEST
        + (if (is_done out2 =? 1)%Z then REWARD_FOR_ACHIEVING_ALL_LEVELS else 0)
        - np_sqrt (Qnat (step_num e + 1))) /\
  (forall start_ok : Q -> Prop,
     one_estimate_per_subject ->
     reachable start_ok e ->
     (learning_type_number e <= difficulties_levels e)%nat ->
     contains (action_space e) [1%Z; subject; difficulty1; types1; level1] = true ->
     contains (action_space e) [1%Z; subject; difficulty2; types2; level2] = true ->
     exists (e1 e2 : StudentEnv) (out1 out2 : step_result),
       step [1%Z; subject; difficulty1; types1; level1] z1 e = (e1, Ok out1) /\
       step [1%Z; subject; difficulty2; types2; level2] z2 e1 = (e2, Ok out2)).
Proof.
  split.
  - intros e1 e2 out1 out2 Hstep1 Hstep2.
    destruct (step_test_inv _ _ _ _ _ _ _ _ Hstep1)
      as (Hvalid1 & _ & _ & _ & _ & _ & _ & Hsome & _).
    destruct (step_test_state e e1 _ _ _ _ z1 _ Hvalid1 Hstep1) as [Htime _].
    pose proof (step_num_after_step e [1%Z; subject; difficulty1; types1; level1] z1) as Hnum.
    rewrite Hstep1 in Hnum.
    destruct (step_test_inv _ _ _ _ _ _ _ _ Hstep2)
      as (_ & e_t & r2 & tops & Htest & _ & _ & _ & ->).
    assert (Hzero : cumulative_train_time
                      (with_last_action (Some (new_log 1 subject difficulty2)) e1)
                    !! Z.to_nat subject = Some 0).
    { simpl. rewrite Htime. apply list_lookup_insert_eq. now apply lookup_lt_is_Some. }
    destruct (test_reward_of_returned _ _ _ _ _ _ _ Htest Hzero)
      as (previous & score & c & c' & _ & _ & _ & _ & Hr).
    change (Qeq_bool 0 0) with true in Hr. cbv iota in Hr.
    simpl. rewrite Hnum.
    destruct (forallb (fun x => Qlt_bool TARGET_SCORE x) tops); simpl; rewrite Hr; ring.
  - intros start_ok Hone Hreach Hlevels Hvalid1 Hvalid2.
    pose proof (reachable_constructed start_ok e Hreach) as He.
    destruct (step_test_run e subject difficulty1 types1 level1 z1 Hone
                (built_shapes e He) (built_counters e He) (or_introl Hlevels) Hvalid1)
      as (e_t & e1 & r1 & tops1 & _ & _ & _ & _ & Hstep1).
    pose proof (step_constructed e [1%Z; subject; difficulty1; types1; level1] z1 He) as He1.
    pose proof (same_configuration_step e [1%Z; subject; difficulty1; types1; level1] z1)
      as (Hspace & Hd & Ht & _).
    rewrite Hstep1 in He1, Hspace, Hd, Ht. simpl in He1, Hspace, Hd, Ht.
    destruct (step_test_run e1 subject difficulty2 types2 level2 z2 Hone
                (built_shapes e1 He1) (built_counters e1 He1))
      as (e_t2 & e2 & r2 & tops2 & _ & _ & _ & _ & Hstep2);
      [left; rewrite Hd, Ht; exact Hlevels | rewrite Hspace; exact Hvalid2 |].
    eexists e1, e2, _, _. split; [exact Hstep1 | exact Hstep2].
Qed.

Lemma test_after_a_test_earns_the_time_penalty_witness :
  exists (e1 e2 : StudentEnv) (out1 out2 : step_result),
    @step sample_externals [1; 0; 0; 0; 0]%Z 0 trained_env = (e1, Ok out1) /\
    @step sample_externals [1; 0; 2; 0; 0]%Z 0 e1 = (e2, Ok out2) /\
    reward out2
    == TIME_PENALTY_FOR_TEST
       + (if (is_done out2 =? 1)%Z then REWARD_FOR_ACHIEVING_ALL_LEVELS else 0)
       - sample_sqrt (Qnat (step_num trained_env + 1)).
Proof.
  destruct (@test_after_a_test_earns_the_time_penalty sample_externals
              trained_env 0 0 0 0 2 0 0 0 0) as [Hpenalty Hreturn].
  destruct (Hreturn (fun _ => True) sample_one_estimate trained_env_reachable
              ltac:(vm_compute; lia) eq_refl eq_refl)
    as (e1 & e2 & out1 & out2 & Hstep1 & Hstep2).
  exists e1, e2, out1, out2. split; [exact Hstep1 |]. split; [exact Hstep2 |].
  exact (Hpenalty e1 e2 out1 out2 Hstep1 Hstep2).
Defined.

(** ** What a test writes *)

Lemma reach_after_record (e : StudentEnv) (a : list (list (list Q)))
  (subject difficulty : nat) (c : list Q) (x y : Q) :
  cell (last_scores e) subject difficulty = Some c ->
  cell a subject difficulty = Some (<[0%nat := x]> (<[1%nat := y]> c)) ->
  (learning_type_number e <= difficulties_levels e)%nat
  \/ untrained_cell e subject difficulty ->
  (learning_type_number (with_last_scores a e)
   <= difficulties_levels (with_last_scores a e))%nat
  \/ untrained_cell (with_last_scores a e) subject difficulty.
Proof.
  intros Hc Ha [Hle | Huntrained]; [now left | right].
  intros c' Hc'. simpl in Hc'. rewrite Ha in Hc'. injection Hc' as <-. simpl.
  unfold counts_slice. rewrite !drop_insert_lt by lia. exact (Huntrained c Hc).
Qed.

(** What a test that returns has stored in the tested cell: as its score
    the sample around the test mean, [normal(test_mean, 0.5)], cut to
    [0, 100]; as its gain that score minus the score the cell held before;
    and zero for each count of trainings since the last test.  A test returns
    in every environment with no more learning types than difficulty levels,
    and on every cell without a training since its last test. *)
Theorem test_stores_the_clamped_sample `{Externals} (e : StudentEnv)
  (subject difficulty : nat) (z : Q) (la : action_log) :
  one_estimate_per_subject -> well_formed e -> nonneg_counters e ->
  (0 < learning_type_number e)%nat ->
  (subject < num_subjects e)%nat -> (difficulty < difficulties_levels e)%nat ->
  last_action e = Some la ->
  ((learning_type_number e <= difficulties_levels e)%nat
   \/ untrained_cell e subject difficulty ->
   exists (e' : StudentEnv) (r : Q), _test subject difficulty z e = (e', Ok r)) /\
  forall (e' : StudentEnv) (r : Q),
    _test subject difficulty z e = (e', Ok r) ->
    exists (mean previous score : Q) (c c' : list Q),
      _get_test_mean subject difficulty e = (e, Ok mean) /\
      cell (last_scores e) subject difficulty = Some c /\ c !! 0%nat = Some previous /\
      score = py_min (py_max (random_normal mean TEST_SCORE_STD z) 0) 100 /\
      cell (last_scores e') subject difficulty = Some c' /\
      c' !! 0%nat = Some score /\
      c' !! 1%nat = Some (score - previous) /\
      counts_slice (learning_type_number e) c' = replicate (learning_type_number e) 0.
Proof.
  intros Hone Hwf Hnonneg Hpos Hs Hd Hla.
  destruct (lookup_lt_is_Some_2 (cumulative_train_time e) subject) as [time Htime];
    [now rewrite (wf_train_time e Hwf) |].
  split.
  { intros Hreach.
    destruct (test_run e subject difficulty z la time Hone Hwf Hnonneg Hpos Hreach Hs Hd
                Hla Htime)
      as (a1 & t & a3 & sampled & previous & improvement & r & g & v0
          & _ & _ & _ & Htest & _).
    eexists _, _. exact Htest. }
  intros e' r Htest0.
  pose proof (test_returned _ _ _ _ _ _ Hone Hwf Hnonneg Hs Hd Htest0) as Hreach.
  destruct (test_run e subject difficulty z la time Hone Hwf Hnonneg Hpos Hreach Hs Hd
              Hla Htime)
    as (a1 & t & a3 & sampled & previous & improvement & r' & g & v0
        & Hrecord & Hgain & Hvalue & Htest & _ & Hv0 & _ & _ & _ & Hcells).
  rewrite Htest0 in Htest. injection Htest as -> ->.
  set (e' := with_last_action _ _) in Htest0.
  set (n := learning_type_number e) in *.
  destruct (record_test_score_inv _ _ _ _ _ _ _ Hrecord)
    as (mean & c & Hmean & Hc & Hprevious & Hc1).
  change (last_scores (with_last_scores a1 e)) with a1 in Hc1.
  set (score := py_min (py_max (random_normal mean TEST_SCORE_STD z) 0) 100) in *.
  destruct (Hcells subject difficulty c Hc) as (c' & Hc' & _ & _ & Htested).
  destruct (Htested (conj eq_refl eq_refl)) as (Hscore & Hgain_field & _ & Hcounts).
  pose proof (cell_shape _ _ _ _ _ _ _ (wf_scores e Hwf) Hc) as (_ & _ & Hlen). fold n in Hlen.
  (* the score read at the end is the score that was recorded *)
  assert (Hsame : sampled = score).
  { destruct (record_test_score_run e subject difficulty z Hone Hwf Hs Hd)
      as (c0 & a & sampled0 & previous0 & improvement0
          & Hc0 & _ & _ & Hshape1 & Hcell_a & Hother & Hrecord0).
    rewrite Hrecord in Hrecord0. injection Hrecord0 as <- _ _.
    assert (c0 = c) as -> by congruence.
    set (e_mid := with_last_scores a1 e) in *.
    assert (Hwf_mid : well_formed e_mid) by now apply well_formed_with_last_scores.
    pose proof (record_keeps_counts e a1 subject difficulty c _ _ Hnonneg Hc Hcell_a Hother)
      as Hnonneg_mid.
    pose proof (reach_after_record e a1 subject difficulty c _ _ Hc Hcell_a Hreach)
      as Hreach_mid.
    destruct (get_mean_type_gain_run e_mid subject difficulty improvement
                Hwf_mid Hnonneg_mid Hpos Hreach_mid Hs Hd)
      as (t' & g' & v0' & Hgain' & _ & Hreads & _ & Hv0').
    rewrite Hgain in Hgain'. injection Hgain' as Ht <-.
    set (e1 := with_train_counter t e_mid) in *.
    assert (Hreads1 : gain_reads g v0' e1).
    { replace e1 with (with_train_counter t' e_mid); [exact Hreads |].
      unfold e1. now rewrite <- Ht. }
    destruct (propagate_type_gain_run e1 subject g v0' Hpos Hshape1 Hv0' Hs Hreads1)
      as (e2 & Hprop & _ & Hshape2 & Hcells2).
    destruct (Hcells2 subject difficulty _ Hc1) as (c2 & Hc2 & Hhead & _).
    pose proof (cell_shape _ _ _ _ _ _ _ Hshape2 Hc2) as (_ & _ & Hlen2).
    pose proof Htest0 as Hrun. unfold _test in Hrun.
    erewrite bind_ok in Hrun by exact Hrecord. cbv beta in Hrun.
    erewrite bind_ok in Hrun by exact Hgain. cbv beta in Hrun.
    erewrite bind_ok in Hrun by exact Hprop. cbv beta in Hrun.
    apply test_reward_inv in Hrun
      as (c3 & c3' & score' & time' & Hc3 & -> & Hc3' & Hscore' & _).
    assert (c3 = c2) as -> by congruence.
    simpl in Hc3'. simpl in Hc'.
    assert (c' = zero_counts (learning_type_number e2) c2) as -> by congruence.
    rewrite zero_counts_head in Hscore by (rewrite Hlen2; lia).
    rewrite (take_lookup_eq (n + 2) 0 _ _ Hhead) in Hscore by lia.
    rewrite list_lookup_insert_eq in Hscore by (rewrite length_insert; lia).
    now injection Hscore. }
  subst sampled.
  exists mean, previous, score, c, c'.
  split; [exact Hmean |]. split; [exact Hc |]. split; [exact Hprevious |].
  split; [reflexivity |]. split; [exact Hc' |].
  split; [exact Hscore |]. split; [exact Hgain_field | exact Hcounts].
Qed.

Lemma test_stores_the_clamped_sample_witness :
  exists (e' : StudentEnv) (r mean score : Q) (c' : list Q),
    _get_test_mean 0 0 trained_env = (trained_env, Ok mean) /\
    score = py_min (py_max (random_normal mean TEST_SCORE_STD (1 # 2)) 0) 100 /\
    @_test sample_externals 0 0 (1 # 2) trained_env = (e', Ok r) /\
    cell (last_scores e') 0 0 = Some c' /\
    c' !! 0%nat = Some score.
Proof.
  assert (Hla : exists la, last_action trained_env = Some la)
    by (vm_compute; eexists; reflexivity).
  destruct Hla as [la Hla].
  destruct (@test_stores_the_clamped_sample sample_externals trained_env 0 0 (1 # 2) la
              sample_one_estimate trained_env_well_formed trained_env_nonneg
              ltac:(vm_compute; lia) ltac:(vm_compute; lia) ltac:(vm_compute; lia) Hla)
    as [Hreturns Hstores].
  assert (Hle : (learning_type_number trained_env <= difficulties_levels trained_env)%nat)
    by (vm_compute; lia).
  destruct (Hreturns (or_introl Hle)) as (e' & r & Htest).
  destruct (Hstores e' r Htest)
    as (mean & previous & score & c & c' & Hmean & _ & _ & Hscore & Hc' & Hfield & _).
  exists e', r, mean, score, c'.
  split; [exact Hmean |]. split; [exact Hscore |]. split; [exact Htest |].
  split; [exact Hc' | exact Hfield].
Defined.

(** A test writes the score, the gain and the counts of the tested cell
    only: whether [_test] returns or raises, in every other cell these
    fields are after it what they were before it, and only the gain estimates
    may differ. *)
Theorem test_writes_scores_of_the_tested_cell_only `{Externals} (e : StudentEnv)
  (subject difficulty : nat) (z : Q) (la : action_log) :
  one_estimate_per_subject -> well_formed e -> nonneg_counters e ->
  (0 < learning_type_number e)%nat ->
  (subject < num_subjects e)%nat -> (difficulty < difficulties_levels e)%nat ->
  last_action e = Some la ->
  forall (s d : nat) (c0 : list Q),
    s <> subject \/ d <> difficulty ->
    cell (last_scores e) s d = Some c0 ->
    exists c', cell (last_scores (fst (_test subject difficulty z e))) s d = Some c' /\
               c' !! 0%nat = c0 !! 0%nat /\ c' !! 1%nat = c0 !! 1%nat /\
               counts_slice (learning_type_number e) c'
               = counts_slice (learning_type_number e) c0.
Proof.
  intros Hone Hwf Hnonneg Hpos Hs Hd Hla s d c0 Hne Hc0.
  destruct (lookup_lt_is_Some_2 (cumulative_train_time e) subject) as [time Htime];
    [now rewrite (wf_train_time e Hwf) |].
  destruct (cell_in_shape _ _ _ _ subject difficulty (wf_scores e Hwf) Hs Hd) as (c & Hc & _).
  assert (Hcases : ((learning_type_number e <= difficulties_levels e)%nat
                    \/ untrained_cell e subject difficulty)
                   \/ ((difficulties_levels e < learning_type_number e)%nat
                       /\ 0 < np_sum (counts_slice (learning_type_number e) c))).
  { destruct (le_lt_dec (learning_type_number e) (difficulties_levels e)) as [Hle | Hmore];
      [now left; left |].
    destruct (counted_or_untrained e subject difficulty c Hc) as [Htotal | Huntrained];
      [now right | now left; right]. }
  destruct Hcases as [Hreach | [Hmore Htotal]].
  - destruct (test_run e subject difficulty z la time Hone Hwf Hnonneg Hpos Hreach Hs Hd
                Hla Htime)
      as (a1 & t & a3 & sampled & previous & improvement & r & g & v0
          & _ & _ & _ & Htest & _ & _ & _ & _ & _ & Hcells).
    rewrite Htest. simpl.
    destruct (Hcells s d c0 Hc0) as (c' & Hc' & _ & Hhead & _).
    specialize (Hhead Hne). exists c'. split; [exact Hc' |].
    split; [exact (take_lookup_eq _ 0 _ _ Hhead ltac:(lia)) |].
    split; [exact (take_lookup_eq _ 1 _ _ Hhead ltac:(lia)) |].
    now apply take_counts_eq.
  - destruct (test_raises e subject difficulty z c Hone Hwf Hnonneg Hmore Hs Hd Hc Htotal)
      as (a & t & sampled & previous & Hraise & _ & _ & _ & Hother).
    rewrite Hraise. simpl. exists c0. split; [| now repeat split].
    now rewrite Hother.
Qed.

Lemma test_writes_scores_of_the_tested_cell_only_witness :
  (exists c', cell (last_scores (fst (@_test sample_externals 1 2 (1 # 2) trained_env))) 0 0
              = Some c' /\
              counts_slice 3 c' = [0 + 1; 0; 0]) /\
  (exists c', cell (last_scores (fst (@_test sample_externals 0 1 0 retested_env))) 0 0
              = Some c' /\
              counts_slice 3 c' = [0; 0; 0]).
Proof.
  assert (Hla : exists la, last_action trained_env = Some la)
    by (vm_compute; eexists; reflexivity).
  assert (Hla' : exists la, last_action retested_env = Some la)
    by (vm_compute; eexists; reflexivity).
  assert (Hcell : exists c0, cell (last_scores trained_env) 0 0 = Some c0 /\
                             counts_slice 3 c0 = [0 + 1; 0; 0])
    by (vm_compute; eexists; split; reflexivity).
  assert (Hcell' : exists c0, cell (last_scores retested_env) 0 0 = Some c0 /\
                              counts_slice 3 c0 = [0; 0; 0])
    by (vm_compute; eexists; split; reflexivity).
  destruct Hla as [la Hla]. destruct Hla' as [la' Hla'].
  destruct Hcell as (c0 & Hc0 & Hcounts0). destruct Hcell' as (c1 & Hc1 & Hcounts1).
  split.
  - destruct (@test_writes_scores_of_the_tested_cell_only sample_externals trained_env 1 2
                (1 # 2) la sample_one_estimate trained_env_well_formed trained_env_nonneg
                ltac:(vm_compute; lia) ltac:(vm_compute; lia) ltac:(vm_compute; lia) Hla
                0%nat 0%nat c0 ltac:(left; lia) Hc0) as (c' & Hc' & _ & _ & Hcounts).
    exists c'. split; [exact Hc' |]. rewrite <- Hcounts0. exact Hcounts.
  - destruct (@test_writes_scores_of_the_tested_cell_only sample_externals retested_env 0 1
                0 la' sample_one_estimate retested_env_well_formed retested_env_nonneg
                ltac:(vm_compute; lia) ltac:(vm_compute; lia) ltac:(vm_compute; lia) Hla'
                0%nat 0%nat c1 ltac:(right; lia) Hc1) as (c' & Hc' & _ & _ & Hcounts).
    exists c'. split; [exact Hc' |]. rewrite <- Hcounts1. exact Hcounts.
Defined.
